(** * pycti connector helper: a shallow embedding and its verified properties

    The development embeds the parts of
    [pycti/connector/opencti_connector_helper.py] that carry the connector's
    logic: the connector state kept as JSON text ([set_state], [get_state]),
    the heartbeat reconciliation ([PingAlive.ping]), the stream consumer loop
    ([ListenStream.run]), the queue worker ([ListenQueue._process_message],
    [ListenQueue._data_handler]), the bundle splitter ([split_stix2_bundle]
    and its helpers) and [check_max_tlp]; and with them [force_ping], the
    opening of the feed by [ListenStream.run], [send_stix2_bundle] and
    [_send_bundle], [get_config_variable], the two functions of
    [pycti/utils/opencti_stix2_utils.py] and the four methods of
    [pycti/entities/opencti_stix_cyber_observable_relationship.py].

    Python values that travel through [json.loads] and [json.dumps] are
    modelled by the type [json]; Python exceptions by the type [exn] and the
    error monad [result].

    Limits of the embedding, stated once:
    - text is a [string] of 8-bit characters read as the code points 0..255;
      an escape [\uXXXX] above [00ff] is outside the embedding and is rejected
      by [json_loads]; a string key is shown in a [KeyError] as [repr] shows
      it;
    - JSON numbers are the integers; a literal with a fraction or an exponent,
      [NaN] and [Infinity] (Python floats) are outside the embedding and are
      rejected by [json_loads]; [outside_embedding] tells the texts that may
      hold one of these;
    - threads are run to completion where they are started;
    - what the code asks of a library ([str] of a container, [int],
      [base64], [stix2], [pika], [SSEClient], the API client) is a variable
      of the section that uses it. *)

From Stdlib Require Import ZArith List String Ascii Bool Lia.
From Stdlib Require Import Decimal DecimalString DecimalFacts DecimalPos DecimalZ.
Import ListNotations.

#[local] Open Scope string_scope.
#[local] Open Scope list_scope.
#[local] Open Scope Z_scope.

Infix "@@" := String.append (at level 60, right associativity).

(** ** Python exceptions and the error monad *)

Inductive exn_class : Type :=
| KeyError
| TypeError
| ValueError
| JSONDecodeError
| Exception
| SystemExit
| KeyboardInterrupt.

(** [exn_msg] is what [str(e)] returns. *)
Record exn : Type := mk_exn { exn_cls : exn_class; exn_msg : string }.

(** [isinstance(e, Exception)]: what [except Exception] catches. A bare
    [except:] catches every [exn]. *)
Definition is_Exception (e : exn) : bool :=
  match exn_cls e with
  | SystemExit | KeyboardInterrupt => false
  | _ => true
  end.

Inductive result (A : Type) : Type :=
| Return (a : A)
| Raise (e : exn).

Arguments Return {A} a.
Arguments Raise {A} e.

Definition bind {A B : Type} (m : result A) (k : A -> result B) : result B :=
  match m with
  | Return a => k a
  | Raise e => Raise e
  end.

Notation "x <- m ;; k" := (bind m (fun x => k))
  (at level 61, m at next level, right associativity).
Notation "' p <- m ;; k" := (bind m (fun x => match x with p => k end))
  (at level 61, p pattern, m at next level, right associativity).

Fixpoint foldM {A S : Type} (f : S -> A -> result S) (l : list A) (s : S)
  : result S :=
  match l with
  | [] => Return s
  | x :: r => s' <- f s x ;; foldM f r s'
  end.

Definition quote_char : ascii := "034"%char.
Definition apostrophe : string := "'".

Definition hex_digit (n : N) : ascii :=
  if (n <? 10)%N then ascii_of_N (48 + n) else ascii_of_N (87 + n).

(** [repr] of a string of code points below 256: between apostrophes, or
    between double quotes when the string holds an apostrophe and no double
    quote; the backslash and the chosen quote are escaped, and so are the
    characters that are not printable ([str.isprintable]): the controls, the
    no-break space and the soft hyphen. *)
Definition printable (c : ascii) : bool :=
  let n := N_of_ascii c in
  (((32 <=? n) && (n <=? 126)) || ((161 <=? n) && negb (n =? 173)))%N.

Definition repr_char (quote c : ascii) : string :=
  let n := N_of_ascii c in
  if Ascii.eqb c quote || Ascii.eqb c "\" then String "\" (String c EmptyString)
  else if (n =? 9)%N then "\t"
  else if (n =? 10)%N then "\n"
  else if (n =? 13)%N then "\r"
  else if printable c then String c EmptyString
  else String "\" (String "x"
         (String (hex_digit (n / 16)) (String (hex_digit (n mod 16)) EmptyString))).

Fixpoint has_char (c : ascii) (s : string) : bool :=
  match s with
  | EmptyString => false
  | String c' r => Ascii.eqb c c' || has_char c r
  end.

Fixpoint repr_chars (quote : ascii) (s : string) : string :=
  match s with
  | EmptyString => EmptyString
  | String c r => repr_char quote c @@ repr_chars quote r
  end.

Definition py_repr_str (s : string) : string :=
  let quote :=
    if has_char "'" s && negb (has_char quote_char s) then quote_char else "'"%char in
  String quote (repr_chars quote s @@ String quote EmptyString).

(** [KeyError(k)]; [str] of it is the [repr] of the key. *)
Definition key_error (k : string) : exn :=
  mk_exn KeyError (py_repr_str k).

Definition type_error (msg : string) : exn := mk_exn TypeError msg.

(** ** JSON values: what [json.loads] returns and [json.dumps] accepts *)

#[warnings="-register-all"]
Inductive json : Type :=
| JNull
| JBool (b : bool)
| JInt (n : Z)
| JStr (s : string)
| JArr (items : list json)
| JObj (members : list (string * json)).

(** A Python [dict] with string keys, in insertion order. *)
Definition dict : Type := list (string * json).

Fixpoint dict_get (k : string) (d : dict) : option json :=
  match d with
  | [] => None
  | (k', v) :: r => if String.eqb k k' then Some v else dict_get k r
  end.

Definition dict_has (k : string) (d : dict) : bool :=
  match dict_get k d with Some _ => true | None => false end.

(** [d[k] = v]: the value is replaced where the key stands, a new key goes to
    the end. *)
Fixpoint dict_set (k : string) (v : json) (d : dict) : dict :=
  match d with
  | [] => [(k, v)]
  | (k', v') :: r =>
      if String.eqb k k' then (k', v) :: r else (k', v') :: dict_set k v r
  end.

(** Python's [==] on decoded JSON: [True == 1] and [False == 0]; lists are
    compared element by element, dicts by size and key by key. *)
Fixpoint py_eq (a b : json) {struct a} : bool :=
  match a, b with
  | JNull, JNull => true
  | JBool x, JBool y => Bool.eqb x y
  | JBool x, JInt n => Z.eqb n (if x then 1 else 0)
  | JInt n, JBool x => Z.eqb n (if x then 1 else 0)
  | JInt n, JInt m => Z.eqb n m
  | JStr s, JStr t => String.eqb s t
  | JArr l, JArr m =>
      (fix all2 (l m : list json) {struct l} : bool :=
         match l, m with
         | [], [] => true
         | x :: l', y :: m' => py_eq x y && all2 l' m'
         | _, _ => false
         end) l m
  | JObj d, JObj e =>
      Nat.eqb (List.length d) (List.length e)
      && (fix sub (d : dict) {struct d} : bool :=
            match d with
            | [] => true
            | (k, v) :: d' =>
                match dict_get k e with
                | Some w => py_eq v w && sub d'
                | None => false
                end
            end) d
  | _, _ => false
  end.

Definition py_ne (a b : json) : bool := negb (py_eq a b).

(** [x in l] for a Python list. *)
Definition py_in (x : json) (l : list json) : bool := existsb (py_eq x) l.

(** [v[k]] for a string constant [k]. *)
Definition getitem (v : json) (k : string) : result json :=
  match v with
  | JObj d =>
      match dict_get k d with
      | Some x => Return x
      | None => Raise (key_error k)
      end
  | JStr _ => Raise (type_error "string indices must be integers")
  | JArr _ => Raise (type_error "list indices must be integers or slices, not str")
  | _ => Raise (type_error "object is not subscriptable")
  end.

(** [k in v] for a string constant [k]. *)
Definition contains (k : string) (v : json) : result bool :=
  match v with
  | JObj d => Return (dict_has k d)
  | JArr l => Return (py_in (JStr k) l)
  | JStr s => Return (match String.index 0 k s with Some _ => true | None => false end)
  | _ => Raise (type_error "argument is not iterable")
  end.

(** The sequence a [for] loop runs over. *)
Definition py_iter (v : json) : result (list json) :=
  match v with
  | JArr l => Return l
  | JObj d => Return (map (fun kv => JStr (fst kv)) d)
  | JStr s => Return (map (fun c => JStr (String c EmptyString)) (list_ascii_of_string s))
  | _ => Raise (type_error "object is not iterable")
  end.

(** ** [json.dumps] with its default arguments *)

(** [\u00XX], the escape of a code point below 256. *)
Definition escape_u (c : ascii) : string :=
  let n := N_of_ascii c in
  String "\" (String "u" (String "0" (String "0"
    (String (hex_digit (n / 16)) (String (hex_digit (n mod 16)) EmptyString))))).

Definition escape_char (c : ascii) : string :=
  let n := N_of_ascii c in
  if Ascii.eqb c quote_char then String "\" (String quote_char EmptyString)
  else if Ascii.eqb c "\" then "\\"
  else if (n =? 10)%N then "\n"
  else if (n =? 13)%N then "\r"
  else if (n =? 9)%N then "\t"
  else if (n =? 8)%N then "\b"
  else if (n =? 12)%N then "\f"
  else if ((32 <=? n) && (n <=? 126))%N then String c EmptyString
  else escape_u c.

Fixpoint escape (s : string) : string :=
  match s with
  | EmptyString => EmptyString
  | String c r => escape_char c @@ escape r
  end.

Definition quote (s : string) : string :=
  String quote_char (escape s @@ String quote_char EmptyString).

Fixpoint json_dumps (v : json) : string :=
  match v with
  | JNull => "null"
  | JBool true => "true"
  | JBool false => "false"
  | JInt n => NilEmpty.string_of_int (Z.to_int n)
  | JStr s => quote s
  | JArr l => "[" @@ String.concat ", " (map json_dumps l) @@ "]"
  | JObj d =>
      "{" @@ String.concat ", "
               (map (fun '(k, x) => quote k @@ ": " @@ json_dumps x) d) @@ "}"
  end.

(** ** [json.loads] *)

Definition is_ws (c : ascii) : bool :=
  let n := N_of_ascii c in
  ((n =? 32) || (n =? 9) || (n =? 10) || (n =? 13))%N.

Fixpoint skip_ws (s : string) : string :=
  match s with
  | String c r => if is_ws c then skip_ws r else s
  | EmptyString => EmptyString
  end.

Definition hex_value (c : ascii) : option N :=
  let n := N_of_ascii c in
  if ((48 <=? n) && (n <=? 57))%N then Some (n - 48)%N
  else if ((97 <=? n) && (n <=? 102))%N then Some (n - 87)%N
  else if ((65 <=? n) && (n <=? 70))%N then Some (n - 55)%N
  else None.

(** The code point of [\uXXXX], when it is below 256. *)
Definition unescape_u (h1 h2 h3 h4 : ascii) : option ascii :=
  match hex_value h1, hex_value h2, hex_value h3, hex_value h4 with
  | Some a, Some b, Some c, Some d =>
      if ((a =? 0) && (b =? 0))%N then Some (ascii_of_N (16 * c + d)) else None
  | _, _, _, _ => None
  end.

Definition unescape_simple (e : ascii) : option ascii :=
  if Ascii.eqb e quote_char then Some quote_char
  else if Ascii.eqb e "\" then Some "\"%char
  else if Ascii.eqb e "/" then Some "/"%char
  else if Ascii.eqb e "b" then Some (ascii_of_N 8)
  else if Ascii.eqb e "f" then Some (ascii_of_N 12)
  else if Ascii.eqb e "n" then Some (ascii_of_N 10)
  else if Ascii.eqb e "r" then Some (ascii_of_N 13)
  else if Ascii.eqb e "t" then Some (ascii_of_N 9)
  else None.

(** The body of a string literal, from just after its opening quote to its
    closing quote (strict mode: a raw control character is an error). *)
Fixpoint scan_string (s : string) : option (string * string) :=
  match s with
  | EmptyString => None
  | String c r =>
      if Ascii.eqb c quote_char then Some (EmptyString, r)
      else if Ascii.eqb c "\" then
        match r with
        | EmptyString => None
        | String e r1 =>
            if Ascii.eqb e "u" then
              match r1 with
              | String h1 (String h2 (String h3 (String h4 r2))) =>
                  match unescape_u h1 h2 h3 h4, scan_string r2 with
                  | Some x, Some (t, rest) => Some (String x t, rest)
                  | _, _ => None
                  end
              | _ => None
              end
            else
              match unescape_simple e, scan_string r1 with
              | Some x, Some (t, rest) => Some (String x t, rest)
              | _, _ => None
              end
        end
      else if (N_of_ascii c <? 32)%N then None
      else
        match scan_string r with
        | Some (t, rest) => Some (String c t, rest)
        | None => None
        end
  end.

Definition digit_of (c : ascii) : option (uint -> uint) :=
  match N_of_ascii c with
  | 48%N => Some D0 | 49%N => Some D1 | 50%N => Some D2 | 51%N => Some D3
  | 52%N => Some D4 | 53%N => Some D5 | 54%N => Some D6 | 55%N => Some D7
  | 56%N => Some D8 | 57%N => Some D9
  | _ => None
  end.

Fixpoint scan_digits (s : string) : uint * string :=
  match s with
  | EmptyString => (Nil, EmptyString)
  | String c r =>
      match digit_of c with
      | Some D => let (d, rest) := scan_digits r in (D d, rest)
      | None => (Nil, s)
      end
  end.

(** What follows the integer part decides between [int] and [float]. *)
Definition float_follows (s : string) : bool :=
  match s with
  | String c _ => Ascii.eqb c "." || Ascii.eqb c "e" || Ascii.eqb c "E"
  | EmptyString => false
  end.

(** An optional minus sign, then [0] alone or a digit from 1 to 9 followed by
    digits. *)
Definition scan_number (s : string) : option (json * string) :=
  let (neg, s1) :=
    match s with
    | String c r => if Ascii.eqb c "-" then (true, r) else (false, s)
    | EmptyString => (false, s)
    end in
  match s1 with
  | EmptyString => None
  | String c r =>
      match digit_of c with
      | None => None
      | Some _ =>
          let (d, rest) :=
            if Ascii.eqb c "0" then (D0 Nil, r) else scan_digits s1 in
          if float_follows rest then None
          else Some (JInt (Z.of_int (if neg then Neg d else Pos d)), rest)
      end
  end.

Fixpoint strip_prefix (p s : string) : option string :=
  match p, s with
  | EmptyString, _ => Some s
  | String a p', String b s' => if Ascii.eqb a b then strip_prefix p' s' else None
  | String _ _, EmptyString => None
  end.

Fixpoint scan_value (fuel : nat) (s : string) {struct fuel}
  : option (json * string) :=
  match fuel with
  | O => None
  | S fuel' =>
      match s with
      | EmptyString => None
      | String c r =>
          if Ascii.eqb c quote_char then
            match scan_string r with
            | Some (t, rest) => Some (JStr t, rest)
            | None => None
            end
          else if Ascii.eqb c "{" then
            match skip_ws r with
            | String c1 r1 =>
                if Ascii.eqb c1 "}" then Some (JObj [], r1)
                else if Ascii.eqb c1 quote_char then scan_object fuel' r1 []
                else None
            | EmptyString => None
            end
          else if Ascii.eqb c "[" then
            match skip_ws r with
            | String c1 r1 =>
                if Ascii.eqb c1 "]" then Some (JArr [], r1)
                else scan_array fuel' (String c1 r1) []
            | EmptyString => None
            end
          else if Ascii.eqb c "n" then
            option_map (fun rest => (JNull, rest)) (strip_prefix "null" s)
          else if Ascii.eqb c "t" then
            option_map (fun rest => (JBool true, rest)) (strip_prefix "true" s)
          else if Ascii.eqb c "f" then
            option_map (fun rest => (JBool false, rest)) (strip_prefix "false" s)
          else scan_number s
      end
  end

with scan_array (fuel : nat) (s : string) (acc : list json) {struct fuel}
  : option (json * string) :=
  match fuel with
  | O => None
  | S fuel' =>
      match scan_value fuel' s with
      | None => None
      | Some (v, r) =>
          match skip_ws r with
          | String c r1 =>
              if Ascii.eqb c "]" then Some (JArr (List.rev (v :: acc)), r1)
              else if Ascii.eqb c "," then scan_array fuel' (skip_ws r1) (v :: acc)
              else None
          | EmptyString => None
          end
      end
  end

with scan_object (fuel : nat) (s : string) (acc : dict) {struct fuel}
  : option (json * string) :=
  match fuel with
  | O => None
  | S fuel' =>
      match scan_string s with
      | None => None
      | Some (k, r) =>
          match skip_ws r with
          | String c r1 =>
              if Ascii.eqb c ":" then
                match scan_value fuel' (skip_ws r1) with
                | None => None
                | Some (v, r2) =>
                    match skip_ws r2 with
                    | String c2 r3 =>
                        if Ascii.eqb c2 "}" then Some (JObj (dict_set k v acc), r3)
                        else if Ascii.eqb c2 "," then
                          match skip_ws r3 with
                          | String c3 r4 =>
                              if Ascii.eqb c3 quote_char
                              then scan_object fuel' r4 (dict_set k v acc)
                              else None
                          | EmptyString => None
                          end
                        else None
                    | EmptyString => None
                    end
                end
              else None
          | EmptyString => None
          end
      end
  end.

Definition json_decode_error : exn :=
  mk_exn JSONDecodeError "Expecting value".

(** Every frame of the scanner but the first is entered after at least one
    character has been read, and a frame of [scan_array] or [scan_object]
    passes the text on to one frame of [scan_value]: twice the length of the
    text, and two, is fuel enough ([json_loads_fuel]). *)
Definition json_loads (s : string) : result json :=
  match scan_value (2 * String.length s + 2) (skip_ws s) with
  | Some (v, rest) =>
      match skip_ws rest with
      | EmptyString => Return v
      | String _ _ => Raise json_decode_error
      end
  | None => Raise json_decode_error
  end.




(** ** [json.dumps] of any Python value *)






(** ** The connector helper's mutable fields *)

(** [self.connector_state] is JSON text or [None]; [self.work_id] and
    [self.applicant_id] hold decoded JSON ([JNull] for [None]). *)
Record helper : Type := mk_helper {
  connector_state : option string;
  work_id : json;
  applicant_id : json
}.

(** [OpenCTIConnectorHelper.set_state]. *)
Definition set_state (state : json) (h : helper) : helper :=
  mk_helper (Some (json_dumps state)) (work_id h) (applicant_id h).


(** [OpenCTIConnectorHelper.get_state]: the bare [except] turns every failure
    of [json.loads] into [None]. *)
Definition get_state (h : helper) : option json :=
  match connector_state h with
  | Some s =>
      if negb (String.eqb s EmptyString) then
        match json_loads s with
        | Return (JObj (m :: d)) => Some (JObj (m :: d))
        | _ => None
        end
      else None
  | None => None
  end.

(** An [Optional] value as a Python object. *)
Definition py_of_option (o : option json) : json :=
  match o with Some v => v | None => JNull end.

Definition py_of_option_str (o : option string) : json :=
  match o with Some s => JStr s | None => JNull end.

(** ** Observable actions, and programs over the helper *)

Record sse_event : Type := mk_event {
  msg_id : option string;
  msg_event : string;
  msg_data : string
}.

Inductive action : Type :=
| BasicAck (delivery_tag : Z)
| SetApplicantIdHeader (applicant : json)
| ToReceived (work : json) (message : string)
| ToProcessed (work : json) (message : json) (in_error : bool)
| WorkPing (work : json)
| ConnectorPing (state : json)
| Callback (event : json)
| StreamCallback (msg : sse_event)
| LogInfo (msg : string)
| LogError (msg : string)
| LogException (msg : string)
| LogStateReset (state : option json).

Record world : Type := mk_world {
  w_helper : helper;
  w_trace : list action
}.

(** A statement sequence: it transforms the world and either yields a value
    or raises. *)
Definition prog (A : Type) : Type := world -> world * result A.

Definition ret {A : Type} (a : A) : prog A := fun w => (w, Return a).

Definition lift {A : Type} (r : result A) : prog A := fun w => (w, r).

Definition pbind {A B : Type} (m : prog A) (k : A -> prog B) : prog B :=
  fun w =>
    match m w with
    | (w', Return a) => k a w'
    | (w', Raise e) => (w', Raise e)
    end.

Notation "x <~ m ;; k" := (pbind m (fun x => k))
  (at level 61, m at next level, right associativity).
Notation "m ;;; k" := (pbind m (fun _ => k))
  (at level 61, right associativity).

(** [try: body except <catches>: handler]. *)
Definition try_except {A : Type} (body : prog A) (catches : exn -> bool)
  (handler : exn -> prog A) : prog A :=
  fun w =>
    match body w with
    | (w', Raise e) => if catches e then handler e w' else (w', Raise e)
    | done => done
    end.

Definition emit (a : action) : prog unit :=
  fun w => (mk_world (w_helper w) (w_trace w ++ [a]), Return tt).

Definition read_helper : prog helper := fun w => (w, Return (w_helper w)).

Definition update_helper (f : helper -> helper) : prog unit :=
  fun w => (mk_world (f (w_helper w)) (w_trace w), Return tt).

(** A call to a collaborator: it is recorded, and its outcome is decided by
    the collaborator from what has happened so far. *)
Definition call {A : Type} (outcome : list action -> result A) (a : action)
  : prog A :=
  fun w => (mk_world (w_helper w) (w_trace w ++ [a]), outcome (w_trace w)).

(** ** [PingAlive] *)

Section PingAlive.

(** [self.api.connector.ping(connector_id, state)], reduced to the
    [connector_state] entry of its answer. *)
Variable api_ping : list action -> json -> result (option string).

(** [json.loads(cs) if cs is not None and len(cs) > 0 else None]. *)
Definition remote_state_of (cs : option string) : result json :=
  match cs with
  | Some s => if (0 <? String.length s)%nat then json_loads s else Return JNull
  | None => Return JNull
  end.

(** One turn of the loop of [PingAlive.ping]; [in_error] is the thread's
    flag, taken and given back. *)
Definition ping_iteration (in_error : bool) : prog bool :=
  try_except
    (h <~ read_helper ;;
     let initial_state := py_of_option (get_state h) in
     cs <~ call (fun tr => api_ping tr initial_state) (ConnectorPing initial_state) ;;
     remote_state <~ lift (remote_state_of cs) ;;
     (if py_ne initial_state remote_state then
        update_helper (set_state (py_of_option_str cs)) ;;;
        h' <~ read_helper ;;
        emit (LogStateReset (get_state h'))
      else ret tt) ;;;
     (if in_error then
        emit (LogError "API Ping back to normal") ;;; ret false
      else ret in_error))
    is_Exception
    (fun _ => emit (LogError "Error pinging the API") ;;; ret true).

(** [PingAlive.ping] for as many turns as [exit_event] stays clear. *)
Fixpoint ping (turns : nat) (in_error : bool) : prog bool :=
  match turns with
  | O => ret in_error
  | S n => e <~ ping_iteration in_error ;; ping n e
  end.

End PingAlive.

(** ** [ListenStream] *)

Section ListenStream.

(** The user callback: its outcome on a message, given what has happened. *)
Variable callback : list action -> sse_event -> result unit.

(** [self.exit]; no [stop()] arrives while the loop runs. *)
Variable exit : bool.

Variable start_timestamp : option string.

(** [state = self.helper.get_state(); state["connectorLastEventId"] =
    str(msg.id); self.helper.set_state(state)]. *)
Definition checkpoint (id : string) : prog unit :=
  h <~ read_helper ;;
  match get_state h with
  | Some (JObj d) =>
      update_helper (set_state (JObj (dict_set "connectorLastEventId" (JStr id) d)))
  | _ => lift (Raise (type_error "object does not support item assignment"))
  end.

Definition checkpoint_if_id (msg : sse_event) : prog unit :=
  match msg_id msg with
  | Some id => checkpoint id
  | None => ret tt
  end.

(** [for msg in messages: ...]. *)
Fixpoint iter_messages (messages : list sse_event) : prog unit :=
  match messages with
  | [] => ret tt
  | msg :: rest =>
      if exit then ret tt
      else if String.eqb (msg_event msg) "heartbeat"
              || String.eqb (msg_event msg) "connected"
      then iter_messages rest
      else if String.eqb (msg_event msg) "sync"
      then checkpoint_if_id msg ;;; iter_messages rest
      else
        call (fun tr => callback tr msg) (StreamCallback msg) ;;;
        checkpoint_if_id msg ;;;
        iter_messages rest
  end.

(** The first statements of [ListenStream.run]. *)
Definition init_state : prog unit :=
  h <~ read_helper ;;
  match get_state h with
  | None =>
      let cursor :=
        match start_timestamp with
        | Some t => if (0 <? String.length t)%nat then t @@ "-0" else "-"
        | None => "-"
        end in
      update_helper (set_state (JObj [("connectorLastEventId", JStr cursor)]))
  | Some _ => ret tt
  end.

(** [ListenStream.run] over the messages the feed delivers. A raised
    exception reaches [sys.excepthook], which kills the process. *)
Definition ListenStream_run (messages : list sse_event) : prog unit :=
  init_state ;;; iter_messages messages.

End ListenStream.

(** ** [ListenQueue] *)

Section ListenQueue.

(** The collaborators: the control plane and the broker channel, and the
    user callback, which returns the message to report. *)
Variable api : list action -> action -> result unit.
Variable callback : list action -> json -> result json.

Definition api_call (a : action) : prog unit := call (fun tr => api tr a) a.

Definition is_None (v : json) : bool :=
  match v with JNull => true | _ => false end.

(** [ListenQueue._data_handler]. *)
Definition _data_handler (json_data : json) : prog unit :=
  internal <~ lift (getitem json_data "internal") ;;
  wid <~ lift (getitem internal "work_id") ;;
  internal' <~ lift (getitem json_data "internal") ;;
  aid <~ lift (getitem internal' "applicant_id") ;;
  update_helper (fun h => mk_helper (connector_state h) wid (applicant_id h)) ;;;
  (if negb (is_None aid) then
     update_helper (fun h => mk_helper (connector_state h) (work_id h) aid) ;;;
     api_call (SetApplicantIdHeader aid)
   else ret tt) ;;;
  try_except
    (api_call (ToReceived wid "Connector ready to process the operation") ;;;
     event <~ lift (getitem json_data "event") ;;
     message <~ call (fun tr => callback tr event) (Callback event) ;;
     api_call (ToProcessed wid message false))
    is_Exception
    (fun e =>
       emit (LogException "Error in message processing, reporting error to API") ;;;
       try_except
         (api_call (ToProcessed wid (JStr (exn_msg e)) true))
         (fun _ => true)
         (fun _ => emit (LogError "Failing reporting the processing"))).

(** [threading.Thread(target=...).start()]: the thread runs to its end; what
    it raises stays in the thread. *)
Definition thread_start (target : prog unit) : prog unit :=
  fun w => (fst (target w), Return tt).

(** The wait loop of [_process_message], for [alive] polls during which
    [is_alive()] holds. *)
Fixpoint wait_thread (alive time_wait : nat) : prog unit :=
  match alive with
  | O => ret tt
  | S n =>
      h <~ read_helper ;;
      if negb (is_None (work_id h)) && (300 <? time_wait)%nat
      then api_call (WorkPing (work_id h)) ;;; wait_thread n 0
      else wait_thread n (S time_wait)
  end.

(** [ListenQueue._process_message]; the delivery tag is an integer, and the
    text of an integer in an f-string is the one [json.dumps] writes. *)
Definition _process_message (alive : nat) (delivery_tag : Z) (body : string)
  : prog unit :=
  json_data <~ lift (json_loads body) ;;
  api_call (BasicAck delivery_tag) ;;;
  thread_start (_data_handler json_data) ;;;
  wait_thread alive 0 ;;;
  emit (LogInfo ("Message (delivery_tag=" @@ json_dumps (JInt delivery_tag)
                 @@ ") processed, thread terminated")).

End ListenQueue.

(** ** The bundle splitter *)

(** [self.cache_index]: a Python [dict] keyed by whatever the objects carry
    as ["id"]. *)
Definition pydict : Type := list (json * json).

Definition hashable (k : json) : bool :=
  match k with
  | JArr _ | JObj _ => false
  | _ => true
  end.

Definition unhashable : exn := type_error "unhashable type".

Fixpoint pydict_find (k : json) (d : pydict) : option json :=
  match d with
  | [] => None
  | (k', v) :: r => if py_eq k k' then Some v else pydict_find k r
  end.

(** [k in d]. *)
Definition pydict_mem (k : json) (d : pydict) : result bool :=
  if hashable k
  then Return (match pydict_find k d with Some _ => true | None => false end)
  else Raise unhashable.

(** [repr] of a key, for the message of a [KeyError]. *)
Definition py_repr (k : json) : string :=
  match k with
  | JNull => "None"
  | JBool true => "True"
  | JBool false => "False"
  | JStr s => py_repr_str s
  | other => json_dumps other
  end.

(** [d[k]]. *)
Definition pydict_getitem (k : json) (d : pydict) : result json :=
  if hashable k then
    match pydict_find k d with
    | Some v => Return v
    | None => Raise (mk_exn KeyError (py_repr k))
    end
  else Raise unhashable.

Fixpoint pydict_update (k v : json) (d : pydict) : pydict :=
  match d with
  | [] => [(k, v)]
  | (k', v') :: r =>
      if py_eq k k' then (k', v) :: r else (k', v') :: pydict_update k v r
  end.

(** [d[k] = v]. *)
Definition pydict_setitem (k v : json) (d : pydict) : result pydict :=
  if hashable k then Return (pydict_update k v d) else Raise unhashable.

(** The elements of a value that the code has built as a list. *)
Definition as_list (v : json) : result (list json) :=
  match v with
  | JArr l => Return l
  | _ => Raise (type_error "object has no len()")
  end.

Section Splitter.

Variable cache_index : pydict.

(** [stix2_get_embedded_objects]: the returned dict has the keys
    ["object_marking_refs"] and ["created_by_ref"]. *)
Definition stix2_get_embedded_objects (item : json) : result json :=
  has_markings <- contains "object_marking_refs" item ;;
  object_marking_refs <-
    (if has_markings : bool then
       refs <- getitem item "object_marking_refs" ;;
       refs <- py_iter refs ;;
       foldM (fun acc object_marking_ref =>
                known <- pydict_mem object_marking_ref cache_index ;;
                if known : bool then
                  x <- pydict_getitem object_marking_ref cache_index ;;
                  Return (acc ++ [x])
                else Return acc)
             refs []
     else Return []) ;;
  has_creator <- contains "created_by_ref" item ;;
  created_by_ref <-
    (if has_creator : bool then
       ref <- getitem item "created_by_ref" ;;
       known <- pydict_mem ref cache_index ;;
       if known : bool then
         ref <- getitem item "created_by_ref" ;;
         pydict_getitem ref cache_index
       else Return JNull
     else Return JNull) ;;
  Return (JObj [("object_marking_refs", JArr object_marking_refs);
                ("created_by_ref", created_by_ref)]).

(** [stix2_get_entity_objects]. *)
Definition stix2_get_entity_objects (entity : json) : result (list json) :=
  let items := [entity] in
  embedded_objects <- stix2_get_embedded_objects entity ;;
  creator <- getitem embedded_objects "created_by_ref" ;;
  items <-
    (if negb (is_None creator) then
       creator <- getitem embedded_objects "created_by_ref" ;;
       Return (items ++ [creator])
     else Return items) ;;
  markings <- getitem embedded_objects "object_marking_refs" ;;
  markings <- as_list markings ;;
  if (0 <? List.length markings)%nat then
    markings <- getitem embedded_objects "object_marking_refs" ;;
    markings <- as_list markings ;;
    Return (items ++ markings)
  else Return items.

(** [stix2_get_relationship_objects]. The dict of embedded objects is
    subscripted with ["created_by"], as in the source. *)
Definition stix2_get_relationship_objects (relationship : json)
  : result (list json) :=
  let items := [relationship] in
  source_ref <- getitem relationship "source_ref" ;;
  known <- pydict_mem source_ref cache_index ;;
  items <-
    (if known : bool then
       source_ref <- getitem relationship "source_ref" ;;
       x <- pydict_getitem source_ref cache_index ;;
       Return (items ++ [x])
     else Return items) ;;
  target_ref <- getitem relationship "target_ref" ;;
  known <- pydict_mem target_ref cache_index ;;
  items <-
    (if known : bool then
       target_ref <- getitem relationship "target_ref" ;;
       x <- pydict_getitem target_ref cache_index ;;
       Return (items ++ [x])
     else Return items) ;;
  embedded_objects <- stix2_get_embedded_objects relationship ;;
  creator <- getitem embedded_objects "created_by" ;;
  items <-
    (if negb (is_None creator) then
       creator <- getitem embedded_objects "created_by" ;;
       Return (items ++ [creator])
     else Return items) ;;
  markings <- getitem embedded_objects "object_marking_refs" ;;
  markings <- as_list markings ;;
  if (0 <? List.length markings)%nat then
    markings <- getitem embedded_objects "object_marking_refs" ;;
    markings <- as_list markings ;;
    Return (items ++ markings)
  else Return items.

(** [stix2_get_report_objects]. The second loop runs over the list that
    [items] names when the loop starts; [items = items + ...] binds the name
    to a new list and leaves the iterated one as it is. *)
Definition stix2_get_report_objects (report : json) : result (list json) :=
  let items := [report] in
  object_refs <- getitem report "object_refs" ;;
  object_refs <- py_iter object_refs ;;
  items <-
    foldM (fun items object_ref =>
             x <- pydict_getitem object_ref cache_index ;;
             Return (items ++ [x]))
          object_refs items ;;
  foldM (fun acc item =>
           type <- getitem item "type" ;;
           if py_eq type (JStr "relationship") then
             more <- stix2_get_relationship_objects item ;;
             Return (acc ++ more)
           else
             more <- stix2_get_entity_objects item ;;
             Return (acc ++ more))
        items items.

End Splitter.

(** [stix2_deduplicate_objects]; [ids] and [final_items] grow together. *)
Definition stix2_deduplicate_objects (items : list json) : result (list json) :=
  '(_, final_items) <-
    foldM (fun '(ids, final_items) item =>
             id <- getitem item "id" ;;
             if negb (py_in id ids) then
               id <- getitem item "id" ;;
               Return (ids ++ [id], final_items ++ [item])
             else Return (ids, final_items))
          items ([], []) ;;
  Return final_items.

(** [stix2_create_bundle]; [uuid] is the text of the [uuid.uuid4()] drawn
    for this bundle. *)
Definition stix2_create_bundle (uuid : string) (items : list json) : string :=
  json_dumps (JObj [("type", JStr "bundle");
                    ("id", JStr ("bundle--" @@ uuid));
                    ("spec_version", JStr "2.0");
                    ("objects", JArr items)]).

Section Split.

(** [uuid4 n] is the text of the [n]-th identifier drawn during the call. *)
Variable uuid4 : nat -> string.

Variable cache_index : pydict.

(** The body that the three loops of [split_stix2_bundle] share: the closure
    of the selected object is de-duplicated, its ids are appended to
    [cache_added] and its bundle to [bundles]. *)
Definition send_items (closure : json -> result (list json)) (item : json)
  (st : list json * list string) : result (list json * list string) :=
  let (cache_added, bundles) := st in
  objects <- closure item ;;
  items_to_send <- stix2_deduplicate_objects objects ;;
  cache_added <-
    foldM (fun added item_to_send =>
             id <- getitem item_to_send "id" ;;
             Return (added ++ [id]))
          items_to_send cache_added ;;
  Return (cache_added,
          bundles ++ [stix2_create_bundle (uuid4 (List.length bundles)) items_to_send]).

(** [item["type"] == "report"]. *)
Definition is_report (item : json) (cache_added : list json) : result bool :=
  type <- getitem item "type" ;;
  Return (py_eq type (JStr "report")).

(** [item["type"] == "relationship" and item["id"] not in self.cache_added]. *)
Definition is_new_relationship (item : json) (cache_added : list json)
  : result bool :=
  type <- getitem item "type" ;;
  if py_eq type (JStr "relationship") then
    id <- getitem item "id" ;;
    Return (negb (py_in id cache_added))
  else Return false.

(** [item["type"] != "relationship" and item["id"] not in self.cache_added]. *)
Definition is_new_entity (item : json) (cache_added : list json)
  : result bool :=
  type <- getitem item "type" ;;
  if py_ne type (JStr "relationship") then
    id <- getitem item "id" ;;
    Return (negb (py_in id cache_added))
  else Return false.

(** One loop [for item in bundle_data["objects"]: if <select>: ...]. *)
Definition split_pass (select : json -> list json -> result bool)
  (closure : json -> result (list json)) (objects : list json)
  (st : list json * list string) : result (list json * list string) :=
  foldM (fun st item =>
           selected <- select item (fst st) ;;
           if selected : bool then send_items closure item st else Return st)
        objects st.

End Split.

(** The first loop of [split_stix2_bundle]: the index of the objects. *)
Definition build_index (objects : list json) : result pydict :=
  foldM (fun cache_index item =>
           id <- getitem item "id" ;;
           pydict_setitem id item cache_index)
        objects [].

(** [OpenCTIConnectorHelper.split_stix2_bundle]. The fields [cache_index]
    and [cache_added] are reset when the call starts and are local here. *)
Definition split_stix2_bundle (uuid4 : nat -> string) (bundle : string)
  : result (list string) :=
  bundle_data <-
    match json_loads bundle with
    | Return v => Return v
    | Raise e =>
        if is_Exception e
        then Raise (mk_exn Exception "File data is not a valid JSON")
        else Raise e
    end ;;
  objects <- getitem bundle_data "objects" ;;
  objects <- py_iter objects ;;
  cache_index <- build_index objects ;;
  let st := ([], []) in
  objects1 <- getitem bundle_data "objects" ;;
  objects1 <- py_iter objects1 ;;
  st <- split_pass uuid4 is_report (stix2_get_report_objects cache_index) objects1 st ;;
  objects2 <- getitem bundle_data "objects" ;;
  objects2 <- py_iter objects2 ;;
  st <- split_pass uuid4 is_new_relationship
          (stix2_get_relationship_objects cache_index) objects2 st ;;
  objects3 <- getitem bundle_data "objects" ;;
  objects3 <- py_iter objects3 ;;
  st <- split_pass uuid4 is_new_entity
          (stix2_get_entity_objects cache_index) objects3 st ;;
  Return (snd st).

(** ** [check_max_tlp] *)

Definition allowed_tlps : list (string * list string) :=
  [("TLP:RED", ["TLP:WHITE"; "TLP:GREEN"; "TLP:AMBER"; "TLP:RED"]);
   ("TLP:AMBER", ["TLP:WHITE"; "TLP:GREEN"; "TLP:AMBER"]);
   ("TLP:GREEN", ["TLP:WHITE"; "TLP:GREEN"]);
   ("TLP:WHITE", ["TLP:WHITE"])].

Fixpoint lookup_str {A : Type} (k : string) (d : list (string * A)) : option A :=
  match d with
  | [] => None
  | (k', v) :: r => if String.eqb k k' then Some v else lookup_str k r
  end.

(** [OpenCTIConnectorHelper.check_max_tlp]. *)
Definition check_max_tlp (tlp max_tlp : string) : result bool :=
  match lookup_str max_tlp allowed_tlps with
  | Some allowed => Return (existsb (String.eqb tlp) allowed)
  | None => Raise (key_error max_tlp)
  end.

(** ** Notions used to state the properties *)

(** A Python [dict] holds a key once: the decoded values are those whose
    objects have pairwise distinct keys. *)
Fixpoint distinct_keys (ks : list string) : bool :=
  match ks with
  | [] => true
  | k :: r => negb (existsb (String.eqb k) r) && distinct_keys r
  end.

Fixpoint wf_json (v : json) : bool :=
  match v with
  | JArr l => forallb wf_json l
  | JObj d => distinct_keys (map fst d) && forallb (fun '(_, x) => wf_json x) d
  | _ => true
  end.

(** [isinstance(v, Dict) and v]. *)
Definition nonempty_dict (v : json) : bool :=
  match v with
  | JObj (_ :: _) => true
  | _ => false
  end.

(** A character after which an integer literal cannot go on, neither as an
    integer nor as a float. *)
Definition number_ends (rest : string) : bool :=
  match rest with
  | EmptyString => true
  | String c _ =>
      match digit_of c with
      | Some _ => false
      | None => negb (float_follows rest)
      end
  end.

(** The characters a JSON text of [json_dumps] can start with. *)
Definition value_start (c : ascii) : bool :=
  Ascii.eqb c quote_char || Ascii.eqb c "{" || Ascii.eqb c "[" || Ascii.eqb c "n"
  || Ascii.eqb c "t" || Ascii.eqb c "f" || Ascii.eqb c "-"
  || match digit_of c with Some _ => true | None => false end.

(** The TLP levels in their containment order. *)
Inductive tlp_level : Type := WHITE | GREEN | AMBER | RED.

Definition tlp_name (l : tlp_level) : string :=
  match l with
  | WHITE => "TLP:WHITE"
  | GREEN => "TLP:GREEN"
  | AMBER => "TLP:AMBER"
  | RED => "TLP:RED"
  end.

Definition tlp_rank (l : tlp_level) : nat :=
  match l with
  | WHITE => 0
  | GREEN => 1
  | AMBER => 2
  | RED => 3
  end.


(** The messages the user callback of a stream has been called with. *)
Definition stream_calls (tr : list action) : list sse_event :=
  flat_map (fun a => match a with StreamCallback m => [m] | _ => [] end) tr.

Definition is_keepalive (msg : sse_event) : bool :=
  String.eqb (msg_event msg) "heartbeat" || String.eqb (msg_event msg) "connected".

(** A state that holds the cursor and nothing else. *)
Definition cursor_state (cursor : string) : json :=
  JObj [("connectorLastEventId", JStr cursor)].

(** A STIX object with the given members after its id and type. *)
Definition stix (id type : string) (more : dict) : json :=
  JObj (("id", JStr id) :: ("type", JStr type) :: more).

Definition relationship (id source target : string) : json :=
  stix id "relationship" [("source_ref", JStr source); ("target_ref", JStr target)].

(** The text of a bundle with the given objects. *)
Definition bundle_text (objects : list json) : string :=
  json_dumps (JObj [("type", JStr "bundle"); ("objects", JArr objects)]).

(** The objects of a bundle given as text, and their ids. *)
Definition bundle_objects (bundle : string) : list json :=
  match (v <- json_loads bundle ;; o <- getitem v "objects" ;; py_iter o) with
  | Return l => l
  | Raise _ => []
  end.

Definition object_ids (items : list json) : list json :=
  flat_map (fun item => match getitem item "id" with
                        | Return id => [id]
                        | Raise _ => []
                        end) items.

Definition bundle_ids (bundle : string) : list json :=
  object_ids (bundle_objects bundle).

(** No id occurs in two of the bundles. *)
Definition emitted_once (bundles : list string) : Prop :=
  forall i j bi bj id,
    i <> j ->
    nth_error bundles i = Some bi ->
    nth_error bundles j = Some bj ->
    py_in id (bundle_ids bi) = true ->
    py_in id (bundle_ids bj) = false.

(** The report of the example: it refers to relationship X, from A to B, and
    to C; relationship Y, from D to E, is referred to by nothing. *)
Definition report_example : list json :=
  [stix "report--R" "report"
     [("object_refs", JArr [JStr "relationship--X"; JStr "indicator--C"])];
   relationship "relationship--X" "malware--A" "malware--B";
   stix "malware--A" "malware" [];
   stix "malware--B" "malware" [];
   stix "indicator--C" "indicator" [];
   relationship "relationship--Y" "malware--D" "malware--E";
   stix "malware--D" "malware" [];
   stix "malware--E" "malware" []].

(** A report that refers to an object the bundle does not hold. *)
Definition dangling_report : list json :=
  [stix "report--R" "report" [("object_refs", JArr [JStr "indicator--missing"])]].

(** A relationship that no report refers to, and its two ends. *)
Definition loose_relationship : list json :=
  [relationship "relationship--Y" "malware--D" "malware--E";
   stix "malware--D" "malware" [];
   stix "malware--E" "malware" []].

(** Two objects created by the same identity. *)
Definition shared_creator : list json :=
  [stix "malware--A" "malware" [("created_by_ref", JStr "identity--I")];
   stix "malware--B" "malware" [("created_by_ref", JStr "identity--I")];
   stix "identity--I" "identity" []].

(** The test a loop of [split_stix2_bundle] makes on the type of an
    object. *)
Definition type_is (test : json -> bool) (item : json) : bool :=
  match getitem item "type" with
  | Return type => test type
  | Raise _ => false
  end.

Definition report_type (type : json) : bool := py_eq type (JStr "report").
Definition relationship_type (type : json) : bool := py_eq type (JStr "relationship").
Definition other_type (type : json) : bool := py_ne type (JStr "relationship").

(** The first object of each of the bundles [new] has an id that none of the
    bundles before it holds, those of [old] included. *)
Definition seeds_fresh (old new : list string) : Prop :=
  forall pre b post,
    new = pre ++ b :: post ->
    exists seed id,
      hd_error (bundle_objects b) = Some seed
      /\ getitem seed "id" = Return id
      /\ py_in id (flat_map bundle_ids (old ++ pre)) = false.


(** The text [json_dumps] writes for a member of an object. *)
Definition member_text (kv : string * json) : string :=
  let '(k, x) := kv in quote k @@ ": " @@ json_dumps x.

(** [scan_value] reads [v] back from its text, whatever follows it. *)
Definition scans (v : json) : Prop :=
  forall fuel rest,
    (String.length (json_dumps v) <= fuel)%nat ->
    number_ends rest = true ->
    scan_value fuel (json_dumps v @@ rest) = Some (v, rest).

(** A program that only adds to the trace. *)
Definition extends {A : Type} (p : prog A) : Prop :=
  forall w, exists t, w_trace (fst (p w)) = w_trace w ++ t.

(** Every object held by the index satisfies [P]. *)
Definition index_values (P : json -> Prop) (ci : pydict) : Prop :=
  forall k v, In (k, v) ci -> P v.

(** What [split_stix2_bundle] returns on [shared_creator] when every
    identifier drawn is ["0"]. *)
Definition shared_creator_split : list string :=
  [stix2_create_bundle "0"
     [stix "malware--A" "malware" [("created_by_ref", JStr "identity--I")];
      stix "identity--I" "identity" []];
   stix2_create_bundle "0"
     [stix "malware--B" "malware" [("created_by_ref", JStr "identity--I")];
      stix "identity--I" "identity" []]].

(** An object whose creator and markings are not in the bundle. *)
Definition dangling_embedded : list json :=
  [stix "malware--A" "malware"
     [("created_by_ref", JStr "identity--missing");
      ("object_marking_refs", JArr [JStr "marking-definition--missing"])]].


(** One loop of the split as the specification words it: the objects are
    taken in source order; an object of the type of the loop starts a
    sub-bundle, unless ([dedup]) its id is in a sub-bundle already there. *)
Inductive pass_order (dedup : bool) (test : json -> bool)
  : list json -> list string -> list string -> Prop :=
| pass_done (old : list string) : pass_order dedup test [] old []
| pass_skip (item : json) (objects : list json) (old new : list string) :
    type_is test item = false
    \/ (dedup = true
        /\ exists id, getitem item "id" = Return id
                      /\ py_in id (flat_map bundle_ids old) = true) ->
    pass_order dedup test objects old new ->
    pass_order dedup test (item :: objects) old new
| pass_emit (item : json) (objects : list json) (old : list string)
    (b : string) (new : list string) :
    type_is test item = true ->
    (dedup = true ->
     forall id, getitem item "id" = Return id ->
                py_in id (flat_map bundle_ids old) = false) ->
    hd_error (bundle_objects b) = Some item ->
    pass_order dedup test objects (old ++ [b]) new ->
    pass_order dedup test (item :: objects) old (b :: new).


(** * More of the program *)

#[local] Close Scope Z_scope.

(** ** Python operations *)

(** The truth value of a Python object, as [if] and [not] take it. *)
Definition py_truthy (v : json) : bool :=
  match v with
  | JNull => false
  | JBool b => b
  | JInt n => negb (Z.eqb n 0)
  | JStr s => negb (String.eqb s EmptyString)
  | JArr l => match l with [] => false | _ :: _ => true end
  | JObj d => match d with [] => false | _ :: _ => true end
  end.

(** [kwargs.get(k, default)]. *)
Definition kwargs_get (kwargs : dict) (k : string) (default : json) : json :=
  match dict_get k kwargs with
  | Some v => v
  | None => default
  end.

(** [type(v).__name__]. *)
Definition type_name (v : json) : string :=
  match v with
  | JNull => "NoneType"
  | JBool _ => "bool"
  | JInt _ => "int"
  | JStr _ => "str"
  | JArr _ => "list"
  | JObj _ => "dict"
  end.

(** [a + b] for a string [a]. *)
Definition str_add (a : string) (b : json) : result string :=
  match b with
  | JStr s => Return (a @@ s)
  | other =>
      Raise (type_error ("can only concatenate str (not "
                         @@ String quote_char (type_name other)
                         @@ String quote_char ") to str"))
  end.

(** [result[0] if len(result) > 0 else None]. *)
Definition first_or_none (found : json) : result json :=
  match found with
  | JArr [] | JObj [] | JStr EmptyString => Return JNull
  | JArr (x :: _) => Return x
  | JStr (String c _) => Return (JStr (String c EmptyString))
  | JObj (_ :: _) => Raise (mk_exn KeyError "0")
  | other =>
      Raise (type_error ("object of type " @@ apostrophe @@ type_name other
                         @@ apostrophe @@ " has no len()"))
  end.

(** ** [OpenCTIConnectorHelper.force_ping] *)

Section ForcePing.

Variable api_ping : list action -> json -> result (option string).

Definition force_ping : prog unit :=
  try_except
    (h <~ read_helper ;;
     let initial_state := py_of_option (get_state h) in
     cs <~ call (fun tr => api_ping tr initial_state) (ConnectorPing initial_state) ;;
     remote_state <~ lift (remote_state_of cs) ;;
     if py_ne initial_state remote_state then
       call (fun tr => api_ping tr initial_state) (ConnectorPing initial_state) ;;;
       ret tt
     else ret tt)
    is_Exception
    (fun _ => emit (LogError "Error pinging the API")).

End ForcePing.

(** ** [ListenStream.run], from the stored state to the open feed *)

Section OpenStream.

(** The fields of the [ListenStream], as [__init__] has left them, and
    those of the helper. *)
Variables url token verify_ssl live_stream_id listen_delete no_dependencies : json.
Variables connect_live_stream_id opencti_url opencti_token opencti_ssl_verify
  connect_live_stream_listen_delete connect_live_stream_no_dependencies : json.

Variable start_timestamp : option string.

(** [str], as the f-strings apply it, and [SSEClient(url, headers=...,
    verify=...)] with the messages it will deliver. *)
Variable py_str : json -> string.
Variable sse_client : string -> json -> json -> result (list sse_event).

(** [x is False] and [x is True]. *)
Definition is_False (v : json) : bool :=
  match v with JBool false => true | _ => false end.

Definition is_True (v : json) : bool :=
  match v with JBool true => true | _ => false end.

(** The [from] parameter of a live stream: nothing when the cursor is
    ["-"]. *)
Definition live_stream_from_of (current_state : json) : result string :=
  cursor <- getitem current_state "connectorLastEventId" ;;
  if py_ne cursor (JStr "-") then
    cursor <- getitem current_state "connectorLastEventId" ;;
    Return ("?from=" @@ py_str cursor)
  else Return EmptyString.

(** The [from] parameter of the global stream: [0] when the cursor is
    ["-"]. *)
Definition global_stream_from_of (current_state : json) : result string :=
  cursor <- getitem current_state "connectorLastEventId" ;;
  if py_ne cursor (JStr "-") then
    cursor <- getitem current_state "connectorLastEventId" ;;
    str_add "?from=" cursor
  else str_add "?from=" (JStr "0").

(** The statements of [run] from [if self.url is not None ...] to the
    [SSEClient] that delivers the messages. *)
Definition open_stream (current_state : json) : prog (list sse_event) :=
  if negb (is_None url) && negb (is_None token) then
    let live_stream_uri :=
      if negb (is_None live_stream_id) then "/" @@ py_str live_stream_id
      else if negb (is_None connect_live_stream_id)
           then "/" @@ py_str connect_live_stream_id
           else EmptyString in
    live_stream_from <~
      lift (if negb (is_None live_stream_id) || negb (is_None connect_live_stream_id)
            then live_stream_from_of current_state
            else global_stream_from_of current_state) ;;
    let live_stream_url :=
      py_str url @@ "/stream" @@ live_stream_uri @@ live_stream_from in
    let opencti_ssl_verify :=
      if negb (is_None verify_ssl) then verify_ssl else JBool true in
    emit (LogInfo ("Starting listening stream events (URL: " @@ live_stream_url
                   @@ ", SSL verify: " @@ py_str opencti_ssl_verify
                   @@ ", Listen Delete: " @@ py_str listen_delete @@ ")")) ;;;
    authorization <~ lift (str_add "Bearer " token) ;;
    lift (sse_client live_stream_url
            (JObj [("authorization", JStr authorization);
                   ("listen-delete",
                    JStr (if is_False listen_delete then "false" else "true"));
                   ("no-dependencies",
                    JStr (if is_True no_dependencies then "true" else "false"))])
            opencti_ssl_verify)
  else
    let live_stream_uri :=
      if negb (is_None connect_live_stream_id)
      then "/" @@ py_str connect_live_stream_id
      else EmptyString in
    live_stream_from <~
      lift (if negb (is_None connect_live_stream_id)
            then live_stream_from_of current_state
            else global_stream_from_of current_state) ;;
    let live_stream_url :=
      py_str opencti_url @@ "/stream" @@ live_stream_uri @@ live_stream_from in
    emit (LogInfo ("Starting listening stream events (URL: " @@ live_stream_url
                   @@ ", SSL verify: " @@ py_str opencti_ssl_verify
                   @@ ", Listen Delete: " @@ py_str connect_live_stream_listen_delete
                   @@ ", No Dependencies: "
                   @@ py_str connect_live_stream_no_dependencies @@ ")")) ;;;
    authorization <~ lift (str_add "Bearer " opencti_token) ;;
    lift (sse_client live_stream_url
            (JObj [("authorization", JStr authorization);
                   ("listen-delete",
                    JStr (if is_False connect_live_stream_listen_delete
                          then "false" else "true"));
                   ("no-dependencies",
                    JStr (if is_True connect_live_stream_no_dependencies
                          then "true" else "false"))])
            opencti_ssl_verify).

Variable callback : list action -> sse_event -> result unit.
Variable exit : bool.

(** [ListenStream.run] with the feed it opens: [current_state] is the
    dictionary read from the helper, or the one just stored in it. As in
    [ListenStream_run], what is raised reaches [sys.excepthook]. *)
Definition ListenStream_run_feed : prog unit :=
  h <~ read_helper ;;
  current_state <~
    match get_state h with
    | None =>
        let current_state :=
          JObj [("connectorLastEventId",
                 JStr match start_timestamp with
                      | Some t => if (0 <? String.length t)%nat then t @@ "-0" else "-"
                      | None => "-"
                      end)] in
        update_helper (set_state current_state) ;;;
        ret current_state
    | Some current_state => ret current_state
    end ;;
  messages <~ open_stream current_state ;;
  iter_messages callback exit messages.

End OpenStream.

(** ** [send_stix2_bundle] and [_send_bundle] *)

(** What is sent to the control plane and to the broker. *)
Inductive push_action : Type :=
| UploadPendingFile (file_name : json) (data : string) (entity_id : json)
| AddExpectations (work : json) (count : nat)
| OpenConnection (host port user pass : json) (use_ssl : bool)
| OpenChannel
| BasicPublish (exchange : json) (routing_key : string) (body : string)
| CloseChannel
| LogBundleSent
| LogRetry.

(** What [channel.basic_publish] does: it returns, or raises
    [UnroutableError] or [NackError], or raises something else. *)
Inductive delivery : Type :=
| Delivered
| Refused
| Broken (e : exn).

(** A statement sequence over what has been sent; [None] when the depth of
    recursion allowed to [_send_bundle] is used up. *)
Definition push (A : Type) : Type :=
  list push_action -> list push_action * option (result A).

Definition push_ret {A : Type} (a : A) : push A := fun tr => (tr, Some (Return a)).

Definition push_lift {A : Type} (r : result A) : push A := fun tr => (tr, Some r).

Definition push_bind {A B : Type} (m : push A) (k : A -> push B) : push B :=
  fun tr =>
    match m tr with
    | (tr', Some (Return a)) => k a tr'
    | (tr', Some (Raise e)) => (tr', Some (Raise e))
    | (tr', None) => (tr', None)
    end.

Notation "x <~~ m ;; k" := (push_bind m (fun x => k))
  (at level 61, m at next level, right associativity).
Notation "m ;;;; k" := (push_bind m (fun _ => k))
  (at level 61, right associativity).

Definition push_log (a : push_action) : push unit :=
  fun tr => (tr ++ [a], Some (Return tt)).

Fixpoint push_for {A : Type} (body : A -> push unit) (l : list A) : push unit :=
  match l with
  | [] => push_ret tt
  | x :: r => body x ;;;; push_for body r
  end.

(** [enumerate(l, start)]. *)
Fixpoint enumerate {A : Type} (start : Z) (l : list A) : list (Z * A) :=
  match l with
  | [] => []
  | x :: r => (start, x) :: enumerate (start + 1) r
  end.

Section Push.

(** The helper: its fields and its configuration. *)
Variable h : helper.
Variable connector_id : string.
Variable config : json.
Variable connect_validate_before_import : json.

(** [str], [base64.b64encode(s.encode("utf-8")).decode("utf-8")] and
    [OpenCTIStix2Splitter().split_bundle(bundle, True, event_version)]. *)
Variable py_str : json -> string.
Variable b64encode : string -> string.
Variable split_bundle : string -> json -> result (list string).

(** The control plane and the broker, apart from [basic_publish]; and
    [basic_publish]. *)
Variable api : list push_action -> push_action -> result unit.
Variable publish : list push_action -> push_action -> delivery.

Definition push_call (a : push_action) : push unit :=
  fun tr => (tr ++ [a], Some (api tr a)).

(** The message [_send_bundle] builds. *)
Definition push_message (kwargs : dict) (bundle : string) : dict :=
  let work_id := kwargs_get kwargs "work_id" JNull in
  let sequence := kwargs_get kwargs "sequence" (JInt 0) in
  let update := kwargs_get kwargs "update" (JBool false) in
  let entities_types := kwargs_get kwargs "entities_types" JNull in
  let entities_types := if is_None entities_types then JArr [] else entities_types in
  let message := [("applicant_id", applicant_id h);
                  ("action_sequence", sequence);
                  ("entities_types", entities_types);
                  ("content", JStr (b64encode bundle));
                  ("update", update)] in
  if negb (is_None work_id) then dict_set "work_id" work_id message else message.

(** [_send_bundle]; [depth] bounds the calls of the function to itself. *)
Fixpoint _send_bundle (depth : nat) (bundle : string) (kwargs : dict)
  : push unit :=
  match depth with
  | O => fun tr => (tr, None)
  | S depth' =>
      let message := push_message kwargs bundle in
      let routing_key := "push_routing_" @@ connector_id in
      exchange <~~ push_lift (getitem config "push_exchange") ;;
      fun tr =>
        let a := BasicPublish exchange routing_key (json_dumps (JObj message)) in
        match publish tr a with
        | Delivered => push_log LogBundleSent (tr ++ [a])
        | Refused =>
            (push_log LogRetry ;;;; _send_bundle depth' bundle kwargs) (tr ++ [a])
        | Broken e => (tr ++ [a], Some (Raise e))
        end
  end.

(** [self.config["connection"][k]]. *)
Definition connection (k : string) : result json :=
  c <- getitem config "connection" ;; getitem c k.

(** The file name [send_stix2_bundle] settles on. *)
Definition pending_file_name (kwargs : dict) : json :=
  let work_id := kwargs_get kwargs "work_id" (work_id h) in
  let file_name := kwargs_get kwargs "file_name" JNull in
  if negb (py_truthy file_name) && py_truthy work_id
  then JStr (py_str work_id @@ ".json")
  else file_name.

(** [send_stix2_bundle]. *)
Definition send_stix2_bundle (depth : nat) (bundle : string) (kwargs : dict)
  : push (list string) :=
  let work_id := kwargs_get kwargs "work_id" (work_id h) in
  let entities_types := kwargs_get kwargs "entities_types" JNull in
  let update := kwargs_get kwargs "update" (JBool false) in
  let event_version := kwargs_get kwargs "event_version" JNull in
  let bypass_split := kwargs_get kwargs "bypass_split" (JBool false) in
  let bypass_validation := kwargs_get kwargs "bypass_validation" (JBool false) in
  let entity_id := kwargs_get kwargs "entity_id" JNull in
  let file_name := pending_file_name kwargs in
  if py_truthy connect_validate_before_import
     && negb (py_truthy bypass_validation)
     && py_truthy file_name
  then
    push_call (UploadPendingFile file_name bundle entity_id) ;;;;
    push_ret []
  else
    let entities_types := if is_None entities_types then JArr [] else entities_types in
    bundles <~~ (if py_truthy bypass_split then push_ret [bundle]
                 else push_lift (split_bundle bundle event_version)) ;;
    if (List.length bundles =? 0)%nat
    then push_lift (Raise (mk_exn ValueError "Nothing to import"))
    else
      (if py_truthy work_id
       then push_call (AddExpectations work_id (List.length bundles))
       else push_ret tt) ;;;;
      user <~~ push_lift (connection "user") ;;
      pass <~~ push_lift (connection "pass") ;;
      host <~~ push_lift (connection "host") ;;
      port <~~ push_lift (connection "port") ;;
      use_ssl <~~ push_lift (connection "use_ssl") ;;
      (if py_truthy use_ssl
       then push_lift (connection "host") ;;;; push_ret tt
       else push_ret tt) ;;;;
      push_call (OpenConnection host port user pass (py_truthy use_ssl)) ;;;;
      push_call OpenChannel ;;;;
      push_for (fun '(sequence, bundle) =>
                  _send_bundle depth bundle
                    [("work_id", work_id);
                     ("entities_types", entities_types);
                     ("sequence", JInt sequence);
                     ("update", update)])
               (enumerate 1 bundles) ;;;;
      push_call CloseChannel ;;;;
      push_ret bundles.

(** The kwargs [send_stix2_bundle] calls [_send_bundle] with. *)
Definition sequence_kwargs (kwargs : dict) (sequence : Z) : dict :=
  [("work_id", kwargs_get kwargs "work_id" (work_id h));
   ("entities_types",
    if is_None (kwargs_get kwargs "entities_types" JNull) then JArr []
    else kwargs_get kwargs "entities_types" JNull);
   ("sequence", JInt sequence);
   ("update", kwargs_get kwargs "update" (JBool false))].

(** The publication of one sub-bundle. *)
Definition publication (exchange : json) (kwargs : dict) (numbered : Z * string)
  : push_action :=
  BasicPublish exchange ("push_routing_" @@ connector_id)
    (json_dumps (JObj (push_message (sequence_kwargs kwargs (fst numbered)) (snd numbered)))).

End Push.

(** ** [get_config_variable] *)

Definition TRUTHY : list json := [JStr "yes"; JStr "true"; JStr "True"].
Definition FALSY : list json := [JStr "no"; JStr "false"; JStr "False"].

Section Config.

(** [os.getenv], and [int]. *)
Variable getenv : string -> option string.
Variable py_int : json -> result Z.

(** [get_config_variable]; [yaml_path] is [None] or a list that starts with
    two strings. The value found is [Some], and [None] stands for the two
    [return default]. *)
Definition get_config_variable (env_var : string)
  (yaml_path : option (string * string)) (config : json) (isNumber : json)
  (default : json) : result json :=
  found <-
    match getenv env_var with
    | Some value => Return (Some (JStr value))
    | None =>
        match yaml_path with
        | Some (section, key) =>
            has_section <- contains section config ;;
            has_key <-
              (if has_section : bool then
                 entries <- getitem config section ;;
                 contains key entries
               else Return false) ;;
            if has_key : bool then
              entries <- getitem config section ;;
              value <- getitem entries key ;;
              Return (Some value)
            else Return None
        | None => Return None
        end
    end ;;
  match found with
  | None => Return default
  | Some result =>
      if py_in result TRUTHY then Return (JBool true)
      else if py_in result FALSY then Return (JBool false)
      else if py_truthy isNumber then
        n <- py_int result ;; Return (JInt n)
      else Return result
  end.

End Config.

(** ** [OpenCTIStix2Utils] *)

Definition STIX_CYBER_OBSERVABLE_MAPPING : list (string * string) :=
  [("autonomous-system", "Autonomous-System");
   ("directory", "Directory");
   ("domain-name", "Domain-Name");
   ("email-addr", "Email-Addr");
   ("file", "StixFile");
   ("email-message", "Email-Message");
   ("ipv4-addr", "IPv4-Addr");
   ("ipv6-addr", "IPv6-Addr");
   ("mac-addr", "Mac-Addr");
   ("mutex", "Mutex");
   ("network-traffic", "Network-Traffic");
   ("process", "Process");
   ("software", "Software");
   ("url", "Url");
   ("user-account", "User-Account");
   ("windows-registry-key", "Windows-Registry-Key");
   ("windows-registry-value-type", "Windows-Registry-Value-Type");
   ("x-opencti-hostname", "X-OpenCTI-Hostname")].

Definition PATTERN_MAPPING : list (string * list string) :=
  [("Autonomous-System", ["number"]);
   ("Directory", ["path"]);
   ("Domain-Name", ["value"]);
   ("Email-Addr", ["value"]);
   ("File_md5", ["hashes"; "MD5"]);
   ("File_sha1", ["hashes"; "SHA-1"]);
   ("File_sha256", ["hashes"; "SHA-256"]);
   ("File_sha512", ["hashes"; "SHA-512"]);
   ("Email-Message_Body", ["body"]);
   ("Email-Message_Subject", ["subject"]);
   ("Email-Mime-Part-Type", ["body"]);
   ("IPv4-Addr", ["value"]);
   ("IPv6-Addr", ["value"]);
   ("Mac-Addr", ["value"]);
   ("Mutex", ["name"]);
   ("Network-Traffic", ["dst_port"]);
   ("Process", ["pid"]);
   ("Software", ["name"]);
   ("Url", ["value"]);
   ("User-Account", ["acount_login"]);
   ("Windows-Registry-Key", ["key"]);
   ("Windows-Registry-Value-Type", ["name"]);
   ("X-OpenCTI-Hostname", ["value"])].

(** [OpenCTIStix2Utils.stix_observable_opencti_type]. *)
Definition stix_observable_opencti_type (observable_type : string) : string :=
  match lookup_str observable_type STIX_CYBER_OBSERVABLE_MAPPING with
  | Some opencti_type => opencti_type
  | None => "Unknown"
  end.

(** [str.lower] on the characters a string of this development can hold:
    the letters A to Z, and those of Latin-1. *)
Definition lower_char (c : ascii) : ascii :=
  let n := nat_of_ascii c in
  if ((65 <=? n) && (n <=? 90)
      || (192 <=? n) && (n <=? 222) && negb (n =? 215))%nat
  then ascii_of_nat (n + 32)
  else c.

Fixpoint py_lower (s : string) : string :=
  match s with
  | EmptyString => EmptyString
  | String c r => String (lower_char c) (py_lower r)
  end.

(** ["_" in s] and [s.split("_")[0]]. *)
Fixpoint has_underscore (s : string) : bool :=
  match s with
  | EmptyString => false
  | String c r => Ascii.eqb c "_" || has_underscore r
  end.

Fixpoint before_underscore (s : string) : string :=
  match s with
  | EmptyString => EmptyString
  | String c r => if Ascii.eqb c "_" then EmptyString else String c (before_underscore r)
  end.

Section Pattern.

(** [str(ObservationExpression(EqualityComparisonExpression(ObjectPath(
    object_type, property_path), value)))], of the [stix2] library. *)
Variable pattern_text : string -> list string -> json -> result string.

(** [OpenCTIStix2Utils.create_stix_pattern]; [None] is Python's. *)
Definition create_stix_pattern (observable_type : string) (observable_value : json)
  : result (option string) :=
  match lookup_str observable_type PATTERN_MAPPING with
  | Some property_path =>
      let object_type :=
        if negb (has_underscore observable_type)
        then py_lower observable_type
        else py_lower (before_underscore observable_type) in
      text <- pattern_text object_type property_path observable_value ;;
      Return (Some text)
  | None => Return None
  end.

End Pattern.

(** ** [StixCyberObservableRelationship] *)

Module StixCyberObservableRelationship.

(** What the entity asks of the API client: a log line or a query. *)
Inductive api_action : Type :=
| Log (level message : string)
| Query (query : string) (variables : json).

Definition gql (A : Type) : Type :=
  list api_action -> list api_action * result A.

Definition gql_lift {A : Type} (r : result A) : gql A := fun tr => (tr, r).

Definition gql_bind {A B : Type} (m : gql A) (k : A -> gql B) : gql B :=
  fun tr =>
    match m tr with
    | (tr', Return a) => k a tr'
    | (tr', Raise e) => (tr', Raise e)
    end.

Notation "x <~~~ m ;; k" := (gql_bind m (fun x => k))
  (at level 61, m at next level, right associativity).
Notation "m ;;;;; k" := (gql_bind m (fun _ => k))
  (at level 61, right associativity).

(** [self.properties]. *)
Definition properties : string :=
  "
            id
            entity_type
            parent_types
            spec_version
            created_at
            updated_at
            standard_id
            relationship_type
            start_time
            stop_time
            from {
                ... on StixCyberObservable {
                    id
                    standard_id
                    entity_type
                    parent_types
                    observable_value
                }
            }
            to {
                ... on StixCyberObservable {
                    id
                    standard_id
                    entity_type
                    parent_types
                    observable_value
                }
            }
        ".

Definition list_query_head : string :=
  "
            query StixCyberObservableRelationships($elementId: String, $fromId: String, $fromTypes: [String], $toId: String, $toTypes: [String], $relationship_type: [String], $startTimeStart: DateTime, $startTimeStop: DateTime, $stopTimeStart: DateTime, $stopTimeStop: DateTime, $filters: [StixCyberObservableRelationshipsFiltering], $first: Int, $after: ID, $orderBy: StixCyberObservableRelationshipsOrdering, $orderMode: OrderingMode) {
                stixCyberObservableRelationships(elementId: $elementId, fromId: $fromId, fromTypes: $fromTypes, toId: $toId, toTypes: $toTypes, relationship_type: $relationship_type, startTimeStart: $startTimeStart, startTimeStop: $startTimeStop, stopTimeStart: $stopTimeStart, stopTimeStop: $stopTimeStop, filters: $filters, first: $first, after: $after, orderBy: $orderBy, orderMode: $orderMode) {
                    edges {
                        node {
                            ".

Definition list_query_tail : string :=
  "
                        }
                    }
                    pageInfo {
                        startCursor
                        endCursor
                        hasNextPage
                        hasPreviousPage
                        globalCount
                    }
                }
            }
         ".

Definition read_query_head : string :=
  "
                query StixCyberObservableRelationship($id: String!) {
                    stixCyberObservableRelationship(id: $id) {
                        ".

Definition read_query_tail : string :=
  "
                    }
                }
             ".

Definition create_query : string :=
  "
                mutation StixCyberObservableRelationshipAdd($input: StixCyberObservableRelationshipAddInput!) {
                    stixCyberObservableRelationshipAdd(input: $input) {
                        id
                        standard_id
                        entity_type
                        parent_types
                    }
                }
                ".

Definition update_query_head : string :=
  "
                mutation StixCyberObservableRelationshipEdit($id: ID!, $input: [EditInput]!) {
                    stixCyberObservableRelationshipEdit(id: $id) {
                        fieldPatch(input: $input) {
                            ".

Definition update_query_tail : string :=
  "
                        }
                    }
                }
            ".

Section Entity.

(** [self.opencti.query], [self.opencti.process_multiple],
    [self.opencti.process_multiple_fields], and [str]. *)
Variable query : list api_action -> string -> json -> result json.
Variable process_multiple : json -> json -> result json.
Variable process_multiple_fields : json -> result json.
Variable py_str : json -> string.

Definition log (level message : string) : gql unit :=
  fun tr => (tr ++ [Log level message], Return tt).

Definition opencti_query (q : string) (variables : json) : gql json :=
  fun tr => (tr ++ [Query q variables], query tr q variables).

(** [StixCyberObservableRelationship.list]. *)
Definition list_ (kwargs : dict) : gql json :=
  let element_id := kwargs_get kwargs "elementId" JNull in
  let from_id := kwargs_get kwargs "fromId" JNull in
  let from_types := kwargs_get kwargs "fromTypes" JNull in
  let to_id := kwargs_get kwargs "toId" JNull in
  let to_types := kwargs_get kwargs "toTypes" JNull in
  let relationship_type := kwargs_get kwargs "relationship_type" JNull in
  let start_time_start := kwargs_get kwargs "startTimeStart" JNull in
  let start_time_stop := kwargs_get kwargs "startTimeStop" JNull in
  let stop_time_start := kwargs_get kwargs "stopTimeStart" JNull in
  let stop_time_stop := kwargs_get kwargs "stopTimeStop" JNull in
  let filters := kwargs_get kwargs "filters" (JArr []) in
  let first := kwargs_get kwargs "first" (JInt 500) in
  let after := kwargs_get kwargs "after" JNull in
  let order_by := kwargs_get kwargs "orderBy" JNull in
  let order_mode := kwargs_get kwargs "orderMode" JNull in
  let custom_attributes := kwargs_get kwargs "customAttributes" JNull in
  let get_all := kwargs_get kwargs "getAll" (JBool false) in
  let with_pagination := kwargs_get kwargs "withPagination" (JBool false) in
  let first := if py_truthy get_all then JInt 500 else first in
  log "info"
    ("Listing stix_observable_relationships with {type: "
     @@ py_str relationship_type
     @@ ", from_id: "
     @@ py_str from_id
     @@ ", to_id: "
     @@ py_str to_id
     @@ "}") ;;;;;
  q <~~~ gql_lift
           (q <- str_add list_query_head
                   (if negb (is_None custom_attributes) then custom_attributes
                    else JStr properties) ;;
            Return (q @@ list_query_tail)) ;;
  result <~~~ opencti_query q
                (JObj [("elementId", element_id);
                       ("fromId", from_id);
                       ("fromTypes", from_types);
                       ("toId", to_id);
                       ("toTypes", to_types);
                       ("relationship_type", relationship_type);
                       ("startTimeStart", start_time_start);
                       ("startTimeStop", start_time_stop);
                       ("stopTimeStart", stop_time_start);
                       ("stopTimeStop", stop_time_stop);
                       ("filters", filters);
                       ("first", first);
                       ("after", after);
                       ("orderBy", order_by);
                       ("orderMode", order_mode)]) ;;
  gql_lift (data <- getitem result "data" ;;
            found <- getitem data "stixCyberObservableRelationships" ;;
            process_multiple found with_pagination).

(** [StixCyberObservableRelationship.read]. *)
Definition read (kwargs : dict) : gql json :=
  let id := kwargs_get kwargs "id" JNull in
  let element_id := kwargs_get kwargs "elementId" JNull in
  let from_id := kwargs_get kwargs "fromId" JNull in
  let to_id := kwargs_get kwargs "toId" JNull in
  let relationship_type := kwargs_get kwargs "relationship_type" JNull in
  let start_time_start := kwargs_get kwargs "startTimeStart" JNull in
  let start_time_stop := kwargs_get kwargs "startTimeStop" JNull in
  let stop_time_start := kwargs_get kwargs "stopTimeStart" JNull in
  let stop_time_stop := kwargs_get kwargs "stopTimeStop" JNull in
  let custom_attributes := kwargs_get kwargs "customAttributes" JNull in
  if negb (is_None id) then
    message <~~~ gql_lift
                   (m <- str_add "Reading stix_observable_relationship {" id ;;
                    Return (m @@ "}.")) ;;
    log "info" message ;;;;;
    q <~~~ gql_lift
             (q <- str_add read_query_head
                     (if negb (is_None custom_attributes) then custom_attributes
                      else JStr properties) ;;
              Return (q @@ read_query_tail)) ;;
    result <~~~ opencti_query q (JObj [("id", id)]) ;;
    gql_lift (data <- getitem result "data" ;;
              found <- getitem data "stixCyberObservableRelationship" ;;
              process_multiple_fields found)
  else
    result <~~~ list_ [("elementId", element_id);
                       ("fromId", from_id);
                       ("toId", to_id);
                       ("relationship_type", relationship_type);
                       ("startTimeStart", start_time_start);
                       ("startTimeStop", start_time_stop);
                       ("stopTimeStart", stop_time_start);
                       ("stopTimeStop", stop_time_stop)] ;;
    gql_lift (first_or_none result).

(** [StixCyberObservableRelationship.create]. *)
Definition create (kwargs : dict) : gql json :=
  let from_id := kwargs_get kwargs "fromId" JNull in
  let to_id := kwargs_get kwargs "toId" JNull in
  let relationship_type := kwargs_get kwargs "relationship_type" JNull in
  let start_time := kwargs_get kwargs "start_time" JNull in
  let stop_time := kwargs_get kwargs "stop_time" JNull in
  let stix_id := kwargs_get kwargs "stix_id" JNull in
  let created := kwargs_get kwargs "created" JNull in
  let modified := kwargs_get kwargs "modified" JNull in
  let created_by := kwargs_get kwargs "createdBy" JNull in
  let object_marking := kwargs_get kwargs "objectMarking" JNull in
  let x_opencti_stix_ids := kwargs_get kwargs "x_opencti_stix_ids" JNull in
  let update := kwargs_get kwargs "update" (JBool false) in
  message <~~~ gql_lift
                 (m <- str_add "Creating stix_observable_relationship {" from_id ;;
                  m <- str_add (m @@ ", ") to_id ;;
                  Return (m @@ "}.")) ;;
  log "info" message ;;;;;
  result <~~~ opencti_query create_query
                (JObj [("input",
                        JObj [("fromId", from_id);
                              ("toId", to_id);
                              ("relationship_type", relationship_type);
                              ("start_time", start_time);
                              ("stop_time", stop_time);
                              ("stix_id", stix_id);
                              ("created", created);
                              ("modified", modified);
                              ("createdBy", created_by);
                              ("objectMarking", object_marking);
                              ("x_opencti_stix_ids", x_opencti_stix_ids);
                              ("update", update)])]) ;;
  gql_lift (data <- getitem result "data" ;;
            added <- getitem data "stixCyberObservableRelationshipAdd" ;;
            process_multiple_fields added).

(** [StixCyberObservableRelationship.update_field]. *)
Definition update_field (kwargs : dict) : gql json :=
  let id := kwargs_get kwargs "id" JNull in
  let input := kwargs_get kwargs "input" JNull in
  if negb (is_None id) && negb (is_None input) then
    message <~~~ gql_lift
                   (m <- str_add "Updating stix_observable_relationship {" id ;;
                    Return (m @@ "}.")) ;;
    log "info" message ;;;;;
    let q := update_query_head @@ properties @@ update_query_tail in
    result <~~~ opencti_query q (JObj [("id", id); ("input", input)]) ;;
    gql_lift (data <- getitem result "data" ;;
              edit <- getitem data "stixCyberObservableRelationshipEdit" ;;
              patch <- getitem edit "fieldPatch" ;;
              process_multiple_fields patch)
  else
    log "error" "Missing parameters: id and key and value" ;;;;;
    gql_lift (Return JNull).

End Entity.

(** The queries among what has been asked of the API client. *)
Definition queries (tr : list api_action) : list (string * json) :=
  flat_map (fun a => match a with Query q v => [(q, v)] | Log _ _ => [] end) tr.

End StixCyberObservableRelationship.

(** ** More notions used to state the properties *)

(** No id of the list is equal, for Python, to one that comes before it;
    [seen] holds the ids met so far. *)
Fixpoint fresh_ids (seen ids : list json) : bool :=
  match ids with
  | [] => true
  | id :: rest => negb (py_in id seen) && fresh_ids (seen ++ [id]) rest
  end.

Definition distinct_ids (ids : list json) : bool := fresh_ids [] ids.

(** [l1] is [l2] with some elements left out. *)
Inductive subsequence {A : Type} : list A -> list A -> Prop :=
| subsequence_nil : subsequence [] []
| subsequence_skip (x : A) (l1 l2 : list A) :
    subsequence l1 l2 -> subsequence l1 (x :: l2)
| subsequence_keep (x : A) (l1 l2 : list A) :
    subsequence l1 l2 -> subsequence (x :: l1) (x :: l2).

(** The loop of [stix2_deduplicate_objects], from the ids and the items
    kept so far. *)
Definition dedup_step (st : list json * list json) (item : json)
  : result (list json * list json) :=
  let '(ids, final_items) := st in
  id <- getitem item "id" ;;
  if negb (py_in id ids) then
    id <- getitem item "id" ;;
    Return (ids ++ [id], final_items ++ [item])
  else Return (ids, final_items).

(** The object a reference names in the index, if any. *)
Definition resolve (ci : pydict) (ref : json) : list json :=
  match pydict_find ref ci with
  | Some x => [x]
  | None => []
  end.

(** The references of an object are of a kind that can be looked up: the
    creator is hashable and the markings are a list of hashable values (in
    STIX both are strings). *)
Definition refs_typed (d : dict) : bool :=
  match dict_get "created_by_ref" d with
  | Some ref => hashable ref
  | None => true
  end
  && match dict_get "object_marking_refs" d with
     | Some (JArr refs) => forallb hashable refs
     | Some _ => false
     | None => true
     end.

Definition marking_refs (d : dict) : list json :=
  match dict_get "object_marking_refs" d with
  | Some (JArr refs) => refs
  | _ => []
  end.

Definition creator_ref (d : dict) : list json :=
  match dict_get "created_by_ref" d with
  | Some ref => [ref]
  | None => []
  end.

Definition not_None (x : json) : bool := negb (is_None x).

(** A relationship whose two ends and embedded references can be looked
    up. *)
Definition relationship_typed (d : dict) : bool :=
  match dict_get "source_ref" d, dict_get "target_ref" d with
  | Some s, Some t => hashable s && hashable t && refs_typed d
  | _, _ => false
  end.

(** What a sub-bundle of a split is made of: objects of the source bundle,
    at least one, no two of them with equal ids. *)
Definition sub_bundle_of (objects : list json) (b : string) : Prop :=
  bundle_objects b <> []
  /\ incl (bundle_objects b) objects
  /\ distinct_ids (bundle_ids b) = true.

(** An object that [split_stix2_bundle] can take in a bundle of the given
    objects: a dictionary with a hashable id and a type that is not
    [relationship], whose creator and markings can be looked up, and, for a
    report, whose [object_refs] is a list of ids of objects of the bundle. *)
Definition splittable (objects : list json) (x : json) : bool :=
  match x with
  | JObj o =>
      match dict_get "id" o, dict_get "type" o with
      | Some id, Some type =>
          hashable id
          && py_ne type (JStr "relationship")
          && refs_typed o
          && (if py_eq type (JStr "report") then
                match dict_get "object_refs" o with
                | Some (JArr refs) =>
                    forallb (fun r => hashable r && py_in r (object_ids objects)) refs
                | _ => false
                end
              else true)
      | _, _ => false
      end
  | _ => false
  end.

(** The references of a report. *)
Definition object_refs (d : dict) : list json :=
  match dict_get "object_refs" d with
  | Some (JArr refs) => refs
  | _ => []
  end.

(** The creator and the markings of an object, those that the index
    holds. *)
Definition embedded_members (ci : pydict) (x : json) : list json :=
  match x with
  | JObj d =>
      filter not_None (flat_map (resolve ci) (creator_ref d))
      ++ flat_map (resolve ci) (marking_refs d)
  | _ => []
  end.

(** What the closure of an object adds to it: its creator and its markings;
    and for a report the objects it refers to, with their creators and
    their markings. *)
Definition closure_members (ci : pydict) (seed : json) : list json :=
  embedded_members ci seed
  ++ match seed with
     | JObj d =>
         if type_is report_type seed then
           flat_map (resolve ci) (object_refs d)
           ++ flat_map (embedded_members ci) (flat_map (resolve ci) (object_refs d))
         else []
     | _ => []
     end.

(** What one sub-bundle of a loop was made from: an object of the loop that
    was selected at a moment when [cache_added] held at least [before],
    whose closure was computed and has all its ids in the sub-bundle. *)
Definition made_from (select : json -> list json -> result bool)
  (closure : json -> result (list json)) (objects before : list json) (b : string)
  : Prop :=
  exists item added objs,
    In item objects
    /\ (forall id, py_in id before = true -> py_in id added = true)
    /\ select item added = Return true
    /\ closure item = Return objs
    /\ hd_error (bundle_objects b) = Some item
    /\ forall x, In x objs ->
         exists id, getitem x "id" = Return id /\ py_in id (bundle_ids b) = true.

(** A message that is handed to the callback: neither a keep-alive nor a
    [sync]. *)
Definition is_data (msg : sse_event) : bool :=
  negb (is_keepalive msg) && negb (String.eqb (msg_event msg) "sync").

(** The id a message moves the cursor to. *)
Definition cursor_of (msg : sse_event) : option string :=
  if is_keepalive msg then None else msg_id msg.

Fixpoint last_cursor (msgs : list sse_event) : option string :=
  match msgs with
  | [] => None
  | msg :: rest =>
      match last_cursor rest with
      | Some id => Some id
      | None => cursor_of msg
      end
  end.

(** The cursor [ListenStream.run] starts from when no state is stored. *)
Definition start_cursor (start_timestamp : option string) : string :=
  match start_timestamp with
  | Some t => if (0 <? String.length t)%nat then t @@ "-0" else "-"
  | None => "-"
  end.

(** The state the loop of [ListenStream.run] starts with. *)
Definition stored_state (start_timestamp : option string) (h : helper) : dict :=
  match get_state h with
  | Some (JObj d) => d
  | _ => [("connectorLastEventId", JStr (start_cursor start_timestamp))]
  end.

Definition move_cursor (msgs : list sse_event) (d : dict) : dict :=
  match last_cursor msgs with
  | Some id => dict_set "connectorLastEventId" (JStr id) d
  | None => d
  end.

(** The address of the feed: the stream of the base address, the live
    stream when there is one, and the position to resume from. A live stream
    is asked for no position at the cursor ["-"], the global stream for the
    position [0]. *)
Definition feed_address (base : string) (stream_id : option string) (cursor : string)
  : string :=
  base @@ "/stream"
  @@ match stream_id with
     | Some id =>
         "/" @@ id @@ (if String.eqb cursor "-" then EmptyString else "?from=" @@ cursor)
     | None => "?from=" @@ (if String.eqb cursor "-" then "0" else cursor)
     end.

(** The states the control plane has been pinged with. *)
Definition heartbeats (tr : list action) : list json :=
  flat_map (fun a => match a with ConnectorPing st => [st] | _ => [] end) tr.

(** The control plane fails with instances of [Exception] only. *)
Definition fails_with_exceptions (api_ping : list action -> json -> result (option string))
  : Prop :=
  forall tr st e, api_ping tr st = Raise e -> is_Exception e = true.

(** The header of a queue message: [json_data["internal"]["work_id"]] and
    [json_data["internal"]["applicant_id"]]. *)
Definition message_header (json_data : json) : result (json * json) :=
  internal <- getitem json_data "internal" ;;
  wid <- getitem internal "work_id" ;;
  aid <- getitem internal "applicant_id" ;;
  Return (wid, aid).

(** What [_data_handler] does before the [try]: the helper takes the work
    and the applicant, and the applicant is sent as a header. *)
Definition take_header (wid aid : json) (h : helper) : helper :=
  mk_helper (connector_state h) wid (if is_None aid then applicant_id h else aid).

Definition header_calls (aid : json) : list action :=
  if is_None aid then [] else [SetApplicantIdHeader aid].

Definition ready : string := "Connector ready to process the operation".

(** The attempts of [_send_bundle] that the broker has refused. *)
Fixpoint refused (a : push_action) (k : nat) : list push_action :=
  match k with
  | O => []
  | S k' => a :: LogRetry :: refused a k'
  end.

Definition is_publish (a : push_action) : bool :=
  match a with BasicPublish _ _ _ => true | _ => false end.

(** The values that [get_config_variable] turns into booleans. *)
Definition flag_word (v : json) : bool := py_in v (TRUTHY ++ FALSY).


(** * Properties *)

#[local] Close Scope Z_scope.

(** ** Text and the JSON codec *)

Lemma append_assoc (a b c : string) : (a @@ b) @@ c = a @@ b @@ c.
Proof. induction a as [|x a IH]; simpl; [reflexivity | now rewrite IH]. Qed.

Lemma append_nil_r (a : string) : a @@ EmptyString = a.
Proof. induction a as [|x a IH]; simpl; [reflexivity | now rewrite IH]. Qed.

Lemma length_append (a b : string) :
  String.length (a @@ b) = (String.length a + String.length b)%nat.
Proof. induction a as [|x a IH]; simpl; [reflexivity | now rewrite IH]. Qed.

(** Induction over [json] with the hypotheses for the nested lists. *)
Lemma json_induction (P : json -> Prop) :
  P JNull ->
  (forall b, P (JBool b)) ->
  (forall n, P (JInt n)) ->
  (forall s, P (JStr s)) ->
  (forall l, Forall P l -> P (JArr l)) ->
  (forall d, Forall (fun kv => P (snd kv)) d -> P (JObj d)) ->
  forall v, P v.
Proof.
  intros Hnull Hbool Hint Hstr Harr Hobj.
  fix self 1.
  intros [ | b | n | s | l | d ].
  - exact Hnull.
  - apply Hbool.
  - apply Hint.
  - apply Hstr.
  - apply Harr. induction l as [|x l IHl]; constructor; [apply self | exact IHl].
  - apply Hobj. induction d as [|[k x] d IHd]; constructor; [apply self | exact IHd].
Qed.

Lemma scan_string_escape_char (c : ascii) (t : string) :
  scan_string (escape_char c @@ t) =
  match scan_string t with
  | Some (x, rest) => Some (String c x, rest)
  | None => None
  end.
Proof.
  destruct c as [[] [] [] [] [] [] [] []]; reflexivity.
Qed.

Lemma scan_string_escape (s rest : string) :
  scan_string (escape s @@ String quote_char rest) = Some (s, rest).
Proof.
  induction s as [|c s IH].
  - reflexivity.
  - cbn [escape]. rewrite append_assoc, scan_string_escape_char, IH. reflexivity.
Qed.

Lemma number_ends_digit (rest : string) :
  number_ends rest = true ->
  match rest with
  | String c _ => digit_of c = None
  | EmptyString => True
  end.
Proof.
  destruct rest as [|c r]; [trivial|]. unfold number_ends.
  destruct (digit_of c); [discriminate | reflexivity].
Qed.

Lemma number_ends_float (rest : string) :
  number_ends rest = true -> float_follows rest = false.
Proof.
  destruct rest as [|c r]; [reflexivity|]. unfold number_ends.
  destruct (digit_of c); [discriminate|]. now rewrite negb_true_iff.
Qed.

Lemma scan_digits_uint (d : uint) (rest : string) :
  number_ends rest = true ->
  scan_digits (NilEmpty.string_of_uint d @@ rest) = (d, rest).
Proof.
  intros Hrest. induction d; cbn -[digit_of];
    try (rewrite IHd; reflexivity).
  apply number_ends_digit in Hrest. destruct rest as [|c r]; [reflexivity|].
  cbn -[digit_of]. now rewrite Hrest.
Qed.

(** The digits of a positive number start with a digit other than 0. *)
Lemma to_uint_head (p : positive) :
  match Pos.to_uint p with
  | Nil | D0 _ => False
  | _ => True
  end.
Proof.
  assert (Hn : unorm (Pos.to_uint p) = Pos.to_uint p).
  { rewrite <- (DecimalPos.Unsigned.to_of (Pos.to_uint p)).
    now rewrite DecimalPos.Unsigned.of_to. }
  pose proof (DecimalPos.Unsigned.to_uint_nonnil p) as Hnil.
  pose proof (DecimalPos.Unsigned.to_uint_nonzero p) as Hzero.
  destruct (Pos.to_uint p) as [|u|u|u|u|u|u|u|u|u|u] eqn:E; try exact I.
  - now apply Hnil.
  - rewrite unorm_D0 in Hn. unfold unorm in Hn.
    destruct (nzhead u) eqn:Hu; try discriminate Hn.
    + apply Hzero. symmetry. exact Hn.
    + exact (nzhead_nonzero _ _ Hu).
Qed.

Lemma scan_number_digits (c : ascii) (D : uint -> uint) (neg : bool)
  (t rest : string) (d : uint) :
  digit_of c = Some D ->
  Ascii.eqb c "0" = false ->
  Ascii.eqb c "-" = false ->
  scan_digits (String c t) = (d, rest) ->
  float_follows rest = false ->
  scan_number ((if neg then "-" else EmptyString) @@ String c t)
  = Some (JInt (Z.of_int (if neg then Neg d else Pos d)), rest).
Proof.
  intros Hdig Hzero Hminus Hscan Hfloat.
  destruct neg; unfold scan_number; cbn [String.append Ascii.eqb Bool.eqb].
  - rewrite Hdig, Hzero, Hscan, Hfloat. reflexivity.
  - rewrite Hminus, Hdig, Hzero, Hscan, Hfloat. reflexivity.
Qed.

Lemma scan_number_uint (neg : bool) (p : positive) (rest : string) :
  number_ends rest = true ->
  scan_number ((if neg then "-" else EmptyString)
               @@ NilEmpty.string_of_uint (Pos.to_uint p) @@ rest)
  = Some (JInt (if neg then Z.neg p else Z.pos p), rest).
Proof.
  intros Hrest.
  pose proof (to_uint_head p) as Hhead.
  pose proof (scan_digits_uint (Pos.to_uint p) rest Hrest) as Hscan.
  pose proof (DecimalZ.of_to (Z.pos p)) as Hpos.
  pose proof (DecimalZ.of_to (Z.neg p)) as Hneg.
  pose proof (number_ends_float rest Hrest) as Hfloat.
  cbn [Z.to_int] in Hpos, Hneg.
  assert (Hval : JInt (Z.of_int (if neg then Neg (Pos.to_uint p) else Pos (Pos.to_uint p)))
                 = JInt (if neg then Z.neg p else Z.pos p))
    by (destruct neg; congruence).
  rewrite <- Hval. clear Hval Hpos Hneg.
  destruct (Pos.to_uint p) as [|u|u|u|u|u|u|u|u|u|u]; try contradiction;
    cbn [NilEmpty.string_of_uint String.append] in Hscan |- *;
    (eapply scan_number_digits; [reflexivity | reflexivity | reflexivity | exact Hscan | exact Hfloat]).
Qed.

Lemma scan_number_dumps (n : Z) (rest : string) :
  number_ends rest = true ->
  scan_number (json_dumps (JInt n) @@ rest) = Some (JInt n, rest).
Proof.
  intros Hrest. destruct n as [|p|p].
  - unfold scan_number. cbn. now rewrite (number_ends_float rest Hrest).
  - exact (scan_number_uint false p rest Hrest).
  - exact (scan_number_uint true p rest Hrest).
Qed.

Lemma value_start_facts (c : ascii) :
  value_start c = true ->
  is_ws c = false /\ Ascii.eqb c "]" = false /\ Ascii.eqb c "}" = false
  /\ Ascii.eqb c "," = false /\ Ascii.eqb c ":" = false.
Proof.
  destruct c as [[] [] [] [] [] [] [] []]; cbv; intros H;
    solve [discriminate H | repeat split].
Qed.

Lemma scan_value_number (fuel : nat) (c : ascii) (r : string) :
  (Ascii.eqb c "-" || match digit_of c with Some _ => true | None => false end) = true ->
  scan_value (S fuel) (String c r) = scan_number (String c r).
Proof.
  destruct c as [[] [] [] [] [] [] [] []]; cbv [orb Ascii.eqb Bool.eqb digit_of N_of_ascii N_of_digits N.add N.mul Pos.add Pos.succ Pos.mul];
    intros H; try discriminate H; reflexivity.
Qed.

Lemma string_of_uint_start (p : positive) :
  exists c t, NilEmpty.string_of_uint (Pos.to_uint p) = String c t
              /\ value_start c = true.
Proof.
  pose proof (to_uint_head p) as H.
  destruct (Pos.to_uint p); try contradiction; cbn [NilEmpty.string_of_uint];
    eexists; eexists; (split; [reflexivity | reflexivity]).
Qed.

Lemma json_dumps_start (v : json) :
  exists c t, json_dumps v = String c t /\ value_start c = true.
Proof.
  destruct v as [ | [] | [|p|p] | s | l | d ];
    try (eexists; eexists; split; [reflexivity | reflexivity]).
  - exact (string_of_uint_start p).
Qed.

Lemma skip_ws_start (c : ascii) (t : string) :
  value_start c = true -> skip_ws (String c t) = String c t.
Proof.
  intros H. apply value_start_facts in H as (Hws & _).
  cbn [skip_ws]. now rewrite Hws.
Qed.

Lemma skip_ws_dumps (v : json) (rest : string) :
  skip_ws (json_dumps v @@ rest) = json_dumps v @@ rest.
Proof.
  destruct (json_dumps_start v) as (c & t & -> & Hc).
  cbn [String.append]. now apply skip_ws_start.
Qed.

Lemma json_dumps_length (v : json) : (1 <= String.length (json_dumps v))%nat.
Proof.
  destruct (json_dumps_start v) as (c & t & -> & _). cbn. lia.
Qed.

Lemma dict_set_fresh (k : string) (x : json) (acc : dict) :
  existsb (String.eqb k) (map fst acc) = false ->
  dict_set k x acc = acc ++ [(k, x)].
Proof.
  induction acc as [|[k' x'] acc IH]; cbn; [reflexivity|].
  intros H. apply orb_false_iff in H as [Hk Hacc].
  rewrite Hk. now rewrite IH.
Qed.

Lemma json_dumps_obj (d : dict) :
  json_dumps (JObj d) = "{" @@ String.concat ", " (map member_text d) @@ "}".
Proof. reflexivity. Qed.

Lemma json_dumps_arr (l : list json) :
  json_dumps (JArr l) = "[" @@ String.concat ", " (map json_dumps l) @@ "]".
Proof. reflexivity. Qed.

Lemma concat_cons2 (sep a b : string) (l : list string) :
  String.concat sep (a :: b :: l) = a @@ sep @@ String.concat sep (b :: l).
Proof. reflexivity. Qed.

Lemma scan_array_elements (l : list json) :
  Forall scans l ->
  forall x acc fuel rest,
    scans x ->
    (String.length (String.concat ", " (map json_dumps (x :: l))) + 1 <= fuel)%nat ->
    scan_array fuel (String.concat ", " (map json_dumps (x :: l)) @@ "]" @@ rest) acc
    = Some (JArr (List.rev acc ++ x :: l), rest).
Proof.
  induction 1 as [|y l Hy Hl IH]; intros x acc fuel rest Hx Hfuel.
  - cbn [map String.concat] in *.
    destruct fuel as [|fuel]; [lia|]. cbn [scan_array].
    rewrite (Hx fuel ("]" @@ rest)) by (lia || reflexivity).
    cbn. reflexivity.
  - cbn [map] in *. rewrite concat_cons2 in *.
    rewrite !length_append in Hfuel. cbn [String.length] in Hfuel.
    destruct fuel as [|fuel]; [lia|]. cbn [scan_array].
    rewrite !append_assoc.
    rewrite (Hx fuel) by (lia || reflexivity).
    cbn [String.append skip_ws is_ws]. cbn -[skip_ws scan_array String.concat json_dumps].
    assert (Hskip : forall s, skip_ws (String.concat ", " (json_dumps y :: map json_dumps l) @@ s)
                    = String.concat ", " (json_dumps y :: map json_dumps l) @@ s).
    { intros s. destruct l; cbn [map String.concat]; rewrite ?append_assoc;
        apply skip_ws_dumps. }
    match goal with
    | |- context [skip_ws (String " " ?X)] =>
        change (skip_ws (String " " X)) with (skip_ws X)
    end.
    rewrite Hskip. change (String "]" rest) with ("]" @@ rest).
    rewrite (IH y (x :: acc) fuel rest Hy) by lia.
    cbn [List.rev]. now rewrite <- app_assoc.
Qed.

Lemma distinct_keys_middle (l1 : list string) (k : string) (l2 : list string) :
  distinct_keys (l1 ++ k :: l2) = true ->
  existsb (String.eqb k) l1 = false.
Proof.
  induction l1 as [|a l1 IH]; cbn; [reflexivity|].
  intros H. apply andb_true_iff in H as [Ha Hd].
  rewrite (IH Hd), orb_false_r.
  apply negb_true_iff in Ha. rewrite existsb_app in Ha.
  apply orb_false_iff in Ha as [_ Ha]. cbn in Ha.
  apply orb_false_iff in Ha as [Ha _]. now rewrite String.eqb_sym.
Qed.

Lemma skip_ws_member (kv : string * json) (l : list string) (s : string) :
  skip_ws (String.concat ", " (member_text kv :: l) @@ s)
  = String.concat ", " (member_text kv :: l) @@ s.
Proof.
  destruct kv as [k x]. destruct l; reflexivity.
Qed.

Lemma member_text_tail (k : string) (x : json) (s : string) :
  member_text (k, x) @@ s
  = String quote_char (escape k @@ String quote_char (String ":" (String " " (json_dumps x @@ s)))).
Proof.
  unfold member_text, quote. cbn [String.append].
  now rewrite !append_assoc.
Qed.

Lemma scan_object_members (d : dict) :
  Forall (fun kv => scans (snd kv)) d ->
  forall k x acc fuel rest t,
    scans x ->
    distinct_keys (map fst acc ++ k :: map fst d) = true ->
    (String.length (String.concat ", " (map member_text ((k, x) :: d))) + 1 <= fuel)%nat ->
    String quote_char t
    = String.concat ", " (map member_text ((k, x) :: d)) @@ "}" @@ rest ->
    scan_object fuel t acc = Some (JObj (acc ++ (k, x) :: d), rest).
Proof.
  induction 1 as [|[k' x'] d Hx' Hd IH]; intros k x acc fuel rest t Hx Hkeys Hfuel Ht.
  - cbn [map String.concat] in *.
    rewrite member_text_tail in Ht. injection Ht as ->.
    destruct fuel as [|fuel]; [lia|]. cbn [scan_object].
    rewrite scan_string_escape.
    change (skip_ws (String ":" ?X)) with (String ":" X).
    cbn [Ascii.eqb Bool.eqb].
    match goal with
    | |- context [skip_ws (String " " ?X)] =>
        change (skip_ws (String " " X)) with (skip_ws X)
    end.
    rewrite skip_ws_dumps.
    unfold member_text, quote in Hfuel. cbn [String.length String.append] in Hfuel.
    rewrite !length_append in Hfuel. cbn [String.length] in Hfuel.
    rewrite (Hx fuel) by (lia || reflexivity).
    cbn. rewrite dict_set_fresh by (eapply distinct_keys_middle; exact Hkeys).
    reflexivity.
  - cbn [map] in *. rewrite concat_cons2 in *.
    assert (Hu : exists t', String.concat ", " (member_text (k', x') :: map member_text d)
                            @@ "}" @@ rest = String quote_char t').
    { destruct (map member_text d); cbn [String.concat];
        rewrite ?append_assoc, member_text_tail; eexists; reflexivity. }
    destruct Hu as (t' & Hu).
    remember (String.concat ", " (member_text (k', x') :: map member_text d)) as tl eqn:Etl.
    rewrite !append_assoc, member_text_tail in Ht. injection Ht as ->.
    rewrite length_append in Hfuel.
    unfold member_text at 1, quote in Hfuel. cbn [String.length String.append] in Hfuel.
    rewrite !length_append in Hfuel. cbn [String.length] in Hfuel.
    destruct fuel as [|fuel]; [lia|]. cbn [scan_object].
    rewrite scan_string_escape.
    change (skip_ws (String ":" ?X)) with (String ":" X).
    cbn [Ascii.eqb Bool.eqb].
    match goal with
    | |- context [skip_ws (String " " ?X)] =>
        change (skip_ws (String " " X)) with (skip_ws X)
    end.
    rewrite skip_ws_dumps.
    rewrite (Hx fuel) by (lia || reflexivity).
    rewrite dict_set_fresh by (eapply distinct_keys_middle; exact Hkeys).
    cbn [String.append].
    change (skip_ws (String "," ?X)) with (String "," X).
    cbn [Ascii.eqb Bool.eqb].
    match goal with
    | |- context [skip_ws (String " " ?X)] =>
        change (skip_ws (String " " X)) with (skip_ws X)
    end.
    change (String "}" rest) with ("}" @@ rest).
    rewrite Hu. change (skip_ws (String quote_char t')) with (String quote_char t').
    cbn [Ascii.eqb Bool.eqb quote_char].
    rewrite (IH k' x' (acc ++ [(k, x)]) fuel rest t' Hx').
    + now rewrite <- app_assoc.
    + rewrite map_app, <- app_assoc. exact Hkeys.
    + cbn [map]. rewrite <- Etl. cbn [String.length] in Hfuel. lia.
    + cbn [map]. rewrite <- Etl. symmetry. exact Hu.
Qed.

Lemma wf_json_arr (l : list json) :
  wf_json (JArr l) = true -> Forall (fun x => wf_json x = true) l.
Proof.
  cbn [wf_json]. intros H. apply Forall_forall. intros x Hx.
  rewrite forallb_forall in H. now apply H.
Qed.

Lemma wf_json_obj (d : dict) :
  wf_json (JObj d) = true ->
  distinct_keys (map fst d) = true /\ Forall (fun kv => wf_json (snd kv) = true) d.
Proof.
  cbn [wf_json]. intros H. apply andb_true_iff in H as [Hk Hv]. split; [exact Hk|].
  apply Forall_forall. intros [k x] Hx.
  rewrite forallb_forall in Hv. exact (Hv (k, x) Hx).
Qed.

Lemma Forall_modus {A : Type} (P Q : A -> Prop) (l : list A) :
  Forall (fun x => P x -> Q x) l -> Forall P l -> Forall Q l.
Proof.
  induction 1; intros HP; inversion HP; subst; constructor; auto.
Qed.

Lemma scan_value_dumps (v : json) : wf_json v = true -> scans v.
Proof.
  induction v as [ | b | n | s | l IHl | d IHd ] using json_induction;
    intros Hwf fuel rest Hfuel Hrest;
    match type of Hfuel with
    | (String.length (json_dumps ?v) <= _)%nat =>
        pose proof (json_dumps_length v) as Hlen
    end;
    (destruct fuel as [|fuel]; [lia|]).
  - reflexivity.
  - destruct b; reflexivity.
  - destruct (json_dumps_start (JInt n)) as (c & t & E & Hc).
    pose proof (scan_number_dumps n rest Hrest) as Hnum.
    rewrite E in Hnum |- *. cbn [String.append] in Hnum |- *.
    rewrite scan_value_number; [exact Hnum|].
    destruct n as [|p|p]; cbn [json_dumps Z.to_int NilEmpty.string_of_int] in E.
    + injection E as <- _. reflexivity.
    + pose proof (to_uint_head p) as Hh.
      destruct (Pos.to_uint p); try contradiction;
        cbn [NilEmpty.string_of_uint] in E; injection E as <- _; reflexivity.
    + injection E as <- _. reflexivity.
  - cbn [json_dumps quote String.append scan_value Ascii.eqb Bool.eqb quote_char].
    rewrite append_assoc. cbn [String.append]. rewrite scan_string_escape. reflexivity.
  - pose proof (Forall_modus _ _ _ IHl (wf_json_arr l Hwf)) as Hl.
    rewrite json_dumps_arr in *. cbn [String.append String.length] in Hfuel |- *.
    rewrite length_append in Hfuel. cbn [String.length] in Hfuel.
    cbn [scan_value Ascii.eqb Bool.eqb].
    destruct l as [|x l].
    + reflexivity.
    + inversion Hl as [|? ? Hx Hl']; subst.
      rewrite append_assoc.
      pose proof (scan_array_elements l Hl' x [] fuel rest Hx) as Hscan.
      remember (String.concat ", " (map json_dumps (x :: l))) as body eqn:Eb.
      assert (Hb : exists c t, body @@ "]" @@ rest = String c t /\ value_start c = true).
      { subst body. destruct (json_dumps_start x) as (c & t & E & Hc).
        destruct l; cbn [map String.concat]; rewrite ?append_assoc, E;
          eexists; eexists; (split; [reflexivity | exact Hc]). }
      destruct Hb as (c & t & Hb & Hc).
      destruct (value_start_facts c Hc) as (Hws & Hclose & _).
      rewrite Hb in *. cbn [skip_ws]. rewrite Hws, Hclose.
      rewrite Hscan by lia. reflexivity.
  - destruct (wf_json_obj d Hwf) as [Hkeys Hvals].
    pose proof (Forall_modus _ _ _ IHd Hvals) as Hd.
    rewrite json_dumps_obj in *. cbn [String.append String.length] in Hfuel |- *.
    rewrite length_append in Hfuel. cbn [String.length] in Hfuel.
    cbn [scan_value Ascii.eqb Bool.eqb].
    destruct d as [|[k x] d].
    + reflexivity.
    + inversion Hd as [|? ? Hx Hd']; subst. cbn [snd] in Hx.
      rewrite append_assoc.
      pose proof (scan_object_members d Hd' k x [] fuel rest) as Hscan.
      remember (String.concat ", " (map member_text ((k, x) :: d))) as body eqn:Eb.
      assert (Hb : exists t, body @@ "}" @@ rest = String quote_char t).
      { subst body. destruct d; cbn [map String.concat];
          rewrite ?append_assoc, member_text_tail; eexists; reflexivity. }
      destruct Hb as (t & Hb).
      rewrite Hb. change (skip_ws (String quote_char t)) with (String quote_char t).
      cbn [Ascii.eqb Bool.eqb quote_char].
      apply (Hscan t Hx Hkeys); [lia | symmetry; exact Hb].
Qed.


Theorem json_loads_dumps (v : json) :
  wf_json v = true -> json_loads (json_dumps v) = Return v.
Proof.
  intros Hwf. unfold json_loads.
  pose proof (skip_ws_dumps v EmptyString) as Hskip.
  rewrite append_nil_r in Hskip. rewrite Hskip.
  pose proof (scan_value_dumps v Hwf (2 * String.length (json_dumps v) + 2) EmptyString) as H.
  rewrite append_nil_r in H. rewrite H by (lia || reflexivity). reflexivity.
Qed.

Lemma dict_set_keys (k : string) (x : json) (acc : dict) :
  map fst (dict_set k x acc)
  = if existsb (String.eqb k) (map fst acc) then map fst acc else map fst acc ++ [k].
Proof.
  induction acc as [|[k' x'] acc IH]; cbn; [reflexivity|].
  destruct (String.eqb k k') eqn:E; cbn; [reflexivity|].
  rewrite IH. destruct (existsb (String.eqb k) (map fst acc)); reflexivity.
Qed.

Lemma distinct_keys_snoc (ks : list string) (k : string) :
  distinct_keys ks = true ->
  existsb (String.eqb k) ks = false ->
  distinct_keys (ks ++ [k]) = true.
Proof.
  induction ks as [|a ks IH]; cbn; [reflexivity|].
  intros Hd Hk. apply andb_true_iff in Hd as [Ha Hd].
  apply orb_false_iff in Hk as [Hka Hk].
  rewrite (IH Hd Hk), andb_true_r, existsb_app. cbn.
  apply negb_true_iff in Ha. rewrite Ha, String.eqb_sym, Hka. reflexivity.
Qed.

Lemma dict_set_values (k : string) (x : json) (acc : dict) :
  wf_json x = true ->
  forallb (fun '(_, y) => wf_json y) acc = true ->
  forallb (fun '(_, y) => wf_json y) (dict_set k x acc) = true.
Proof.
  intros Hx. induction acc as [|[k' x'] acc IH]; cbn.
  - now rewrite Hx.
  - intros H. apply andb_true_iff in H as [Hx' Hacc].
    destruct (String.eqb k k'); cbn.
    + now rewrite Hx, Hacc.
    + now rewrite Hx', IH.
Qed.

Lemma dict_set_wf (k : string) (x : json) (acc : dict) :
  wf_json x = true -> wf_json (JObj acc) = true ->
  wf_json (JObj (dict_set k x acc)) = true.
Proof.
  cbn [wf_json]. intros Hx H. apply andb_true_iff in H as [Hk Hv].
  rewrite dict_set_values by assumption. rewrite andb_true_r.
  rewrite dict_set_keys.
  destruct (existsb (String.eqb k) (map fst acc)) eqn:E; [exact Hk|].
  now apply distinct_keys_snoc.
Qed.

Lemma forallb_rev_true {A : Type} (f : A -> bool) (l : list A) :
  forallb f l = true -> forallb f (List.rev l) = true.
Proof.
  rewrite !forallb_forall. intros H x Hx. apply H. now apply in_rev.
Qed.

Lemma scan_number_wf (s : string) (v : json) (r : string) :
  scan_number s = Some (v, r) -> wf_json v = true.
Proof.
  unfold scan_number.
  destruct (match s with
            | EmptyString => (false, s)
            | String c r0 => if Ascii.eqb c "-" then (true, r0) else (false, s)
            end) as [neg s1].
  destruct s1 as [|c r0]; [discriminate|].
  destruct (digit_of c); [|discriminate].
  destruct (if Ascii.eqb c "0" then (D0 Nil, r0) else scan_digits (String c r0)) as [d rest].
  destruct (float_follows rest); [discriminate|].
  intros [= <- _]. reflexivity.
Qed.

Ltac scan_cases :=
  repeat match goal with
    | H : None = Some _ |- _ => discriminate H
    | H : Some _ = Some _ |- _ => injection H as <- <-
    | H : option_map _ ?o = Some _ |- _ => destruct o; cbn [option_map] in H
    | H : context [match ?x with _ => _ end] |- _ =>
        match type of H with
        | _ = Some _ => destruct x eqn:?
        end
    | H : context [if ?b then _ else _] |- _ =>
        match type of H with
        | _ = Some _ => destruct b eqn:?
        end
    end.

Lemma scan_wf (fuel : nat) :
  (forall s v r, scan_value fuel s = Some (v, r) -> wf_json v = true)
  /\ (forall s acc v r, scan_array fuel s acc = Some (v, r) ->
                        forallb wf_json acc = true -> wf_json v = true)
  /\ (forall s acc v r, scan_object fuel s acc = Some (v, r) ->
                        wf_json (JObj acc) = true -> wf_json v = true).
Proof.
  induction fuel as [|fuel (IHv & IHa & IHo)].
  - repeat split; intros; discriminate.
  - repeat split.
    + intros s v r H. cbn [scan_value] in H.
      destruct s as [|c t]; [discriminate|].
      destruct (Ascii.eqb c quote_char).
      { scan_cases; reflexivity. }
      destruct (Ascii.eqb c "{").
      { destruct (skip_ws t) as [|c1 r1]; [discriminate|].
        destruct (Ascii.eqb c1 "}"); [injection H as <- _; reflexivity|].
        destruct (Ascii.eqb c1 quote_char); [|discriminate].
        eapply IHo; [exact H | reflexivity]. }
      destruct (Ascii.eqb c "[").
      { destruct (skip_ws t) as [|c1 r1]; [discriminate|].
        destruct (Ascii.eqb c1 "]"); [injection H as <- _; reflexivity|].
        eapply IHa; [exact H | reflexivity]. }
      destruct (Ascii.eqb c "n"); [scan_cases; reflexivity|].
      destruct (Ascii.eqb c "t"); [scan_cases; reflexivity|].
      destruct (Ascii.eqb c "f"); [scan_cases; reflexivity|].
      eapply scan_number_wf; exact H.
    + intros s acc v r H Hacc. cbn [scan_array] in H.
      destruct (scan_value fuel s) as [[x r0]|] eqn:Ex; [|discriminate].
      apply IHv in Ex.
      destruct (skip_ws r0) as [|c r1]; [discriminate|].
      destruct (Ascii.eqb c "]").
      { injection H as <- _. cbn [wf_json List.rev].
        rewrite forallb_app, (forallb_rev_true _ _ Hacc). cbn. now rewrite Ex. }
      destruct (Ascii.eqb c ","); [|discriminate].
      eapply IHa; [exact H|]. cbn. now rewrite Ex, Hacc.
    + intros s acc v r H Hacc. cbn [scan_object] in H.
      destruct (scan_string s) as [[k r0]|]; [|discriminate].
      destruct (skip_ws r0) as [|c r1]; [discriminate|].
      destruct (Ascii.eqb c ":"); [|discriminate].
      destruct (scan_value fuel (skip_ws r1)) as [[x r2]|] eqn:Ex; [|discriminate].
      apply IHv in Ex.
      destruct (skip_ws r2) as [|c2 r3]; [discriminate|].
      destruct (Ascii.eqb c2 "}").
      { injection H as <- _. now apply dict_set_wf. }
      destruct (Ascii.eqb c2 ","); [|discriminate].
      destruct (skip_ws r3) as [|c3 r4]; [discriminate|].
      destruct (Ascii.eqb c3 quote_char); [|discriminate].
      eapply IHo; [exact H|]. now apply dict_set_wf.
Qed.

Theorem json_loads_wf (s : string) (v : json) :
  json_loads s = Return v -> wf_json v = true.
Proof.
  unfold json_loads.
  destruct (scan_value _ _) as [[x r]|] eqn:E; [|discriminate].
  destruct (skip_ws r); [|discriminate].
  intros [= <-]. exact (proj1 (scan_wf _) _ _ _ E).
Qed.

(** *** The fuel of [json_loads] is enough *)

Lemma skip_ws_length (s : string) : String.length (skip_ws s) <= String.length s.
Proof.
  induction s as [|c s IH]; cbn [skip_ws]; [lia|].
  destruct (is_ws c); cbn [String.length]; lia.
Qed.

Lemma skip_ws_cons_length (s : string) (c : ascii) (r : string) :
  skip_ws s = String c r -> String.length r < String.length s.
Proof.
  intros H. pose proof (skip_ws_length s) as Hl. rewrite H in Hl.
  cbn [String.length] in Hl. lia.
Qed.

Lemma scan_string_length (s t r : string) :
  scan_string s = Some (t, r) -> String.length r < String.length s.
Proof.
  remember (String.length s) as n eqn:En. revert s t r En.
  induction n as [n IH] using lt_wf_ind. intros s t r En H.
  destruct s as [|c s]; [discriminate|]. cbn [scan_string] in H.
  cbn [String.length] in En.
  destruct (Ascii.eqb c quote_char).
  { injection H as <- <-. lia. }
  destruct (Ascii.eqb c "\").
  - destruct s as [|e s1]; [discriminate|]. cbn [String.length] in En.
    destruct (Ascii.eqb e "u").
    + destruct s1 as [|h1 [|h2 [|h3 [|h4 s2]]]]; try discriminate.
      cbn [String.length] in En.
      destruct (unescape_u h1 h2 h3 h4); [|discriminate].
      destruct (scan_string s2) as [[t' r']|] eqn:E; [|discriminate].
      injection H as <- <-.
      pose proof (IH (String.length s2) ltac:(lia) s2 t' r' eq_refl E). lia.
    + destruct (unescape_simple e); [|discriminate].
      destruct (scan_string s1) as [[t' r']|] eqn:E; [|discriminate].
      injection H as <- <-.
      pose proof (IH (String.length s1) ltac:(lia) s1 t' r' eq_refl E). lia.
  - destruct (N_of_ascii c <? 32)%N; [discriminate|].
    destruct (scan_string s) as [[t' r']|] eqn:E; [|discriminate].
    injection H as <- <-.
    pose proof (IH (String.length s) ltac:(lia) s t' r' eq_refl E). lia.
Qed.

Lemma scan_digits_length (s : string) :
  String.length (snd (scan_digits s)) <= String.length s.
Proof.
  induction s as [|c s IH]; cbn [scan_digits]; [cbn; lia|].
  destruct (digit_of c); [|cbn; lia].
  destruct (scan_digits s) as [d r]. cbn [snd String.length] in *. lia.
Qed.

Lemma scan_number_length (s : string) (v : json) (r : string) :
  scan_number s = Some (v, r) -> String.length r < String.length s.
Proof.
  unfold scan_number.
  destruct s as [|c s]; [discriminate|].
  destruct (Ascii.eqb c "-").
  - destruct s as [|c1 s1]; [discriminate|].
    destruct (digit_of c1) eqn:Ed; [|discriminate].
    destruct (Ascii.eqb c1 "0").
    + destruct (float_follows s1); [discriminate|]. intros [= _ <-]. cbn. lia.
    + pose proof (scan_digits_length (String c1 s1)) as Hl.
      destruct (scan_digits (String c1 s1)) as [d rest].
      destruct (float_follows rest); [discriminate|]. intros [= _ <-].
      cbn [snd String.length] in *.
      cbn [scan_digits] in *. lia.
  - destruct (digit_of c) eqn:Ed; [|discriminate].
    destruct (Ascii.eqb c "0").
    + destruct (float_follows s); [discriminate|]. intros [= _ <-]. cbn. lia.
    + pose proof (scan_digits_length s) as Hl.
      cbn [scan_digits]. rewrite Ed.
      destruct (scan_digits s) as [d rest].
      destruct (float_follows rest); [discriminate|]. intros [= _ <-].
      cbn [snd String.length] in *. lia.
Qed.

Lemma strip_prefix_length (p s r : string) :
  strip_prefix p s = Some r -> String.length r + String.length p = String.length s.
Proof.
  revert s. induction p as [|a p IH]; intros [|b s]; cbn; try discriminate.
  - now intros [= <-].
  - now intros [= <-].
  - destruct (Ascii.eqb a b); [|discriminate]. intros H. apply IH in H. lia.
Qed.

(** Every scanner that returns has read at least one character. *)
Lemma scan_consumes (fuel : nat) :
  (forall s v r, scan_value fuel s = Some (v, r) ->
                 String.length r < String.length s)
  /\ (forall s acc v r, scan_array fuel s acc = Some (v, r) ->
                        String.length r < String.length s)
  /\ (forall s acc v r, scan_object fuel s acc = Some (v, r) ->
                        String.length r < String.length s).
Proof.
  induction fuel as [|fuel (IHv & IHa & IHo)].
  - repeat split; intros; discriminate.
  - repeat split.
    + intros s v r H. cbn [scan_value] in H.
      destruct s as [|c t]; [discriminate|]. cbn [String.length].
      destruct (Ascii.eqb c quote_char).
      { destruct (scan_string t) as [[x rest]|] eqn:E; [|discriminate].
        injection H as _ <-. apply scan_string_length in E. lia. }
      destruct (Ascii.eqb c "{").
      { destruct (skip_ws t) as [|c1 r1] eqn:Ew; [discriminate|].
        apply skip_ws_cons_length in Ew.
        destruct (Ascii.eqb c1 "}"); [injection H as _ <-; lia|].
        destruct (Ascii.eqb c1 quote_char); [|discriminate].
        apply IHo in H. lia. }
      destruct (Ascii.eqb c "[").
      { destruct (skip_ws t) as [|c1 r1] eqn:Ew; [discriminate|].
        pose proof (skip_ws_length t) as Hl. rewrite Ew in Hl.
        apply skip_ws_cons_length in Ew.
        destruct (Ascii.eqb c1 "]"); [injection H as _ <-; lia|].
        apply IHa in H. lia. }
      assert (Hlit : forall p x, option_map (fun rest => (x, rest))
                                   (strip_prefix (String c p) (String c t)) = Some (v, r) ->
                                 String.length r < S (String.length t)).
      { intros p x Hp.
        destruct (strip_prefix (String c p) (String c t)) eqn:E; [|discriminate].
        injection Hp as _ <-. apply strip_prefix_length in E.
        cbn [String.length] in E. lia. }
      destruct (Ascii.eqb c "n") eqn:En.
      { apply Ascii.eqb_eq in En. subst c. exact (Hlit _ _ H). }
      destruct (Ascii.eqb c "t") eqn:Et.
      { apply Ascii.eqb_eq in Et. subst c. exact (Hlit _ _ H). }
      destruct (Ascii.eqb c "f") eqn:Ef.
      { apply Ascii.eqb_eq in Ef. subst c. exact (Hlit _ _ H). }
      apply scan_number_length in H. exact H.
    + intros s acc v r H. cbn [scan_array] in H.
      destruct (scan_value fuel s) as [[x r0]|] eqn:Ex; [|discriminate].
      apply IHv in Ex.
      destruct (skip_ws r0) as [|c r1] eqn:Ew; [discriminate|].
      apply skip_ws_cons_length in Ew.
      destruct (Ascii.eqb c "]"); [injection H as _ <-; lia|].
      destruct (Ascii.eqb c ","); [|discriminate].
      apply IHa in H. pose proof (skip_ws_length r1). lia.
    + intros s acc v r H. cbn [scan_object] in H.
      destruct (scan_string s) as [[k r0]|] eqn:Ek; [|discriminate].
      apply scan_string_length in Ek.
      destruct (skip_ws r0) as [|c r1] eqn:Ew; [discriminate|].
      apply skip_ws_cons_length in Ew.
      destruct (Ascii.eqb c ":"); [|discriminate].
      destruct (scan_value fuel (skip_ws r1)) as [[x r2]|] eqn:Ex; [|discriminate].
      apply IHv in Ex. pose proof (skip_ws_length r1).
      destruct (skip_ws r2) as [|c2 r3] eqn:Ew2; [discriminate|].
      apply skip_ws_cons_length in Ew2.
      destruct (Ascii.eqb c2 "}"); [injection H as _ <-; lia|].
      destruct (Ascii.eqb c2 ","); [|discriminate].
      destruct (skip_ws r3) as [|c3 r4] eqn:Ew3; [discriminate|].
      apply skip_ws_cons_length in Ew3.
      destruct (Ascii.eqb c3 quote_char); [|discriminate].
      apply IHo in H. lia.
Qed.

(** Above twice the length of the text, more fuel changes nothing. *)
Lemma scan_fuel_stable (fuel : nat) :
  (forall s, 2 * String.length s + 1 <= fuel ->
             scan_value (S fuel) s = scan_value fuel s)
  /\ (forall s acc, 2 * String.length s + 2 <= fuel ->
                    scan_array (S fuel) s acc = scan_array fuel s acc)
  /\ (forall s acc, 2 * String.length s + 2 <= fuel ->
                    scan_object (S fuel) s acc = scan_object fuel s acc).
Proof.
  induction fuel as [|fuel (IHv & IHa & IHo)].
  - repeat split; intros; lia.
  - repeat split.
    + intros s Hf.
      cbn [scan_value].
      destruct s as [|c t]; [reflexivity|]. cbn [String.length] in Hf.
      destruct (Ascii.eqb c quote_char); [reflexivity|].
      destruct (Ascii.eqb c "{").
      { destruct (skip_ws t) as [|c1 r1] eqn:Ew; [reflexivity|].
        apply skip_ws_cons_length in Ew.
        destruct (Ascii.eqb c1 "}"); [reflexivity|].
        destruct (Ascii.eqb c1 quote_char); [|reflexivity].
        apply IHo. lia. }
      destruct (Ascii.eqb c "[").
      { destruct (skip_ws t) as [|c1 r1] eqn:Ew; [reflexivity|].
        pose proof (skip_ws_length t) as Hl. rewrite Ew in Hl.
        cbn [String.length] in Hl.
        destruct (Ascii.eqb c1 "]"); [reflexivity|].
        apply IHa. cbn [String.length]. lia. }
      reflexivity.
    + intros s acc Hf.
      change (scan_array (S (S fuel)) s acc) with
        (match scan_value (S fuel) s with
         | None => None
         | Some (v, r) =>
             match skip_ws r with
             | String c r1 =>
                 if Ascii.eqb c "]" then Some (JArr (List.rev (v :: acc)), r1)
                 else if Ascii.eqb c "," then scan_array (S fuel) (skip_ws r1) (v :: acc)
                 else None
             | EmptyString => None
             end
         end).
      cbn [scan_array]. rewrite IHv by lia.
      destruct (scan_value fuel s) as [[v r]|] eqn:Ev; [|reflexivity].
      apply (proj1 (scan_consumes fuel)) in Ev.
      destruct (skip_ws r) as [|c r1] eqn:Ew; [reflexivity|].
      apply skip_ws_cons_length in Ew.
      destruct (Ascii.eqb c "]"); [reflexivity|].
      destruct (Ascii.eqb c ","); [|reflexivity].
      apply IHa. pose proof (skip_ws_length r1). lia.
    + intros s acc Hf.
      change (scan_object (S (S fuel)) s acc) with
        (match scan_string s with
         | None => None
         | Some (k, r) =>
             match skip_ws r with
             | String c r1 =>
                 if Ascii.eqb c ":" then
                   match scan_value (S fuel) (skip_ws r1) with
                   | None => None
                   | Some (v, r2) =>
                       match skip_ws r2 with
                       | String c2 r3 =>
                           if Ascii.eqb c2 "}" then Some (JObj (dict_set k v acc), r3)
                           else if Ascii.eqb c2 "," then
                             match skip_ws r3 with
                             | String c3 r4 =>
                                 if Ascii.eqb c3 quote_char
                                 then scan_object (S fuel) r4 (dict_set k v acc)
                                 else None
                             | EmptyString => None
                             end
                           else None
                       | EmptyString => None
                       end
                   end
                 else None
             | EmptyString => None
             end
         end).
      cbn [scan_object].
      destruct (scan_string s) as [[k r]|] eqn:Ek; [|reflexivity].
      apply scan_string_length in Ek.
      destruct (skip_ws r) as [|c r1] eqn:Ew; [reflexivity|].
      apply skip_ws_cons_length in Ew.
      destruct (Ascii.eqb c ":"); [|reflexivity].
      pose proof (skip_ws_length r1) as Hl1.
      rewrite IHv by lia.
      destruct (scan_value fuel (skip_ws r1)) as [[v r2]|] eqn:Ev; [|reflexivity].
      apply (proj1 (scan_consumes fuel)) in Ev.
      destruct (skip_ws r2) as [|c2 r3] eqn:Ew2; [reflexivity|].
      apply skip_ws_cons_length in Ew2.
      destruct (Ascii.eqb c2 "}"); [reflexivity|].
      destruct (Ascii.eqb c2 ","); [|reflexivity].
      destruct (skip_ws r3) as [|c3 r4] eqn:Ew3; [reflexivity|].
      apply skip_ws_cons_length in Ew3.
      destruct (Ascii.eqb c3 quote_char); [|reflexivity].
      apply IHo. lia.
Qed.

(** [json_loads] decides with the fuel it takes: no larger amount of fuel
    gives the scanner another answer. *)
Theorem json_loads_fuel (s : string) (more : nat) :
  scan_value (more + (2 * String.length s + 2)) (skip_ws s)
  = scan_value (2 * String.length s + 2) (skip_ws s).
Proof.
  induction more as [|more IH]; [reflexivity|].
  cbn [Nat.add]. rewrite <- IH.
  apply (proj1 (scan_fuel_stable _)).
  pose proof (skip_ws_length s). lia.
Qed.

(** *** The connector state *)

Lemma json_dumps_nonempty (v : json) : String.eqb (json_dumps v) EmptyString = false.
Proof.
  destruct (json_dumps_start v) as (c & t & -> & _). reflexivity.
Qed.

Lemma get_state_set_state (s : json) (h : helper) :
  wf_json s = true ->
  get_state (set_state s h) = if nonempty_dict s then Some s else None.
Proof.
  intros Hwf. unfold get_state, set_state. cbn [connector_state].
  rewrite json_dumps_nonempty, (json_loads_dumps s Hwf). cbn [negb].
  destruct s as [ | | | | | [|m d]]; reflexivity.
Qed.






(** *** [check_max_tlp] *)

(** C9. [check_max_tlp] is the containment order of the four levels. *)
Theorem check_max_tlp_order :
  check_max_tlp "TLP:GREEN" "TLP:AMBER" = Return true
  /\ check_max_tlp "TLP:RED" "TLP:GREEN" = Return false
  /\ forall tlp max_tlp : tlp_level,
       check_max_tlp (tlp_name tlp) (tlp_name max_tlp)
       = Return (Nat.leb (tlp_rank tlp) (tlp_rank max_tlp)).
Proof.
  repeat split. intros [] []; reflexivity.
Qed.

(** *** The heartbeat *)

(** Whatever the control plane answers, what [ping] stores with [set_state]
    is the JSON text of a string, or of [None], and [get_state] reads no
    state from it. *)
Lemma get_state_after_overwrite (cs : option string) (h : helper) :
  get_state (set_state (py_of_option_str cs) h) = None.
Proof.
  rewrite get_state_set_state; destruct cs; reflexivity.
Qed.

(** C4, at a remote state that differs from an absent local one: the turn of
    the loop overwrites the local state, and [get_state] then returns [None],
    not the remote state. *)
Theorem ping_overwrite_unreadable (in_error : bool) :
  let remote := json_dumps (cursor_state "5-0") in
  let w := mk_world (mk_helper None JNull JNull) [] in
  let w' := fst (ping_iteration (fun _ _ => Return (Some remote)) in_error w) in
  get_state (w_helper w) = None
  /\ remote_state_of (Some remote) = Return (cursor_state "5-0")
  /\ connector_state (w_helper w') = Some (json_dumps (JStr remote))
  /\ get_state (w_helper w') = None.
Proof.
  destruct in_error; vm_compute; repeat split.
Qed.

(** *** Programs only add to the trace *)

Lemma extends_ret {A : Type} (a : A) : extends (ret a).
Proof. intros w. exists []. cbn. now rewrite List.app_nil_r. Qed.

Lemma extends_lift {A : Type} (r : result A) : extends (lift r).
Proof. intros w. exists []. cbn. now rewrite List.app_nil_r. Qed.

Lemma extends_emit (a : action) : extends (emit a).
Proof. intros w. now exists [a]. Qed.

Lemma extends_call {A : Type} (o : list action -> result A) (a : action) :
  extends (call o a).
Proof. intros w. now exists [a]. Qed.

Lemma extends_read_helper : extends read_helper.
Proof. intros w. exists []. cbn. now rewrite List.app_nil_r. Qed.

Lemma extends_update_helper (f : helper -> helper) : extends (update_helper f).
Proof. intros w. exists []. cbn. now rewrite List.app_nil_r. Qed.

Lemma extends_pbind {A B : Type} (m : prog A) (k : A -> prog B) :
  extends m -> (forall a, extends (k a)) -> extends (pbind m k).
Proof.
  intros Hm Hk w. unfold pbind. destruct (Hm w) as (t & Ht).
  destruct (m w) as [w1 [a|e]]; cbn [fst] in *.
  - destruct (Hk a w1) as (t' & Ht'). exists (t ++ t').
    now rewrite Ht', Ht, app_assoc.
  - now exists t.
Qed.

Lemma extends_try_except {A : Type} (body : prog A) (catches : exn -> bool)
  (handler : exn -> prog A) :
  extends body -> (forall e, extends (handler e)) ->
  extends (try_except body catches handler).
Proof.
  intros Hb Hh w. unfold try_except. destruct (Hb w) as (t & Ht).
  destruct (body w) as [w1 [a|e]]; cbn [fst] in *.
  - now exists t.
  - destruct (catches e); cbn [fst].
    + destruct (Hh e w1) as (t' & Ht'). exists (t ++ t').
      now rewrite Ht', Ht, app_assoc.
    + now exists t.
Qed.

Lemma extends_thread_start (target : prog unit) :
  extends target -> extends (thread_start target).
Proof. intros H w. exact (H w). Qed.

Lemma extends_if {A : Type} (b : bool) (p q : prog A) :
  extends p -> extends q -> extends (if b then p else q).
Proof. now destruct b. Qed.

Lemma extends_api_call api (a : action) : extends (api_call api a).
Proof. apply extends_call. Qed.

Create HintDb extends.

#[local] Hint Resolve extends_ret extends_lift extends_emit extends_call
  extends_read_helper extends_update_helper extends_thread_start
  extends_api_call : extends.

Ltac extends_tac :=
  repeat first
    [ apply extends_pbind; [|intros ?]
    | apply extends_try_except; [|intros ?]
    | apply extends_if
    | solve [auto with extends] ].

Lemma extends_data_handler api callback (json_data : json) :
  extends (_data_handler api callback json_data).
Proof. unfold _data_handler. extends_tac. Qed.

Lemma extends_wait_thread api (alive time_wait : nat) :
  extends (wait_thread api alive time_wait).
Proof.
  revert time_wait. induction alive as [|n IH]; intros time_wait; cbn [wait_thread].
  - auto with extends.
  - apply extends_pbind; [auto with extends|]. intros h.
    apply extends_if; [|apply IH].
    apply extends_pbind; [auto with extends|]. intros _. apply IH.
Qed.

(** *** The queue consumer *)

(** C6, as amended. A body that fails to decode makes [_process_message]
    raise the decoding error at once, before anything is sent: the message is
    not acknowledged. A body that decodes is acknowledged first, before the
    worker is started. *)
Theorem decode_then_acknowledge api callback (alive : nat) (delivery_tag : Z)
  (body : string) (w : world) :
  (forall e, json_loads body = Raise e ->
             _process_message api callback alive delivery_tag body w = (w, Raise e))
  /\ (forall json_data, json_loads body = Return json_data ->
        exists later,
          w_trace (fst (_process_message api callback alive delivery_tag body w))
          = w_trace w ++ BasicAck delivery_tag :: later).
Proof.
  split.
  - intros e He. unfold _process_message, pbind, lift. now rewrite He.
  - intros json_data Hd. unfold _process_message.
    unfold pbind at 1. unfold lift. rewrite Hd.
    unfold pbind at 1. unfold api_call at 1, call at 1.
    destruct (api (w_trace w) (BasicAck delivery_tag)) as [[]|e].
    + match goal with
      | |- context [pbind ?m ?k ?w0] =>
          assert (Hext : extends (pbind m k))
      end.
      { extends_tac; try apply extends_data_handler; try apply extends_wait_thread. }
      match goal with
      | |- context [pbind ?m ?k ?w0] => destruct (Hext w0) as (t & Ht)
      end.
      exists t. rewrite Ht. cbn [w_trace]. now rewrite <- app_assoc.
    + exists []. reflexivity.
Qed.

Lemma decode_then_acknowledge_witness :
  let w := mk_world (mk_helper None JNull JNull) [] in
  _process_message (fun _ _ => Return tt) (fun _ _ => Return JNull) 0 7 "{bad" w
  = (w, Raise json_decode_error).
Proof.
  intros w.
  apply (proj1 (decode_then_acknowledge (fun _ _ => Return tt) (fun _ _ => Return JNull)
                  0 7%Z "{bad" w)).
  reflexivity.
Defined.

(** C6 as it is written fails: when the decoding error is raised, no
    acknowledgement has been sent. *)
Lemma decode_failure_not_acknowledged :
  let w := mk_world (mk_helper None JNull JNull) [] in
  let out := _process_message (fun _ _ => Return tt) (fun _ _ => Return JNull)
               0 7 "{bad" w in
  snd out = Raise json_decode_error
  /\ ~ In (BasicAck 7) (w_trace (fst out)).
Proof.
  vm_compute. split; [reflexivity | intros []].
Qed.

(** C7, as amended. When the user callback raises an instance of
    [Exception], the worker calls [to_processed(work_id, str(e), True)] and
    returns normally, whether that report returns or raises; when the report
    raises, the failure is logged and nothing more happens. *)
Theorem callback_failure_reported api callback
  (json_data internal wid aid event : json) (e : exn) (w : world) :
  getitem json_data "internal" = Return internal ->
  getitem internal "work_id" = Return wid ->
  getitem internal "applicant_id" = Return aid ->
  getitem json_data "event" = Return event ->
  (is_None aid = true \/ forall tr, api tr (SetApplicantIdHeader aid) = Return tt) ->
  (forall tr, api tr (ToReceived wid "Connector ready to process the operation")
              = Return tt) ->
  (forall tr, callback tr event = Raise e) ->
  is_Exception e = true ->
  let out := _data_handler api callback json_data w in
  let report := ToProcessed wid (JStr (exn_msg e)) true in
  let before :=
    w_trace w
    ++ (if is_None aid then [] else [SetApplicantIdHeader aid])
    ++ [ToReceived wid "Connector ready to process the operation";
        Callback event;
        LogException "Error in message processing, reporting error to API"] in
  snd out = Return tt
  /\ w_trace (fst out)
     = before ++ report ::
         match api before report with
         | Return _ => []
         | Raise _ => [LogError "Failing reporting the processing"]
         end.
Proof.
  intros Hint Hwid Haid Hev Hhdr Hrecv Hcb Hexc out report before.
  subst out report before.
  unfold _data_handler, pbind, lift, try_except, api_call, call,
    update_helper, emit, ret.
  rewrite Hint, Hwid, Haid. cbn [w_helper w_trace fst snd].
  destruct (is_None aid) eqn:En; cbn [negb w_helper w_trace fst snd].
  - rewrite Hrecv, Hev, Hcb, Hexc. cbn [w_helper w_trace fst snd List.app].
    rewrite <- !app_assoc. cbn [List.app].
    destruct (api _ _) as [[]|e2]; cbn [fst snd w_trace];
      (split; [reflexivity|]); rewrite <- ?app_assoc; reflexivity.
  - destruct Hhdr as [Hn | Hhdr]; [congruence|].
    rewrite Hhdr. cbn [w_helper w_trace fst snd].
    rewrite Hrecv, Hev, Hcb, Hexc. cbn [w_helper w_trace fst snd List.app].
    rewrite <- !app_assoc. cbn [List.app].
    destruct (api _ _) as [[]|e2]; cbn [fst snd w_trace];
      (split; [reflexivity|]); rewrite <- ?app_assoc; reflexivity.
Qed.

Lemma callback_failure_reported_witness :
  let api := fun (_ : list action) (a : action) =>
               match a with
               | ToProcessed _ _ true => Raise (mk_exn ValueError "unreachable")
               | _ => Return tt
               end in
  let callback := fun (_ : list action) (_ : json) =>
                    Raise (mk_exn ValueError "boom") in
  let json_data :=
    JObj [("internal", JObj [("work_id", JStr "work--1"); ("applicant_id", JNull)]);
          ("event", JObj [("entity_id", JStr "report--R")])] in
  let out := _data_handler api callback json_data
               (mk_world (mk_helper None JNull JNull) []) in
  snd out = Return tt
  /\ w_trace (fst out)
     = [ToReceived (JStr "work--1") "Connector ready to process the operation";
        Callback (JObj [("entity_id", JStr "report--R")]);
        LogException "Error in message processing, reporting error to API";
        ToProcessed (JStr "work--1") (JStr "boom") true;
        LogError "Failing reporting the processing"].
Proof.
  intros api callback json_data.
  apply (callback_failure_reported api callback json_data
           (JObj [("work_id", JStr "work--1"); ("applicant_id", JNull)])
           (JStr "work--1") JNull (JObj [("entity_id", JStr "report--R")])
           (mk_exn ValueError "boom") (mk_world (mk_helper None JNull JNull) []));
    try reflexivity.
  left. reflexivity.
Defined.

(** C7 as it is written fails: an exception that is not an instance of
    [Exception] is not caught by [except Exception]. Nothing is reported to
    the control plane, and the exception ends the worker thread. *)
Lemma system_exit_not_reported :
  let api := fun (_ : list action) (_ : action) => Return tt in
  let callback := fun (_ : list action) (_ : json) => Raise (mk_exn SystemExit "0") in
  let json_data :=
    JObj [("internal", JObj [("work_id", JStr "work--1"); ("applicant_id", JNull)]);
          ("event", JNull)] in
  _data_handler api callback json_data (mk_world (mk_helper None JNull JNull) [])
  = (mk_world (mk_helper None (JStr "work--1") JNull)
       [ToReceived (JStr "work--1") "Connector ready to process the operation";
        Callback JNull],
     Raise (mk_exn SystemExit "0")).
Proof. reflexivity. Qed.

(** *** The stream consumer *)

Lemma pbind_ext {A B : Type} (m : prog A) (k1 k2 : A -> prog B) (w : world) :
  (forall a w', k1 a w' = k2 a w') -> pbind m k1 w = pbind m k2 w.
Proof.
  intros H. unfold pbind. destruct (m w) as [w' [a|e]]; [apply H | reflexivity].
Qed.

(** A heartbeat or a connected message leaves the run as it is without it. *)
Lemma iter_messages_keepalive callback (exit : bool) (before after : list sse_event)
  (msg : sse_event) (w : world) :
  is_keepalive msg = true ->
  iter_messages callback exit (before ++ msg :: after) w
  = iter_messages callback exit (before ++ after) w.
Proof.
  intros Hk. revert w.
  induction before as [|m before IH]; intros w; cbn [List.app iter_messages].
  - unfold is_keepalive in Hk. rewrite Hk.
    destruct exit; [destruct after; reflexivity | reflexivity].
  - destruct exit; [reflexivity|].
    destruct (_ || _); [apply IH|].
    destruct (String.eqb _ _).
    + apply pbind_ext. intros _ w'. apply IH.
    + apply pbind_ext. intros _ w1. apply pbind_ext. intros _ w2. apply IH.
Qed.

(** With a stored state, [checkpoint] replaces the cursor in it. *)
Lemma checkpoint_stored (id : string) (d : dict) (w : world) :
  get_state (w_helper w) = Some (JObj d) ->
  checkpoint id w
  = (mk_world (set_state (JObj (dict_set "connectorLastEventId" (JStr id) d)) (w_helper w))
       (w_trace w), Return tt).
Proof.
  intros H. unfold checkpoint, pbind, read_helper. now rewrite H.
Qed.

(** C5. From the state whose cursor is ["-"], the three events make two
    calls of the callback, one for each data event and none for the sync
    event, and leave the cursor at ["11-0"]; and in every run a heartbeat or
    connected event put anywhere among the events changes nothing: the same
    calls, the same state, the same outcome. *)
Theorem stream_example callback (start_timestamp : option string)
  (data1 data2 : string) (h : helper) :
  (forall tr msg, callback tr msg = Return tt) ->
  get_state h = Some (cursor_state "-") ->
  let first := mk_event (Some "10-0") "data" data1 in
  let sync := mk_event (Some "10-0") "sync" EmptyString in
  let second := mk_event (Some "11-0") "data" data2 in
  let out := ListenStream_run callback false start_timestamp [first; sync; second]
               (mk_world h []) in
  snd out = Return tt
  /\ stream_calls (w_trace (fst out)) = [first; second]
  /\ get_state (w_helper (fst out)) = Some (cursor_state "11-0")
  /\ forall exit before after msg w,
       is_keepalive msg = true ->
       ListenStream_run callback exit start_timestamp (before ++ msg :: after) w
       = ListenStream_run callback exit start_timestamp (before ++ after) w.
Proof.
  intros Hcb Hst first sync second out.
  assert (Hrun : out = (mk_world (set_state (cursor_state "11-0") h)
                          [StreamCallback first; StreamCallback second], Return tt)).
  { subst out first sync second. unfold ListenStream_run, init_state.
    unfold pbind at 1. unfold pbind at 1. unfold read_helper at 1.
    cbn [w_helper]. rewrite Hst. unfold ret at 1.
    cbn [iter_messages msg_event String.eqb Ascii.eqb Bool.eqb orb].
    unfold pbind at 1. unfold call at 1. rewrite Hcb. cbn [w_helper w_trace List.app].
    unfold pbind at 1. unfold checkpoint_if_id at 1. cbn [msg_id].
    rewrite checkpoint_stored with (d := [("connectorLastEventId", JStr "-")])
      by exact Hst.
    cbn [w_helper w_trace dict_set String.eqb Ascii.eqb Bool.eqb].
    unfold pbind at 1. unfold checkpoint_if_id at 1. cbn [msg_id].
    rewrite checkpoint_stored with (d := [("connectorLastEventId", JStr "10-0")])
      by (cbn [w_helper]; now rewrite get_state_set_state).
    cbn [w_helper w_trace dict_set String.eqb Ascii.eqb Bool.eqb].
    unfold pbind at 1. unfold call at 1. rewrite Hcb. cbn [w_helper w_trace List.app].
    unfold pbind at 1. unfold checkpoint_if_id at 1. cbn [msg_id].
    rewrite checkpoint_stored with (d := [("connectorLastEventId", JStr "10-0")])
      by (cbn [w_helper]; now rewrite get_state_set_state).
    cbn [w_helper w_trace dict_set String.eqb Ascii.eqb Bool.eqb].
    reflexivity. }
  rewrite Hrun. cbn [fst snd w_helper w_trace].
  split; [reflexivity|]. split; [reflexivity|].
  split; [now rewrite get_state_set_state|].
  intros exit before after msg w Hk. unfold ListenStream_run.
  apply pbind_ext. intros _ w'. now apply iter_messages_keepalive.
Qed.

Lemma stream_example_witness :
  let first := mk_event (Some "10-0") "data" "created" in
  let second := mk_event (Some "11-0") "data" "updated" in
  let out := ListenStream_run (fun _ _ => Return tt) false None
               [first; mk_event (Some "10-0") "sync" EmptyString; second]
               (mk_world (mk_helper (Some (json_dumps (cursor_state "-"))) JNull JNull) []) in
  stream_calls (w_trace (fst out)) = [first; second]
  /\ get_state (w_helper (fst out)) = Some (cursor_state "11-0").
Proof.
  intros first second out.
  destruct (stream_example (fun _ _ => Return tt) None "created" "updated"
              (mk_helper (Some (json_dumps (cursor_state "-"))) JNull JNull))
    as (_ & Hcalls & Hstate & _); [reflexivity | reflexivity |].
  split; [exact Hcalls | exact Hstate].
Defined.

(** The same run from no stored state and no start timestamp: the first
    statements of [run] store the cursor ["-"] themselves. *)
Lemma stream_example_fresh :
  let first := mk_event (Some "10-0") "data" "created" in
  let second := mk_event (Some "11-0") "data" "updated" in
  let out := ListenStream_run (fun _ _ => Return tt) false None
               [first; mk_event (Some "10-0") "sync" EmptyString; second]
               (mk_world (mk_helper None JNull JNull) []) in
  stream_calls (w_trace (fst out)) = [first; second]
  /\ get_state (w_helper (fst out)) = Some (cursor_state "11-0").
Proof. vm_compute. split; reflexivity. Qed.

(** *** The splitter on the examples *)

(** C2, on the bundle of the example: the closure of the report reaches
    relationship X, and [stix2_get_relationship_objects] raises
    [KeyError('created_by')]; no sub-bundle is returned. *)
Theorem split_report_example_raises (uuid4 : nat -> string) :
  split_stix2_bundle uuid4 (bundle_text report_example)
  = Raise (key_error "created_by").
Proof. vm_compute. reflexivity. Qed.

(** C3, on a report whose [object_refs] names an object that is not in the
    bundle: [stix2_get_report_objects] subscripts the index without a test
    and the call raises [KeyError]. *)
Theorem split_dangling_report_raises (uuid4 : nat -> string) :
  split_stix2_bundle uuid4 (bundle_text dangling_report)
  = Raise (key_error "indicator--missing").
Proof. vm_compute. reflexivity. Qed.

(** C8, on a relationship that no report refers to: the second loop reaches
    it, [stix2_get_relationship_objects] raises [KeyError('created_by')] and
    no sequence of sub-bundles is returned. *)
Theorem split_loose_relationship_raises (uuid4 : nat -> string) :
  split_stix2_bundle uuid4 (bundle_text loose_relationship)
  = Raise (key_error "created_by").
Proof. vm_compute. reflexivity. Qed.

(** C1 as it is written fails: the identity that created two objects is
    emitted with each of them. *)
Lemma shared_creator_emitted_twice :
  exists first second,
    split_stix2_bundle (fun _ => "0") (bundle_text shared_creator)
    = Return [first; second]
    /\ py_in (JStr "identity--I") (bundle_ids first) = true
    /\ py_in (JStr "identity--I") (bundle_ids second) = true
    /\ ~ emitted_once [first; second].
Proof.
  eexists. eexists. split; [vm_compute; reflexivity|].
  split; [vm_compute; reflexivity|].
  split; [vm_compute; reflexivity|].
  intros H.
  specialize (H 0%nat 1%nat _ _ (JStr "identity--I") ltac:(discriminate) eq_refl eq_refl).
  vm_compute in H. specialize (H eq_refl). discriminate H.
Qed.

(** *** Inversion of the error monad *)

Lemma bind_Return {A B : Type} (m : result A) (k : A -> result B) (b : B) :
  bind m k = Return b -> exists a, m = Return a /\ k a = Return b.
Proof.
  destruct m as [a|e]; cbn; [|discriminate]. intros H. now exists a.
Qed.

Tactic Notation "inv_bind" hyp(H) "as" ident(a) ident(Ha) :=
  apply bind_Return in H; destruct H as (a & Ha & H).

(** An invariant of a loop that returns. *)
Lemma foldM_invariant {A S : Type} (f : S -> A -> result S) (I : S -> Prop)
  (l : list A) :
  (forall s x s', In x l -> I s -> f s x = Return s' -> I s') ->
  forall s s', I s -> foldM f l s = Return s' -> I s'.
Proof.
  induction l as [|x l IH]; intros Hstep s s' Hs H; cbn in H.
  - now injection H as <-.
  - inv_bind H as s1 E.
    apply (IH (fun s0 y s2 Hy => Hstep s0 y s2 (or_intror Hy)) s1 s').
    + exact (Hstep s x s1 (or_introl eq_refl) Hs E).
    + exact H.
Qed.

(** *** The index *)

Section Index.

Variable P : json -> Prop.

Lemma pydict_find_value (k : json) (ci : pydict) (v : json) :
  index_values P ci -> pydict_find k ci = Some v -> P v.
Proof.
  induction ci as [|[k' v'] ci IH]; cbn; [discriminate|].
  intros Hci. destruct (py_eq k k').
  - intros [= <-]. apply (Hci k'). now left.
  - apply IH. intros k0 v0 H0. apply (Hci k0). now right.
Qed.

Lemma pydict_getitem_value (k : json) (ci : pydict) (v : json) :
  index_values P ci -> pydict_getitem k ci = Return v -> P v.
Proof.
  unfold pydict_getitem. intros Hci.
  destruct (hashable k); [|discriminate].
  destruct (pydict_find k ci) eqn:E; [|discriminate].
  intros [= <-]. exact (pydict_find_value k ci j Hci E).
Qed.

Lemma pydict_update_values (k v : json) (ci : pydict) :
  P v -> index_values P ci -> index_values P (pydict_update k v ci).
Proof.
  intros Hv. induction ci as [|[k' v'] ci IH]; cbn; intros Hci k0 v0.
  - intros [[= <- <-]|[]]. exact Hv.
  - destruct (py_eq k k'); cbn.
    + intros [[= <- <-]|H0]; [exact Hv|]. apply (Hci k0). now right.
    + intros [[= <- <-]|H0]; [apply (Hci k'); now left|].
      revert k0 v0 H0. apply IH. intros k1 v1 H1. apply (Hci k1). now right.
Qed.

Lemma build_index_values (objects : list json) (ci : pydict) :
  Forall P objects -> build_index objects = Return ci -> index_values P ci.
Proof.
  intros Hobj. unfold build_index.
  apply (foldM_invariant _ (index_values P)).
  - intros s x s' Hx Hs H. inv_bind H as id Eid. unfold pydict_setitem in H.
    destruct (hashable id); [|discriminate]. injection H as <-.
    apply pydict_update_values; [|exact Hs].
    rewrite Forall_forall in Hobj. now apply Hobj.
  - intros k v [].
Qed.

(** *** The closures *)

Variable cache_index : pydict.
Hypothesis Hindex : index_values P cache_index.

Lemma embedded_objects_shape (item e : json) :
  stix2_get_embedded_objects cache_index item = Return e ->
  exists markings creator,
    e = JObj [("object_marking_refs", JArr markings); ("created_by_ref", creator)]
    /\ Forall P markings
    /\ (creator = JNull \/ P creator).
Proof.
  unfold stix2_get_embedded_objects. intros H.
  inv_bind H as has_m Ehm. inv_bind H as markings Em.
  inv_bind H as has_c Ehc. inv_bind H as creator Ec. injection H as <-.
  exists markings, creator. split; [reflexivity|]. split.
  - destruct has_m; [|injection Em as <-; constructor].
    inv_bind Em as refs Er. inv_bind Em as refs' Er'. revert Em.
    apply (foldM_invariant _ (Forall P)); [|constructor].
    intros s r s' _ Hs Hr. inv_bind Hr as known Ek.
    destruct known; [|now injection Hr as <-].
    inv_bind Hr as v Ev. injection Hr as <-.
    apply Forall_app. split; [exact Hs|]. constructor; [|constructor].
    exact (pydict_getitem_value _ _ _ Hindex Ev).
  - destruct has_c; [|injection Ec as <-; now left].
    inv_bind Ec as ref Er. inv_bind Ec as known Ek.
    destruct known; [|injection Ec as <-; now left].
    inv_bind Ec as ref' Er'. right. exact (pydict_getitem_value _ _ _ Hindex Ec).
Qed.

Lemma entity_objects_shape (entity : json) (l : list json) :
  stix2_get_entity_objects cache_index entity = Return l ->
  exists tl, l = entity :: tl /\ Forall P tl.
Proof.
  unfold stix2_get_entity_objects. intros H.
  inv_bind H as e Ee. destruct (embedded_objects_shape _ _ Ee) as (m & c & -> & Hm & Hc).
  inv_bind H as c1 Ec1. cbn in Ec1. injection Ec1 as <-.
  inv_bind H as items Ei.
  assert (Hitems : exists tl, items = entity :: tl /\ Forall P tl).
  { destruct (is_None c) eqn:En; cbn [negb] in Ei.
    - injection Ei as <-. exists []. split; [reflexivity | constructor].
    - inv_bind Ei as c2 Ec2. cbn in Ec2. injection Ec2 as <-. injection Ei as <-.
      destruct Hc as [-> | Hc]; [discriminate En|].
      exists [c]. split; [reflexivity | now repeat constructor]. }
  destruct Hitems as (tl & -> & Htl).
  inv_bind H as m1 Em1. cbn in Em1. injection Em1 as <-.
  inv_bind H as m2 Em2. cbn in Em2. injection Em2 as <-.
  destruct (0 <? List.length m)%nat.
  - inv_bind H as m3 Em3. cbn in Em3. injection Em3 as <-.
    inv_bind H as m4 Em4. cbn in Em4. injection Em4 as <-. injection H as <-.
    exists (tl ++ m). split; [reflexivity|]. apply Forall_app. now split.
  - injection H as <-. now exists tl.
Qed.

(** [stix2_get_relationship_objects] returns for no relationship: the dict
    of embedded objects has no key ["created_by"]. *)
Lemma relationship_objects_raise (relationship : json) (l : list json) :
  stix2_get_relationship_objects cache_index relationship = Return l -> False.
Proof.
  unfold stix2_get_relationship_objects. intros H.
  inv_bind H as s Es. inv_bind H as ks Eks. inv_bind H as items1 E1.
  inv_bind H as t Et. inv_bind H as kt Ekt. inv_bind H as items2 E2.
  inv_bind H as e Ee. destruct (embedded_objects_shape _ _ Ee) as (m & c & -> & _).
  inv_bind H as creator Ec. discriminate Ec.
Qed.

Lemma report_objects_shape (report : json) (l : list json) :
  P report ->
  stix2_get_report_objects cache_index report = Return l ->
  exists tl, l = report :: tl /\ Forall P tl.
Proof.
  unfold stix2_get_report_objects. intros Hr H.
  inv_bind H as refs Er. inv_bind H as refs' Er'. inv_bind H as items Ei.
  assert (Hitems : exists tl, items = report :: tl /\ Forall P tl).
  { revert Ei.
    apply (foldM_invariant _ (fun s => exists tl, s = report :: tl /\ Forall P tl)).
    - intros s r s' _ (tl & -> & Htl) Hs. inv_bind Hs as v Ev. injection Hs as <-.
      exists (tl ++ [v]). split; [reflexivity|].
      apply Forall_app. split; [exact Htl|]. constructor; [|constructor].
      exact (pydict_getitem_value _ _ _ Hindex Ev).
    - exists []. split; [reflexivity | constructor]. }
  destruct Hitems as (tl & -> & Htl).
  assert (Hall : Forall P (report :: tl)) by now constructor.
  revert H.
  apply (foldM_invariant _ (fun s => exists tl', s = report :: tl' /\ Forall P tl')).
  - intros s item s' Hitem (tl' & -> & Htl') Hs. inv_bind Hs as type Et.
    destruct (py_eq type (JStr "relationship")).
    + inv_bind Hs as more Em. now apply relationship_objects_raise in Em.
    + inv_bind Hs as more Em. injection Hs as <-.
      destruct (entity_objects_shape _ _ Em) as (tl2 & -> & Htl2).
      exists (tl' ++ item :: tl2). split; [reflexivity|].
      apply Forall_app. split; [exact Htl'|]. constructor; [|exact Htl2].
      rewrite Forall_forall in Hall. now apply Hall.
  - now exists tl.
Qed.

End Index.

(** *** De-duplication and the ids of a closure *)

Lemma dedup_loop_adds (l : list json) :
  forall ids final ids' final',
    foldM (fun '(ids, final_items) item =>
             id <- getitem item "id" ;;
             if negb (py_in id ids) then
               id <- getitem item "id" ;;
               Return (ids ++ [id], final_items ++ [item])
             else Return (ids, final_items))
          l (ids, final) = Return (ids', final') ->
    exists add, final' = final ++ add /\ incl add l.
Proof.
  induction l as [|x l IH]; intros ids final ids' final' H; cbn [foldM] in H.
  - injection H as <- <-. exists []. split; [now rewrite List.app_nil_r | intros ? []].
  - inv_bind H as st E. inv_bind E as id Eid.
    destruct (negb (py_in id ids)).
    + inv_bind E as id' Eid'. injection E as <-.
      destruct (IH _ _ _ _ H) as (add & -> & Hadd).
      exists (x :: add). split; [now rewrite <- app_assoc|].
      intros y [<-|Hy]; [now left | right; now apply Hadd].
    + injection E as <-. destruct (IH _ _ _ _ H) as (add & -> & Hadd).
      exists add. split; [reflexivity|]. intros y Hy. right. now apply Hadd.
Qed.

Lemma deduplicate_shape (x : json) (tl items : list json) :
  stix2_deduplicate_objects (x :: tl) = Return items ->
  exists tl', items = x :: tl' /\ incl tl' tl.
Proof.
  unfold stix2_deduplicate_objects. intros H. inv_bind H as st E.
  destruct st as [ids final]. injection H as <-.
  cbn [foldM] in E. inv_bind E as st1 E1. inv_bind E1 as id Eid.
  cbn [py_in existsb negb] in E1. inv_bind E1 as id' Eid'. injection E1 as <-.
  destruct (dedup_loop_adds _ _ _ _ _ E) as (add & -> & Hadd).
  now exists add.
Qed.

Lemma ids_loop (items : list json) :
  forall added added',
    foldM (fun added item_to_send =>
             id <- getitem item_to_send "id" ;;
             Return (added ++ [id]))
          items added = Return added' ->
    added' = added ++ object_ids items.
Proof.
  induction items as [|x items IH]; intros added added' H; cbn [foldM] in H.
  - injection H as <-. cbn. now rewrite List.app_nil_r.
  - inv_bind H as a1 E. inv_bind E as id Eid. injection E as <-.
    rewrite (IH _ _ H). unfold object_ids. cbn [flat_map]. rewrite Eid.
    now rewrite <- app_assoc.
Qed.

(** What [stix2_create_bundle] writes is read back as it was. *)
Lemma bundle_objects_create (uuid : string) (items : list json) :
  Forall (fun x => wf_json x = true) items ->
  bundle_objects (stix2_create_bundle uuid items) = items.
Proof.
  intros Hwf. unfold bundle_objects, stix2_create_bundle.
  rewrite json_loads_dumps; [reflexivity|].
  cbn. rewrite andb_true_r. apply forallb_forall. rewrite Forall_forall in Hwf.
  exact Hwf.
Qed.

Lemma py_in_app (x : json) (l1 l2 : list json) :
  py_in x (l1 ++ l2) = py_in x l1 || py_in x l2.
Proof. apply existsb_app. Qed.

(** *** One loop of [split_stix2_bundle] *)

Section Pass.

Variable uuid4 : nat -> string.
Variable select : json -> list json -> result bool.
Variable closure : json -> result (list json).
Variable test : json -> bool.
Variables fresh exact : Prop.

Hypothesis select_false :
  forall item added, select item added = Return false ->
    type_is test item = true ->
    exists id, getitem item "id" = Return id /\ py_in id added = true.

Hypothesis select_fresh :
  fresh -> forall item added id,
    select item added = Return true ->
    getitem item "id" = Return id -> py_in id added = false.

Hypothesis select_exact :
  exact -> forall item added b,
    select item added = Return b -> b = type_is test item.

Lemma send_items_spec (item : json) (added : list json) (bundles : list string)
  (st' : list json * list string) :
  (forall objs, closure item = Return objs ->
     exists tl, objs = item :: tl /\ Forall (fun x => wf_json x = true) (item :: tl)) ->
  send_items uuid4 closure item (added, bundles) = Return st' ->
  exists b tl id,
    st' = (added ++ bundle_ids b, bundles ++ [b])
    /\ bundle_objects b = item :: tl
    /\ getitem item "id" = Return id.
Proof.
  intros Hcl H. unfold send_items in H.
  inv_bind H as objs Eo. inv_bind H as items Ei. inv_bind H as added' Ea.
  injection H as <-.
  destruct (Hcl objs Eo) as (tl & -> & Hwf).
  destruct (deduplicate_shape _ _ _ Ei) as (tl' & -> & Hincl).
  assert (Hwf' : Forall (fun x => wf_json x = true) (item :: tl')).
  { inversion Hwf as [|? ? Hitem Htl]; subst. constructor; [exact Hitem|].
    rewrite Forall_forall in Htl |- *. intros y Hy. apply Htl. now apply Hincl. }
  pose proof (ids_loop _ _ _ Ea) as Hids.
  cbn [foldM] in Ea. inv_bind Ea as a1 Ea1. inv_bind Ea1 as id Eid.
  exists (stix2_create_bundle (uuid4 (List.length bundles)) (item :: tl')), tl', id.
  unfold bundle_ids. rewrite bundle_objects_create by exact Hwf'.
  now rewrite Hids.
Qed.

Lemma py_eq_hashable_refl (id : json) : hashable id = true -> py_eq id id = true.
Proof.
  destruct id as [ | b | n | s | l | d ]; cbn; try discriminate; intros _.
  - reflexivity.
  - now destruct b.
  - apply Z.eqb_refl.
  - apply String.eqb_refl.
Qed.

Lemma split_pass_spec (objects : list json) :
  (forall item objs, In item objects -> closure item = Return objs ->
     exists tl, objs = item :: tl /\ Forall (fun x => wf_json x = true) (item :: tl)) ->
  (forall item id, In item objects -> getitem item "id" = Return id ->
     hashable id = true) ->
  forall st st',
    split_pass uuid4 select closure objects st = Return st' ->
    fst st = flat_map bundle_ids (snd st) ->
    exists new,
      snd st' = snd st ++ new
      /\ fst st' = fst st ++ flat_map bundle_ids new
      /\ (forall item, In item objects -> type_is test item = true ->
            exists id, getitem item "id" = Return id /\ py_in id (fst st') = true)
      /\ (fresh -> seeds_fresh (snd st) new)
      /\ (exact -> List.length new = List.length (filter (type_is test) objects)).
Proof.
  induction objects as [|item objects IH]; intros Hcl Hhash st st' H Hinv.
  - cbn in H. injection H as <-. exists [].
    rewrite !List.app_nil_r. repeat split; try reflexivity.
    + intros item [].
    + intros _ [|? ?] b post Hnew; discriminate Hnew.
  - unfold split_pass in H. cbn [foldM] in H. inv_bind H as st1 E1.
    fold (split_pass uuid4 select closure objects st1) in H.
    inv_bind E1 as selected Es.
    assert (Hcl' : forall item0 objs, In item0 objects -> closure item0 = Return objs ->
              exists tl, objs = item0 :: tl
                         /\ Forall (fun x => wf_json x = true) (item0 :: tl)).
    { intros item0 objs H0. apply Hcl. now right. }
    assert (Hhash' : forall item0 id, In item0 objects ->
              getitem item0 "id" = Return id -> hashable id = true).
    { intros item0 id H0. apply Hhash. now right. }
    destruct selected.
    + destruct st as [added bundles]. cbn [fst snd] in *.
      destruct (send_items_spec item added bundles st1
                  (fun objs => Hcl item objs (or_introl eq_refl)) E1)
        as (b & tl & id & -> & Hb & Eid).
      destruct (IH Hcl' Hhash' _ _ H) as (new & Hsnd & Hfst & Hcov & Hfresh & Hexact).
      { cbn [fst snd]. rewrite Hinv, flat_map_app. cbn. now rewrite List.app_nil_r. }
      cbn [fst snd] in *.
      exists (b :: new). split; [now rewrite Hsnd, <- app_assoc|].
      split; [rewrite Hfst; cbn [flat_map]; now rewrite <- app_assoc|].
      split; [|split].
      * intros item0 [<-|H0] Ht; [|now apply Hcov].
        exists id. split; [exact Eid|].
        rewrite Hfst, !py_in_app. unfold bundle_ids at 1. rewrite Hb.
        unfold object_ids. cbn [flat_map]. rewrite Eid. cbn [List.app py_in existsb].
        rewrite (py_eq_hashable_refl id (Hhash item id (or_introl eq_refl) Eid)).
        now rewrite orb_true_r.
      * intros Hf pre b0 post Hnew. destruct pre as [|p pre].
        -- injection Hnew as <- <-. rewrite List.app_nil_r, <- Hinv.
           exists item, id. rewrite Hb. split; [reflexivity|]. split; [exact Eid|].
           exact (select_fresh Hf _ _ _ Es Eid).
        -- injection Hnew as <- ->.
           destruct (Hfresh Hf pre b0 post eq_refl) as (seed & id0 & Hs & Hi & Hn).
           exists seed, id0. split; [exact Hs|]. split; [exact Hi|].
           now rewrite <- app_assoc in Hn.
      * intros He. cbn [filter]. rewrite <- (select_exact He _ _ _ Es).
        cbn [List.length]. now rewrite (Hexact He).
    + injection E1 as <-.
      destruct (IH Hcl' Hhash' _ _ H Hinv) as (new & Hsnd & Hfst & Hcov & Hfresh & Hexact).
      exists new. split; [exact Hsnd|]. split; [exact Hfst|]. split; [|split].
      * intros item0 [<-|H0] Ht; [|now apply Hcov].
        destruct (select_false _ _ Es Ht) as (id & Eid & Hin).
        exists id. split; [exact Eid|]. rewrite Hfst, py_in_app, Hin. reflexivity.
      * exact Hfresh.
      * intros He. cbn [filter]. rewrite <- (select_exact He _ _ _ Es).
        exact (Hexact He).
Qed.

End Pass.

Section PassOrder.

Variable uuid4 : nat -> string.
Variable select : json -> list json -> result bool.
Variable closure : json -> result (list json).
Variable test : json -> bool.
Variable dedup : bool.

Hypothesis select_spec :
  forall item added b, select item added = Return b ->
    if b then
      type_is test item = true
      /\ (dedup = true -> forall id, getitem item "id" = Return id ->
                                     py_in id added = false)
    else
      type_is test item = false
      \/ (dedup = true
          /\ exists id, getitem item "id" = Return id /\ py_in id added = true).

Lemma split_pass_order (objects : list json) :
  (forall item objs, In item objects -> closure item = Return objs ->
     exists tl, objs = item :: tl /\ Forall (fun x => wf_json x = true) (item :: tl)) ->
  forall st st',
    split_pass uuid4 select closure objects st = Return st' ->
    fst st = flat_map bundle_ids (snd st) ->
    exists new,
      snd st' = snd st ++ new
      /\ fst st' = fst st ++ flat_map bundle_ids new
      /\ pass_order dedup test objects (snd st) new.
Proof.
  induction objects as [|item objects IH]; intros Hcl st st' H Hinv.
  - cbn in H. injection H as <-. exists [].
    rewrite !List.app_nil_r. repeat split. constructor.
  - unfold split_pass in H. cbn [foldM] in H. inv_bind H as st1 E1.
    fold (split_pass uuid4 select closure objects st1) in H.
    inv_bind E1 as selected Es.
    pose proof (select_spec _ _ _ Es) as Hsel.
    assert (Hcl' : forall item0 objs, In item0 objects -> closure item0 = Return objs ->
              exists tl, objs = item0 :: tl
                         /\ Forall (fun x => wf_json x = true) (item0 :: tl)).
    { intros item0 objs H0. apply Hcl. now right. }
    destruct selected.
    + destruct st as [added bundles]. cbn [fst snd] in *.
      destruct (send_items_spec uuid4 closure item added bundles st1
                  (fun objs => Hcl item objs (or_introl eq_refl)) E1)
        as (b & tl & id & -> & Hb & Eid).
      destruct (IH Hcl' _ _ H) as (new & Hsnd & Hfst & Hord).
      { cbn [fst snd]. rewrite Hinv, flat_map_app. cbn. now rewrite List.app_nil_r. }
      cbn [fst snd] in *.
      exists (b :: new). split; [now rewrite Hsnd, <- app_assoc|].
      split; [rewrite Hfst; cbn [flat_map]; now rewrite <- app_assoc|].
      destruct Hsel as [Ht Hf]. apply pass_emit; try assumption.
      * rewrite <- Hinv. exact Hf.
      * now rewrite Hb.
    + injection E1 as <-.
      destruct (IH Hcl' _ _ H Hinv) as (new & Hsnd & Hfst & Hord).
      exists new. split; [exact Hsnd|]. split; [exact Hfst|].
      apply pass_skip; [|exact Hord]. rewrite <- Hinv. exact Hsel.
Qed.

End PassOrder.

(** *** The whole split *)

Lemma foldM_each {A S : Type} (f : S -> A -> result S) (l : list A) :
  forall s s', foldM f l s = Return s' ->
    forall x, In x l -> exists s1 s2, f s1 x = Return s2.
Proof.
  induction l as [|y l IH]; intros s s' H x []; cbn [foldM] in H;
    inv_bind H as s1 E.
  - subst y. now exists s, s1.
  - now apply (IH _ _ H).
Qed.

Lemma dict_get_wf (k : string) (d : dict) (x : json) :
  forallb (fun '(_, y) => wf_json y) d = true -> dict_get k d = Some x ->
  wf_json x = true.
Proof.
  induction d as [|[k' y] d IH]; cbn; [discriminate|].
  intros H. apply andb_true_iff in H as [Hy Hd].
  destruct (String.eqb k k'); [now intros [= <-] | now apply IH].
Qed.

Lemma getitem_wf (v : json) (k : string) (x : json) :
  wf_json v = true -> getitem v k = Return x -> wf_json x = true.
Proof.
  destruct v as [ | | | | | d]; cbn; try discriminate.
  intros H. apply andb_true_iff in H as [_ Hd].
  destruct (dict_get k d) eqn:E; [|discriminate].
  intros [= <-]. exact (dict_get_wf k d j Hd E).
Qed.

Lemma py_iter_wf (v : json) (l : list json) :
  wf_json v = true -> py_iter v = Return l ->
  Forall (fun x => wf_json x = true) l.
Proof.
  destruct v as [ | | | s | a | d]; cbn; try discriminate; intros H [= <-].
  - apply Forall_forall. intros x Hx. apply in_map_iff in Hx as (c & <- & _).
    reflexivity.
  - apply Forall_forall. now apply forallb_forall.
  - apply Forall_forall. intros x Hx. apply in_map_iff in Hx as (kv & <- & _).
    reflexivity.
Qed.

Lemma build_index_hashable (objects : list json) (ci : pydict) :
  build_index objects = Return ci ->
  forall item id, In item objects -> getitem item "id" = Return id ->
    hashable id = true.
Proof.
  intros H item id Hitem Hid.
  destruct (foldM_each _ _ _ _ H item Hitem) as (s1 & s2 & Hs).
  rewrite Hid in Hs. cbn [bind] in Hs. unfold pydict_setitem in Hs.
  now destruct (hashable id).
Qed.

Lemma py_in_flat_map {A : Type} (x : json) (f : A -> list json) (l : list A) :
  py_in x (flat_map f l) = existsb (fun b => py_in x (f b)) l.
Proof.
  induction l as [|b l IH]; cbn [flat_map existsb]; [reflexivity|].
  now rewrite py_in_app, IH.
Qed.

Lemma seeds_fresh_app (old new1 new2 : list string) :
  seeds_fresh old new1 -> seeds_fresh (old ++ new1) new2 ->
  seeds_fresh old (new1 ++ new2).
Proof.
  intros H1 H2 pre b post E.
  apply app_eq_app in E as (l & [[-> E] | [-> E]]).
  - destruct l as [|c l].
    + cbn in E. subst new2.
      destruct (H2 [] b post eq_refl) as (seed & id & Hs & Hi & Hn).
      exists seed, id. now rewrite !List.app_nil_r in Hn.
    + injection E as <- ->. exact (H1 pre b l eq_refl).
  - subst new2. destruct (H2 l b post eq_refl) as (seed & id & Hs & Hi & Hn).
    exists seed, id. now rewrite <- app_assoc in Hn.
Qed.

Lemma is_report_spec (item : json) (added : list json) (b : bool) :
  is_report item added = Return b -> b = type_is report_type item.
Proof.
  unfold is_report, type_is. destruct (getitem item "type"); cbn; [|discriminate].
  now intros [= <-].
Qed.

Lemma is_new_spec (test : json -> bool) (item : json) (added : list json) (b : bool) :
  (type <- getitem item "type" ;;
   if test type then
     id <- getitem item "id" ;; Return (negb (py_in id added))
   else Return false) = Return b ->
  (b = true -> forall id, getitem item "id" = Return id -> py_in id added = false)
  /\ (b = false -> type_is test item = true ->
      exists id, getitem item "id" = Return id /\ py_in id added = true).
Proof.
  unfold type_is. intros H. inv_bind H as type Et. rewrite Et.
  destruct (test type).
  - inv_bind H as id Eid. injection H as <-. split.
    + intros Hb id' Hid'. rewrite Eid in Hid'. injection Hid' as <-.
      now apply negb_true_iff.
    + intros Hb _. exists id. split; [exact Eid | now apply negb_false_iff].
  - injection H as <-. split; [discriminate | intros _; discriminate].
Qed.

(** What a call of [split_stix2_bundle] that returns has gone through. *)
Lemma split_stix2_bundle_inv (uuid4 : nat -> string) (bundle : string)
  (bundles : list string) :
  split_stix2_bundle uuid4 bundle = Return bundles ->
  exists ci st1 st2 st3,
    Forall (fun x => wf_json x = true) (bundle_objects bundle)
    /\ build_index (bundle_objects bundle) = Return ci
    /\ split_pass uuid4 is_report (stix2_get_report_objects ci)
         (bundle_objects bundle) ([], []) = Return st1
    /\ split_pass uuid4 is_new_relationship (stix2_get_relationship_objects ci)
         (bundle_objects bundle) st1 = Return st2
    /\ split_pass uuid4 is_new_entity (stix2_get_entity_objects ci)
         (bundle_objects bundle) st2 = Return st3
    /\ bundles = snd st3.
Proof.
  unfold split_stix2_bundle. intros H.
  inv_bind H as data Ed.
  assert (Hload : json_loads bundle = Return data).
  { destruct (json_loads bundle) as [v|e]; [exact Ed|].
    destruct (is_Exception e); discriminate Ed. }
  clear Ed.
  inv_bind H as o Eo. inv_bind H as objects Eobj. inv_bind H as ci Eci.
  inv_bind H as o1 Eo1. inv_bind H as objects1 Eobj1. inv_bind H as st1 E1.
  inv_bind H as o2 Eo2. inv_bind H as objects2 Eobj2. inv_bind H as st2 E2.
  inv_bind H as o3 Eo3. inv_bind H as objects3 Eobj3. inv_bind H as st3 E3.
  injection H as <-.
  rewrite Eo in Eo1, Eo2, Eo3.
  injection Eo1 as <-. injection Eo2 as <-. injection Eo3 as <-.
  rewrite Eobj in Eobj1, Eobj2, Eobj3.
  injection Eobj1 as <-. injection Eobj2 as <-. injection Eobj3 as <-.
  assert (Hobjs : bundle_objects bundle = objects).
  { unfold bundle_objects. rewrite Hload. cbn [bind]. rewrite Eo. cbn [bind].
    now rewrite Eobj. }
  rewrite Hobjs. exists ci, st1, st2, st3. repeat split; try assumption.
  apply (py_iter_wf o); [|exact Eobj].
  apply (getitem_wf data "objects"); [|exact Eo].
  exact (json_loads_wf _ _ Hload).
Qed.

Lemma is_report_order (item : json) (added : list json) (b : bool) :
  is_report item added = Return b ->
  if b then
    type_is report_type item = true
    /\ (false = true -> forall id, getitem item "id" = Return id ->
                                   py_in id added = false)
  else
    type_is report_type item = false
    \/ (false = true
        /\ exists id, getitem item "id" = Return id /\ py_in id added = true).
Proof.
  intros H. apply is_report_spec in H. subst b.
  destruct (type_is report_type item); [split; [reflexivity | discriminate] | now left].
Qed.

Lemma is_new_order (test : json -> bool) (item : json) (added : list json) (b : bool) :
  (type <- getitem item "type" ;;
   if test type then
     id <- getitem item "id" ;; Return (negb (py_in id added))
   else Return false) = Return b ->
  if b then
    type_is test item = true
    /\ (true = true -> forall id, getitem item "id" = Return id ->
                                  py_in id added = false)
  else
    type_is test item = false
    \/ (true = true
        /\ exists id, getitem item "id" = Return id /\ py_in id added = true).
Proof.
  intros H. pose proof (is_new_spec test item added b H) as [Ht Hf].
  unfold type_is in *. inv_bind H as type Et. rewrite Et in *.
  destruct (test type).
  - destruct b.
    + split; [reflexivity|]. intros _. now apply Ht.
    + right. split; [reflexivity|]. now apply Hf.
  - injection H as <-. now left.
Qed.

(** A loop whose closure never returns leaves the state as it is, if it
    returns itself. *)
Lemma split_pass_no_closure (uuid4 : nat -> string)
  (select : json -> list json -> result bool)
  (closure : json -> result (list json)) (objects : list json) :
  (forall item objs, closure item = Return objs -> False) ->
  forall st st', split_pass uuid4 select closure objects st = Return st' -> st' = st.
Proof.
  intros Hcl. induction objects as [|item objects IH]; intros st st' H.
  - cbn in H. now injection H as <-.
  - unfold split_pass in H. cbn [foldM] in H. inv_bind H as st1 E1.
    fold (split_pass uuid4 select closure objects st1) in H.
    inv_bind E1 as selected Es. destruct selected.
    + destruct st as [added bundles]. unfold send_items in E1.
      inv_bind E1 as objs Eo. now apply Hcl in Eo.
    + injection E1 as <-. now apply IH.
Qed.

(** *** What the examples rest on *)

(** Whatever the relationship and the index, its closure is not computed. *)
Lemma stix2_get_relationship_objects_raises (cache_index : pydict)
  (relationship : json) :
  exists e, stix2_get_relationship_objects cache_index relationship = Raise e.
Proof.
  destruct (stix2_get_relationship_objects cache_index relationship) as [l|e] eqn:E.
  - exfalso.
    exact (relationship_objects_raise (fun _ => True) cache_index
             (fun _ _ _ => I) relationship l E).
  - now exists e.
Qed.

(** X8. On every call that returns, the sub-bundles are those of the reports in
    source order, then those of the relationships not yet emitted, then
    those of the other objects not yet emitted. The part of the
    relationships is empty on such a call, by
    [stix2_get_relationship_objects_raises]. *)
Theorem split_order (uuid4 : nat -> string) (bundle : string)
  (bundles : list string) :
  split_stix2_bundle uuid4 bundle = Return bundles ->
  exists reports relationships others,
    bundles = reports ++ relationships ++ others
    /\ pass_order false report_type (bundle_objects bundle) [] reports
    /\ pass_order true relationship_type (bundle_objects bundle) reports relationships
    /\ pass_order true other_type (bundle_objects bundle)
         (reports ++ relationships) others
    /\ relationships = [].
Proof.
  intros H.
  destruct (split_stix2_bundle_inv _ _ _ H)
    as (ci & st1 & st2 & st3 & Hwf & Eci & E1 & E2 & E3 & ->).
  pose proof (build_index_values (fun x => wf_json x = true) _ ci Hwf Eci) as Hci.
  assert (Hitem : forall item, In item (bundle_objects bundle) -> wf_json item = true).
  { now apply Forall_forall. }
  destruct (split_pass_order uuid4 is_report (stix2_get_report_objects ci)
              report_type false is_report_order (bundle_objects bundle))
    with (st := ([] : list json, [] : list string)) (st' := st1)
    as (new1 & Hs1 & Hf1 & Ho1); try assumption; try reflexivity.
  { intros item objs Hin Hcl.
    destruct (report_objects_shape _ ci Hci item objs (Hitem item Hin) Hcl)
      as (tl & -> & Htl).
    exists tl. split; [reflexivity|]. constructor; [now apply Hitem | exact Htl]. }
  cbn [fst snd List.app] in Hs1, Hf1.
  destruct (split_pass_order uuid4 is_new_relationship
              (stix2_get_relationship_objects ci) relationship_type true
              (is_new_order relationship_type) (bundle_objects bundle))
    with (st := st1) (st' := st2)
    as (new2 & Hs2 & Hf2 & Ho2); try assumption.
  { intros item objs _ Hcl.
    now apply (relationship_objects_raise _ ci Hci) in Hcl. }
  { now rewrite Hs1, Hf1. }
  destruct (split_pass_order uuid4 is_new_entity
              (stix2_get_entity_objects ci) other_type true
              (is_new_order other_type) (bundle_objects bundle))
    with (st := st2) (st' := st3)
    as (new3 & Hs3 & Hf3 & Ho3); try assumption.
  { intros item objs Hin Hcl.
    destruct (entity_objects_shape _ ci Hci item objs Hcl) as (tl & -> & Htl).
    exists tl. split; [reflexivity|]. constructor; [now apply Hitem | exact Htl]. }
  { rewrite Hs2, Hf2, Hs1, Hf1. now rewrite flat_map_app. }
  rewrite Hs1 in Ho2. rewrite Hs2, Hs1 in Ho3.
  exists new1, new2, new3. rewrite Hs3, Hs2, Hs1, <- app_assoc.
  repeat split; try assumption.
  apply (split_pass_no_closure _ _ _ _ (relationship_objects_raise _ ci Hci)) in E2.
  subst st2. apply (app_inv_head (snd st1)). now rewrite List.app_nil_r.
Qed.

(** A creator and a marking that are not in the bundle are left out of a
    closure: the tests on the index in [stix2_get_embedded_objects] see to
    it. *)
Lemma split_dangling_embedded (uuid4 : nat -> string) :
  split_stix2_bundle uuid4 (bundle_text dangling_embedded)
  = Return [stix2_create_bundle (uuid4 0) dangling_embedded].
Proof. reflexivity. Qed.

(** In every turn of the heartbeat in which the remote state differs from
    the local one, [get_state] returns [None] afterwards. *)
Lemma ping_iteration_overwrite api_ping (in_error : bool) (w : world)
  (cs : option string) (remote : json) :
  api_ping (w_trace w) (py_of_option (get_state (w_helper w))) = Return cs ->
  remote_state_of cs = Return remote ->
  py_ne (py_of_option (get_state (w_helper w))) remote = true ->
  get_state (w_helper (fst (ping_iteration api_ping in_error w))) = None.
Proof.
  intros Hping Hremote Hne.
  unfold ping_iteration, try_except, pbind, read_helper, call, lift,
    update_helper, emit, ret.
  cbn [w_helper w_trace fst snd]. rewrite Hping, Hremote, Hne.
  cbn [w_helper w_trace fst snd].
  destruct in_error; cbn [w_helper w_trace fst snd];
    apply get_state_after_overwrite.
Qed.


(** ** More properties of the program *)

(** *** De-duplication *)

Lemma dict_get_in (k : string) (v : json) (d : dict) :
  distinct_keys (map fst d) = true -> In (k, v) d -> dict_get k d = Some v.
Proof.
  induction d as [|[k' v'] d IH]; cbn [map fst distinct_keys dict_get]; [intros _ []|].
  intros H [E|Hin].
  - injection E as -> ->. now rewrite String.eqb_refl.
  - apply andb_true_iff in H as [Hk Hd].
    destruct (String.eqb k k') eqn:Ek; [|now apply IH].
    apply String.eqb_eq in Ek. subst k'. exfalso.
    apply negb_true_iff in Hk.
    assert (Hex : existsb (String.eqb k) (map fst d) = true).
    { apply existsb_exists. exists k. split; [|apply String.eqb_refl].
      apply in_map_iff. now exists (k, v). }
    congruence.
Qed.

(** Python's [==] holds between a decoded value and itself. *)
Lemma py_eq_refl (v : json) : wf_json v = true -> py_eq v v = true.
Proof.
  induction v as [ | b | n | s | l IHl | d IHd ] using json_induction; intros Hwf.
  - reflexivity.
  - now destruct b.
  - apply Z.eqb_refl.
  - apply String.eqb_refl.
  - apply wf_json_arr in Hwf. cbn [py_eq].
    induction l as [|x l IH]; [reflexivity|].
    inversion IHl; subst. inversion Hwf; subst.
    rewrite H1 by assumption. cbn [andb]. now apply IH.
  - destruct (wf_json_obj d Hwf) as [Hkeys Hvals]. cbn [py_eq].
    rewrite Nat.eqb_refl. cbn [andb].
    assert (Hsub : forall d', incl d' d ->
              (fix sub (rest : dict) : bool :=
                 match rest with
                 | [] => true
                 | (k, v) :: rest' =>
                     match dict_get k d with
                     | Some w => py_eq v w && sub rest'
                     | None => false
                     end
                 end) d' = true).
    { induction d' as [|[k v] d' IH]; intros Hincl; [reflexivity|].
      rewrite (dict_get_in k v d Hkeys (Hincl _ (or_introl eq_refl))).
      pose proof (proj1 (Forall_forall _ _) IHd (k, v) (Hincl _ (or_introl eq_refl))
                    (proj1 (Forall_forall _ _) Hvals (k, v)
                       (Hincl _ (or_introl eq_refl)))) as Hv.
      cbn [snd] in Hv. rewrite Hv.
      cbn [andb]. apply IH. intros y Hy. apply Hincl. now right. }
    apply Hsub. intros y Hy. exact Hy.
Qed.

Lemma foldM_ext {A S : Type} (f g : S -> A -> result S) (l : list A) :
  (forall s x, f s x = g s x) -> forall s, foldM f l s = foldM g l s.
Proof.
  intros Hfg. induction l as [|x l IH]; intros s; cbn [foldM]; [reflexivity|].
  rewrite Hfg. destruct (g s x); cbn [bind]; [apply IH | reflexivity].
Qed.

Lemma dedup_is_loop (items : list json) :
  stix2_deduplicate_objects items
  = ('(_, final_items) <- foldM dedup_step items ([], []) ;; Return final_items).
Proof.
  unfold stix2_deduplicate_objects. f_equal.
  apply foldM_ext. now intros [ids final] x.
Qed.

Lemma fresh_ids_app (seen ids more : list json) :
  fresh_ids seen (ids ++ more)
  = fresh_ids seen ids && fresh_ids (seen ++ ids) more.
Proof.
  revert seen. induction ids as [|x ids IH]; intros seen; cbn [List.app fresh_ids].
  - now rewrite List.app_nil_r.
  - rewrite IH, <- app_assoc. cbn [List.app]. now rewrite andb_assoc.
Qed.

(** What the loop keeps: the ids are those of the kept items, no two of
    them equal, the kept items are a subsequence of those met, and every id
    met is equal to a kept one. *)
Lemma dedup_loop_spec (items : list json) :
  Forall (fun x => wf_json x = true) items ->
  forall ids final ids' final',
    foldM dedup_step items (ids, final) = Return (ids', final') ->
    ids = object_ids final ->
    exists kept,
      final' = final ++ kept
      /\ ids' = object_ids final'
      /\ subsequence kept items
      /\ fresh_ids ids (object_ids kept) = true
      /\ (forall id, In id (object_ids items) -> py_in id ids' = true).
Proof.
  induction 1 as [|x items Hx Hitems IH]; intros ids final ids' final' H Hids.
  - cbn in H. injection H as <- <-. exists []. rewrite List.app_nil_r.
    repeat split; [exact Hids | constructor | intros id []].
  - cbn [foldM] in H. inv_bind H as st E. unfold dedup_step in E.
    inv_bind E as id Eid.
    assert (Hwfid : wf_json id = true) by exact (getitem_wf _ _ _ Hx Eid).
    destruct (negb (py_in id ids)) eqn:Hnew.
    + inv_bind E as id' Eid'. rewrite Eid in Eid'. injection Eid' as <-.
      injection E as <-.
      destruct (IH _ _ _ _ H) as (kept & -> & Hids' & Hsub & Hfresh & Hcov).
      { subst ids. unfold object_ids. rewrite flat_map_app. cbn [flat_map].
        now rewrite Eid, List.app_nil_r. }
      exists (x :: kept). split; [now rewrite <- app_assoc|].
      split; [rewrite Hids', <- app_assoc; reflexivity|].
      split; [now constructor|]. split.
      * unfold object_ids at 1. cbn [flat_map]. rewrite Eid.
        cbn [List.app fresh_ids]. now rewrite Hnew.
      * intros id0 Hin. unfold object_ids in Hin. cbn [flat_map] in Hin.
        rewrite Eid in Hin. cbn [List.app] in Hin. destruct Hin as [<-|Hin].
        -- rewrite Hids'. unfold object_ids. rewrite !flat_map_app.
           cbn [flat_map]. rewrite Eid. rewrite !py_in_app.
           cbn [List.app py_in existsb]. rewrite (py_eq_refl id Hwfid).
           now rewrite !orb_true_r.
        -- now apply Hcov.
    + injection E as <-.
      destruct (IH _ _ _ _ H Hids) as (kept & -> & Hids' & Hsub & Hfresh & Hcov).
      exists kept. split; [reflexivity|]. split; [exact Hids'|].
      split; [now constructor|]. split; [exact Hfresh|].
      intros id0 Hin. unfold object_ids in Hin. cbn [flat_map] in Hin.
      rewrite Eid in Hin. cbn [List.app] in Hin. destruct Hin as [<-|Hin].
      * apply negb_false_iff in Hnew. rewrite Hids'.
        unfold object_ids. rewrite flat_map_app, py_in_app.
        fold (object_ids final). rewrite <- Hids, Hnew. reflexivity.
      * now apply Hcov.
Qed.

(** X1. What [stix2_deduplicate_objects] returns holds no id twice, is the
    input with some items left out, in the same order, and holds an id
    equal to every id of the input. *)
Theorem deduplicate_keeps_first (items out : list json) :
  Forall (fun x => wf_json x = true) items ->
  stix2_deduplicate_objects items = Return out ->
  distinct_ids (object_ids out) = true
  /\ subsequence out items
  /\ forall id, In id (object_ids items) -> py_in id (object_ids out) = true.
Proof.
  intros Hwf H. rewrite dedup_is_loop in H. inv_bind H as st E.
  destruct st as [ids final]. injection H as <-.
  destruct (dedup_loop_spec items Hwf _ _ _ _ E eq_refl)
    as (kept & -> & Hids & Hsub & Hfresh & Hcov).
  cbn [List.app] in *. subst ids. now repeat split.
Qed.

Lemma deduplicate_keeps_first_witness :
  stix2_deduplicate_objects shared_creator = Return shared_creator
  /\ distinct_ids (object_ids shared_creator) = true.
Proof.
  split; [reflexivity|].
  exact (proj1 (deduplicate_keeps_first shared_creator shared_creator
                  ltac:(repeat constructor) eq_refl)).
Defined.

Lemma dedup_loop_distinct (items : list json) :
  forall ids final,
    ids = object_ids final ->
    Forall (fun x => exists id, getitem x "id" = Return id) items ->
    fresh_ids ids (object_ids items) = true ->
    foldM dedup_step items (ids, final)
    = Return (ids ++ object_ids items, final ++ items).
Proof.
  induction items as [|x items IH]; intros ids final Hids Hhas Hfresh.
  - cbn. now rewrite !List.app_nil_r.
  - inversion Hhas as [|? ? (id & Eid) Hrest]; subst.
    assert (Hcons : object_ids (x :: items) = id :: object_ids items).
    { unfold object_ids. cbn [flat_map]. now rewrite Eid. }
    rewrite Hcons in *. cbn [fresh_ids] in Hfresh.
    apply andb_true_iff in Hfresh as [Hnew Hfresh].
    cbn [foldM]. unfold dedup_step at 1. rewrite Eid. cbn [bind].
    rewrite Hnew. cbn [bind].
    rewrite (IH (object_ids final ++ [id]) (final ++ [x])).
    + rewrite <- !app_assoc. reflexivity.
    + unfold object_ids. rewrite flat_map_app. cbn [flat_map].
      now rewrite Eid, List.app_nil_r.
    + exact Hrest.
    + exact Hfresh.
Qed.

Lemma object_ids_has_id (items : list json) :
  forall ids final ids' final',
    foldM dedup_step items (ids, final) = Return (ids', final') ->
    Forall (fun x => exists id, getitem x "id" = Return id) items.
Proof.
  induction items as [|x items IH]; intros ids final ids' final' H; [constructor|].
  cbn [foldM] in H. inv_bind H as st E. destruct st as [ids1 final1].
  constructor; [|exact (IH _ _ _ _ H)].
  unfold dedup_step in E. inv_bind E as id Eid. now exists id.
Qed.

Lemma subsequence_Forall {A : Type} (P : A -> Prop) (l1 l2 : list A) :
  subsequence l1 l2 -> Forall P l2 -> Forall P l1.
Proof.
  induction 1; intros H2; inversion H2; subst; try constructor; auto.
Qed.

(** X2. [stix2_deduplicate_objects] leaves a list without equal ids as it
    is, and so does nothing more when applied to its own result. *)
Theorem deduplicate_idempotent (items out : list json) :
  Forall (fun x => wf_json x = true) items ->
  stix2_deduplicate_objects items = Return out ->
  stix2_deduplicate_objects out = Return out.
Proof.
  intros Hwf H.
  rewrite dedup_is_loop in H |- *. inv_bind H as st E.
  destruct st as [ids final]. injection H as ->.
  destruct (dedup_loop_spec items Hwf _ _ _ _ E eq_refl)
    as (kept & Hkept & _ & Hsub & Hdist & _).
  cbn [List.app] in Hkept. subst kept.
  pose proof (object_ids_has_id _ _ _ _ _ E) as Hhas.
  rewrite (dedup_loop_distinct out [] [] eq_refl
             (subsequence_Forall _ _ _ Hsub Hhas) Hdist).
  reflexivity.
Qed.

(** *** The closure of an object *)

Lemma markings_loop (ci : pydict) (refs : list json) :
  forallb hashable refs = true ->
  forall acc,
    foldM (fun acc object_marking_ref =>
             known <- pydict_mem object_marking_ref ci ;;
             if known : bool then
               x <- pydict_getitem object_marking_ref ci ;;
               Return (acc ++ [x])
             else Return acc)
          refs acc
    = Return (acc ++ flat_map (resolve ci) refs).
Proof.
  induction refs as [|r refs IH]; intros Hh acc; cbn [foldM flat_map].
  - now rewrite List.app_nil_r.
  - cbn [forallb] in Hh. apply andb_true_iff in Hh as [Hr Hrefs].
    unfold pydict_mem, pydict_getitem, resolve at 1. rewrite Hr.
    destruct (pydict_find r ci) as [x|]; cbn [bind].
    + rewrite IH by exact Hrefs. now rewrite <- app_assoc.
    + rewrite IH by exact Hrefs. reflexivity.
Qed.

Lemma embedded_objects_typed (ci : pydict) (d : dict) :
  refs_typed d = true ->
  stix2_get_embedded_objects ci (JObj d)
  = Return (JObj [("object_marking_refs",
                   JArr (flat_map (resolve ci) (marking_refs d)));
                  ("created_by_ref",
                   match flat_map (resolve ci) (creator_ref d) with
                   | x :: _ => x
                   | [] => JNull
                   end)]).
Proof.
  unfold refs_typed, stix2_get_embedded_objects, marking_refs, creator_ref.
  intros H. apply andb_true_iff in H as [Hc Hm].
  cbn [contains bind getitem]. unfold dict_has.
  destruct (dict_get "object_marking_refs" d) as [m|] eqn:Em.
  - destruct m as [ | | | | refs | ]; try discriminate Hm.
    cbn [bind py_iter]. rewrite markings_loop by exact Hm. cbn [bind List.app].
    destruct (dict_get "created_by_ref" d) as [c|] eqn:Ec; cbn [bind flat_map].
    + unfold pydict_mem, pydict_getitem, resolve. rewrite Hc.
      destruct (pydict_find c ci); reflexivity.
    + reflexivity.
  - cbn [bind flat_map].
    destruct (dict_get "created_by_ref" d) as [c|] eqn:Ec; cbn [bind flat_map].
    + unfold pydict_mem, pydict_getitem, resolve. rewrite Hc.
      destruct (pydict_find c ci); reflexivity.
    + reflexivity.
Qed.

(** X3. The closure of an object that is not a relationship is the object,
    then its creator, then its markings in their order, each of them only
    when the index holds it: a reference to an object that is not in the
    bundle is left out, and nothing is raised. *)
Theorem entity_closure (ci : pydict) (d : dict) :
  refs_typed d = true ->
  stix2_get_entity_objects ci (JObj d)
  = Return (JObj d
            :: filter not_None (flat_map (resolve ci) (creator_ref d))
            ++ flat_map (resolve ci) (marking_refs d)).
Proof.
  intros H. unfold stix2_get_entity_objects.
  rewrite (embedded_objects_typed ci d H). cbn [bind getitem dict_get String.eqb Ascii.eqb Bool.eqb].
  cbn [as_list bind].
  assert (Hc : filter not_None (flat_map (resolve ci) (creator_ref d))
               = match flat_map (resolve ci) (creator_ref d) with
                 | x :: _ => if is_None x then [] else [x]
                 | [] => []
                 end).
  { unfold creator_ref, resolve.
    destruct (dict_get "created_by_ref" d) as [c|]; [|reflexivity].
    cbn [flat_map]. destruct (pydict_find c ci) as [x|]; [|reflexivity].
    cbn [List.app filter]. unfold not_None. now destruct (is_None x). }
  rewrite Hc.
  destruct (flat_map (resolve ci) (creator_ref d)) as [|x l];
    [cbn [is_None negb bind]|destruct (is_None x) eqn:En; cbn [negb bind]];
    destruct (flat_map (resolve ci) (marking_refs d)) as [|m ms];
    cbn [List.length Nat.ltb Nat.leb bind List.app]; reflexivity.
Qed.

Lemma entity_closure_witness :
  stix2_get_entity_objects
    [(JStr "identity--I", stix "identity--I" "identity" [])]
    (stix "malware--A" "malware"
       [("created_by_ref", JStr "identity--I");
        ("object_marking_refs", JArr [JStr "marking-definition--missing"])])
  = Return [stix "malware--A" "malware"
              [("created_by_ref", JStr "identity--I");
               ("object_marking_refs", JArr [JStr "marking-definition--missing"])];
            stix "identity--I" "identity" []].
Proof.
  exact (entity_closure [(JStr "identity--I", stix "identity--I" "identity" [])]
           [("id", JStr "malware--A"); ("type", JStr "malware");
            ("created_by_ref", JStr "identity--I");
            ("object_marking_refs", JArr [JStr "marking-definition--missing"])]
           eq_refl).
Defined.

(** *** The closures that fail, and the bundle written *)

(** X4. [stix2_get_relationship_objects] returns for no relationship and no
    index: for a relationship that has its two ends, after they have been
    looked up, it raises [KeyError('created_by')]. *)
Theorem relationship_closure_raises (ci : pydict) :
  (forall relationship l,
     stix2_get_relationship_objects ci relationship <> Return l)
  /\ (forall d, relationship_typed d = true ->
        stix2_get_relationship_objects ci (JObj d) = Raise (key_error "created_by")).
Proof.
  split.
  - intros relationship l H.
    exact (relationship_objects_raise (fun _ => True) ci (fun _ _ _ => I)
             relationship l H).
  - intros d H. unfold relationship_typed in H.
    destruct (dict_get "source_ref" d) as [s|] eqn:Es; [|discriminate].
    destruct (dict_get "target_ref" d) as [t|] eqn:Et; [|discriminate].
    apply andb_true_iff in H as [H Hrefs]. apply andb_true_iff in H as [Hs Ht].
    unfold stix2_get_relationship_objects, getitem at 1 2 3 4.
    rewrite Es, Et. cbn [bind]. unfold pydict_mem, pydict_getitem.
    rewrite Hs, Ht. cbn [bind].
    destruct (pydict_find s ci); destruct (pydict_find t ci); cbn [bind];
      rewrite (embedded_objects_typed ci d Hrefs); reflexivity.
Qed.

Lemma relationship_closure_raises_witness :
  stix2_get_relationship_objects
    [(JStr "malware--A", stix "malware--A" "malware" [])]
    (relationship "relationship--X" "malware--A" "malware--B")
  = Raise (key_error "created_by").
Proof.
  exact (proj2 (relationship_closure_raises
                  [(JStr "malware--A", stix "malware--A" "malware" [])])
           [("id", JStr "relationship--X"); ("type", JStr "relationship");
            ("source_ref", JStr "malware--A"); ("target_ref", JStr "malware--B")]
           eq_refl).
Defined.

Lemma foldM_app {A S : Type} (f : S -> A -> result S) (l1 l2 : list A) (s : S) :
  foldM f (l1 ++ l2) s = bind (foldM f l1 s) (foldM f l2).
Proof.
  revert s. induction l1 as [|x l1 IH]; intros s; cbn [List.app foldM bind];
    [reflexivity|].
  destruct (f s x); cbn [bind]; [apply IH | reflexivity].
Qed.

Lemma refs_loop_resolved (ci : pydict) (refs : list json) :
  forallb (fun r => hashable r
                    && match pydict_find r ci with Some _ => true | None => false end)
          refs = true ->
  forall items,
    foldM (fun items object_ref =>
             x <- pydict_getitem object_ref ci ;; Return (items ++ [x]))
          refs items
    = Return (items ++ flat_map (resolve ci) refs).
Proof.
  induction refs as [|r refs IH]; intros H items; cbn [foldM flat_map].
  - now rewrite List.app_nil_r.
  - cbn [forallb] in H. apply andb_true_iff in H as [Hr Hrefs].
    apply andb_true_iff in Hr as [Hh Hf].
    unfold pydict_getitem, resolve at 1. rewrite Hh.
    destruct (pydict_find r ci) as [x|]; [|discriminate]. cbn [bind].
    rewrite IH by exact Hrefs. now rewrite <- app_assoc.
Qed.

(** X5. A report without [object_refs] makes [stix2_get_report_objects]
    raise [KeyError('object_refs')], and a report whose [object_refs] names
    an object that is not in the index makes it raise the [KeyError] of the
    first such reference: the index is subscripted without a test. *)
Theorem report_closure_key_errors (ci : pydict) (d : dict) :
  (dict_get "object_refs" d = None ->
   stix2_get_report_objects ci (JObj d) = Raise (key_error "object_refs"))
  /\ (forall found ref later,
        dict_get "object_refs" d = Some (JArr (found ++ ref :: later)) ->
        forallb (fun r => hashable r
                          && match pydict_find r ci with
                             | Some _ => true
                             | None => false
                             end) found = true ->
        hashable ref = true ->
        pydict_find ref ci = None ->
        stix2_get_report_objects ci (JObj d) = Raise (mk_exn KeyError (py_repr ref))).
Proof.
  split.
  - intros H. unfold stix2_get_report_objects, getitem. now rewrite H.
  - intros found ref later Hd Hfound Hh Hnone.
    unfold stix2_get_report_objects, getitem. rewrite Hd. cbn [bind py_iter].
    rewrite foldM_app, (refs_loop_resolved ci found Hfound). cbn [bind foldM].
    unfold pydict_getitem at 1. rewrite Hh, Hnone. reflexivity.
Qed.

Lemma report_closure_key_errors_witness :
  stix2_get_report_objects
    [(JStr "malware--A", stix "malware--A" "malware" [])]
    (stix "report--R" "report"
       [("object_refs", JArr [JStr "malware--A"; JStr "indicator--missing"])])
  = Raise (key_error "indicator--missing").
Proof.
  exact (proj2 (report_closure_key_errors
                  [(JStr "malware--A", stix "malware--A" "malware" [])]
                  [("id", JStr "report--R"); ("type", JStr "report");
                   ("object_refs", JArr [JStr "malware--A"; JStr "indicator--missing"])])
           [JStr "malware--A"] (JStr "indicator--missing") []
           eq_refl eq_refl eq_refl eq_refl).
Defined.

(** X6. What [stix2_create_bundle] writes is JSON text of type [bundle],
    with the identifier drawn after [bundle--], the version [2.0], and the
    items as its objects, in order. *)
Theorem create_bundle_read_back (uuid : string) (items : list json) :
  Forall (fun x => wf_json x = true) items ->
  json_loads (stix2_create_bundle uuid items)
  = Return (JObj [("type", JStr "bundle");
                  ("id", JStr ("bundle--" @@ uuid));
                  ("spec_version", JStr "2.0");
                  ("objects", JArr items)])
  /\ bundle_objects (stix2_create_bundle uuid items) = items.
Proof.
  intros Hwf. split; [|exact (bundle_objects_create uuid items Hwf)].
  unfold stix2_create_bundle. apply json_loads_dumps.
  cbn. rewrite andb_true_r. apply forallb_forall. rewrite Forall_forall in Hwf.
  exact Hwf.
Qed.

Lemma create_bundle_read_back_witness :
  bundle_objects (stix2_create_bundle "0" shared_creator) = shared_creator.
Proof.
  exact (proj2 (create_bundle_read_back "0" shared_creator
                  ltac:(repeat constructor))).
Defined.

(** *** The split: its errors and its sub-bundles *)

Lemma deduplicate_idempotent_witness :
  stix2_deduplicate_objects
    [stix "malware--A" "malware" []; stix "identity--I" "identity" []]
  = Return [stix "malware--A" "malware" []; stix "identity--I" "identity" []].
Proof.
  exact (deduplicate_idempotent
           [stix "malware--A" "malware" []; stix "identity--I" "identity" [];
            stix "malware--A" "malware" []]
           [stix "malware--A" "malware" []; stix "identity--I" "identity" []]
           ltac:(repeat constructor) eq_refl).
Defined.

Lemma json_loads_raises (s : string) (e : exn) :
  json_loads s = Raise e -> e = json_decode_error.
Proof.
  unfold json_loads. destruct (scan_value _ _) as [[v rest]|]; [|now intros [= <-]].
  destruct (skip_ws rest); [discriminate | now intros [= <-]].
Qed.

Lemma build_index_app (pre post : list json) :
  build_index (pre ++ post)
  = bind (build_index pre)
      (foldM (fun cache_index item =>
                id <- getitem item "id" ;;
                pydict_setitem id item cache_index) post).
Proof. unfold build_index. apply foldM_app. Qed.

(** X7. What [split_stix2_bundle] raises before it emits anything: text that
    is not JSON gives [Exception('File data is not a valid JSON')], a JSON
    object without ["objects"] gives [KeyError('objects')], and the first
    object that has no ["id"] gives its [KeyError('id')], from the loop that
    builds the index. *)
Theorem split_input_errors (uuid4 : nat -> string) (bundle : string) :
  (forall e, json_loads bundle = Raise e ->
     split_stix2_bundle uuid4 bundle
     = Raise (mk_exn Exception "File data is not a valid JSON"))
  /\ (forall d, json_loads bundle = Return (JObj d) ->
        dict_get "objects" d = None ->
        split_stix2_bundle uuid4 bundle = Raise (key_error "objects"))
  /\ (forall d indexed ci o later,
        json_loads bundle = Return (JObj d) ->
        dict_get "objects" d = Some (JArr (indexed ++ JObj o :: later)) ->
        build_index indexed = Return ci ->
        dict_get "id" o = None ->
        split_stix2_bundle uuid4 bundle = Raise (key_error "id")).
Proof.
  unfold split_stix2_bundle. repeat split.
  - intros e He. rewrite He. apply json_loads_raises in He. now subst e.
  - intros d Hd Ho. rewrite Hd. cbn [bind getitem]. now rewrite Ho.
  - intros d indexed ci o later Hd Ho Hci Hid. rewrite Hd. cbn [bind getitem].
    rewrite Ho. cbn [bind py_iter]. rewrite build_index_app, Hci.
    cbn [bind foldM getitem]. now rewrite Hid.
Qed.

Lemma split_input_errors_witness :
  split_stix2_bundle (fun _ => "0") "{bad"
  = Raise (mk_exn Exception "File data is not a valid JSON")
  /\ split_stix2_bundle (fun _ => "0") "{}" = Raise (key_error "objects").
Proof.
  split.
  - exact (proj1 (split_input_errors (fun _ => "0") "{bad")
             json_decode_error eq_refl).
  - exact (proj1 (proj2 (split_input_errors (fun _ => "0") "{}")) [] eq_refl eq_refl).
Defined.

Lemma split_order_witness :
  exists reports relationships others,
    shared_creator_split = reports ++ relationships ++ others
    /\ pass_order false report_type (bundle_objects (bundle_text shared_creator))
         [] reports
    /\ pass_order true relationship_type (bundle_objects (bundle_text shared_creator))
         reports relationships
    /\ pass_order true other_type (bundle_objects (bundle_text shared_creator))
         (reports ++ relationships) others
    /\ relationships = [].
Proof.
  exact (split_order (fun _ => "0") (bundle_text shared_creator) shared_creator_split
           ltac:(vm_compute; reflexivity)).
Defined.

Section SubBundles.

Variable uuid4 : nat -> string.
Variable select : json -> list json -> result bool.
Variable closure : json -> result (list json).
Variable source : list json.

Lemma send_items_sub_bundle (item : json) (st st' : list json * list string) :
  (forall objs, closure item = Return objs ->
     exists tl, objs = item :: tl
                /\ Forall (fun x => wf_json x = true /\ In x source) (item :: tl)) ->
  send_items uuid4 closure item st = Return st' ->
  exists b, snd st' = snd st ++ [b] /\ sub_bundle_of source b.
Proof.
  intros Hcl H. destruct st as [added bundles]. unfold send_items in H.
  inv_bind H as objs Eo. inv_bind H as items Ei. inv_bind H as added' Ea.
  injection H as <-. cbn [snd].
  destruct (Hcl objs Eo) as (tl & -> & Hall).
  assert (Hwf : Forall (fun x => wf_json x = true) (item :: tl)).
  { revert Hall. apply Forall_impl. now intros x [Hx _]. }
  destruct (deduplicate_shape _ _ _ Ei) as (tl' & Hitems & _).
  rewrite dedup_is_loop in Ei. inv_bind Ei as stl El. destruct stl as [ids final].
  injection Ei as ->.
  destruct (dedup_loop_spec _ Hwf _ _ _ _ El eq_refl)
    as (kept & Hkept & _ & Hsub & Hdist & _).
  cbn [List.app] in Hkept. subst kept.
  pose proof (subsequence_Forall _ _ _ Hsub Hall) as Hitems_all.
  eexists. split; [reflexivity|].
  unfold sub_bundle_of, bundle_ids. rewrite bundle_objects_create.
  - split; [rewrite Hitems; discriminate|]. split; [|exact Hdist].
    intros x Hx. rewrite Forall_forall in Hitems_all. now apply Hitems_all.
  - revert Hitems_all. apply Forall_impl. now intros x [Hx _].
Qed.

Lemma split_pass_sub_bundles (objects : list json) :
  (forall item objs, In item objects -> closure item = Return objs ->
     exists tl, objs = item :: tl
                /\ Forall (fun x => wf_json x = true /\ In x source) (item :: tl)) ->
  forall st st',
    Forall (sub_bundle_of source) (snd st) ->
    split_pass uuid4 select closure objects st = Return st' ->
    Forall (sub_bundle_of source) (snd st').
Proof.
  intros Hcl. unfold split_pass.
  apply (foldM_invariant _ (fun st => Forall (sub_bundle_of source) (snd st))).
  intros st item st' Hin Hst H. inv_bind H as selected Es.
  destruct selected; [|now injection H as <-].
  destruct (send_items_sub_bundle item st st' (fun objs => Hcl item objs Hin) H) as (b & -> & Hb).
  apply Forall_app. split; [exact Hst | now constructor].
Qed.

End SubBundles.

(** X9. Every sub-bundle that [split_stix2_bundle] returns is made of
    objects of the source bundle, holds at least one, and holds no id
    twice. *)
Theorem split_sub_bundles (uuid4 : nat -> string) (bundle : string)
  (bundles : list string) :
  split_stix2_bundle uuid4 bundle = Return bundles ->
  Forall (sub_bundle_of (bundle_objects bundle)) bundles.
Proof.
  intros H.
  destruct (split_stix2_bundle_inv _ _ _ H)
    as (ci & st1 & st2 & st3 & Hwf & Eci & E1 & E2 & E3 & ->).
  remember (bundle_objects bundle) as objects eqn:Hobjs. clear Hobjs H.
  set (P := fun x : json => wf_json x = true /\ In x objects).
  assert (Hall : Forall P objects).
  { apply Forall_forall. intros x Hx. split; [|exact Hx].
    rewrite Forall_forall in Hwf. now apply Hwf. }
  pose proof (build_index_values P objects ci Hall Eci) as Hci.
  assert (Hitem : forall item, In item objects -> P item).
  { now apply Forall_forall. }
  apply (split_pass_sub_bundles uuid4 is_new_entity (stix2_get_entity_objects ci)
           objects objects) with (st := st2); [| |exact E3].
  { intros item objs Hin Hcl.
    destruct (entity_objects_shape P ci Hci item objs Hcl) as (tl & -> & Htl).
    exists tl. split; [reflexivity|]. constructor; [now apply Hitem | exact Htl]. }
  apply (split_pass_sub_bundles uuid4 is_new_relationship
           (stix2_get_relationship_objects ci) objects objects) with (st := st1);
    [| |exact E2].
  { intros item objs _ Hcl. now apply (relationship_objects_raise P ci Hci) in Hcl. }
  apply (split_pass_sub_bundles uuid4 is_report (stix2_get_report_objects ci)
           objects objects) with (st := ([], [])); [|constructor|exact E1].
  intros item objs Hin Hcl.
  destruct (report_objects_shape P ci Hci item objs (Hitem item Hin) Hcl)
    as (tl & -> & Htl).
  exists tl. split; [reflexivity|]. constructor; [now apply Hitem | exact Htl].
Qed.

Lemma split_sub_bundles_witness :
  Forall (sub_bundle_of (bundle_objects (bundle_text shared_creator)))
    shared_creator_split.
Proof.
  exact (split_sub_bundles (fun _ => "0") (bundle_text shared_creator)
           shared_creator_split ltac:(vm_compute; reflexivity)).
Defined.

(** *** The split returns *)

Lemma py_eq_trans_hashable (a b c : json) :
  hashable a = true -> hashable b = true ->
  py_eq a b = true -> py_eq b c = true -> py_eq a c = true.
Proof.
  destruct a as [ | x | n | s | | ]; try discriminate;
    destruct b as [ | y | m | t | | ]; try discriminate;
    destruct c as [ | z | k | u | | ]; intros _ _; cbn [py_eq];
    try discriminate; try reflexivity; intros H1 H2;
    repeat match goal with
      | H : Bool.eqb _ _ = true |- _ => apply Bool.eqb_prop in H
      | H : Z.eqb _ _ = true |- _ => apply Z.eqb_eq in H
      | H : String.eqb _ _ = true |- _ => apply String.eqb_eq in H
      end;
    subst;
    repeat match goal with b : bool |- _ => destruct b end;
    try discriminate; try reflexivity;
    rewrite ?Z.eqb_refl, ?String.eqb_refl; try reflexivity;
    try (apply Z.eqb_eq; congruence).
Qed.

Lemma pydict_find_update_old (r k v : json) (ci : pydict) :
  pydict_find r ci <> None -> pydict_find r (pydict_update k v ci) <> None.
Proof.
  induction ci as [|[k' v'] ci IH]; cbn [pydict_find pydict_update]; [now intros []|].
  destruct (py_eq k k'); cbn [pydict_find];
    destruct (py_eq r k'); try discriminate; auto.
Qed.

Lemma pydict_find_update_new (r k v : json) (ci : pydict) :
  hashable r = true -> hashable k = true -> py_eq r k = true ->
  pydict_find r (pydict_update k v ci) <> None.
Proof.
  intros Hr Hk Hrk.
  induction ci as [|[k' v'] ci IH]; cbn [pydict_find pydict_update].
  - now rewrite Hrk.
  - destruct (py_eq k k') eqn:E; cbn [pydict_find].
    + now rewrite (py_eq_trans_hashable r k k' Hr Hk Hrk E).
    + destruct (py_eq r k'); [discriminate | exact IH].
Qed.

Lemma splittable_dict (objects : list json) (x : json) :
  splittable objects x = true ->
  exists o id type,
    x = JObj o
    /\ dict_get "id" o = Some id /\ hashable id = true
    /\ dict_get "type" o = Some type
    /\ py_eq type (JStr "relationship") = false
    /\ refs_typed o = true.
Proof.
  unfold splittable. destruct x as [ | | | | | o]; try discriminate.
  destruct (dict_get "id" o) as [id|] eqn:Eid; [|discriminate].
  destruct (dict_get "type" o) as [type|] eqn:Ety; [|discriminate].
  intros H. apply andb_true_iff in H as [H _]. apply andb_true_iff in H as [H Hrefs].
  apply andb_true_iff in H as [Hid Hty]. unfold py_ne in Hty.
  apply negb_true_iff in Hty.
  exists o, id, type. repeat split; assumption.
Qed.

Lemma index_loop (source objects : list json) :
  Forall (fun x => splittable source x = true) objects ->
  forall ci0, exists ci,
    foldM (fun cache_index item =>
             id <- getitem item "id" ;;
             pydict_setitem id item cache_index) objects ci0 = Return ci
    /\ forall r,
         pydict_find r ci0 <> None
         \/ (hashable r = true /\ py_in r (object_ids objects) = true) ->
         pydict_find r ci <> None.
Proof.
  induction 1 as [|x objects Hx Hobjs IH]; intros ci0.
  - exists ci0. split; [reflexivity|]. intros r [H | [_ H]]; [exact H | discriminate H].
  - destruct (splittable_dict _ _ Hx) as (o & id & type & -> & Eid & Hid & _).
    cbn [foldM getitem]. rewrite Eid. cbn [bind]. unfold pydict_setitem. rewrite Hid.
    cbn [bind].
    destruct (IH (pydict_update id (JObj o) ci0)) as (ci & E & Hci).
    exists ci. split; [exact E|]. intros r Hr. apply Hci.
    destruct Hr as [Hr | [Hh Hr]].
    + left. now apply pydict_find_update_old.
    + unfold object_ids in Hr. cbn [flat_map getitem] in Hr. rewrite Eid in Hr.
      cbn [List.app py_in existsb] in Hr. apply orb_true_iff in Hr as [Hr | Hr].
      * left. now apply pydict_find_update_new.
      * right. now split.
Qed.

Section Returns.

Variable objects : list json.
Variable ci : pydict.

Hypothesis Hobjects : Forall (fun x => splittable objects x = true) objects.
Hypothesis Hvalues : index_values (fun v => In v objects) ci.
Hypothesis Hkeys :
  forall r, hashable r = true -> py_in r (object_ids objects) = true ->
            pydict_find r ci <> None.

Lemma splittable_in (x : json) : In x objects -> splittable objects x = true.
Proof. rewrite Forall_forall in Hobjects. apply Hobjects. Qed.

Lemma has_id_in (x : json) :
  In x objects -> exists id, getitem x "id" = Return id.
Proof.
  intros Hx. destruct (splittable_dict _ _ (splittable_in x Hx))
    as (o & id & type & -> & Eid & _).
  exists id. cbn [getitem]. now rewrite Eid.
Qed.

Lemma entity_returns (x : json) :
  In x objects ->
  exists l, stix2_get_entity_objects ci x = Return l /\ Forall (fun v => In v objects) l.
Proof.
  intros Hx. destruct (splittable_dict _ _ (splittable_in x Hx))
    as (o & id & type & -> & _ & _ & _ & _ & Hrefs).
  assert (E : exists l, stix2_get_entity_objects ci (JObj o) = Return l).
  { unfold stix2_get_entity_objects.
    rewrite (embedded_objects_typed ci o Hrefs).
    cbn [bind getitem dict_get String.eqb Ascii.eqb Bool.eqb as_list].
    destruct (flat_map (resolve ci) (creator_ref o)) as [|c cs];
      [cbn [is_None negb bind] | destruct (is_None c); cbn [negb bind]];
      destruct (flat_map (resolve ci) (marking_refs o)) as [|m ms];
      cbn [List.length Nat.ltb Nat.leb bind]; eexists; reflexivity. }
  destruct E as (l & E). exists l. split; [exact E|].
  destruct (entity_objects_shape _ ci Hvalues _ _ E) as (tl & -> & Htl).
  now constructor.
Qed.

Lemma closure_loop_returns (items : list json) :
  Forall (fun v => In v objects) items ->
  forall acc, Forall (fun v => In v objects) acc ->
    exists l,
      foldM (fun acc item =>
               type <- getitem item "type" ;;
               if py_eq type (JStr "relationship") then
                 more <- stix2_get_relationship_objects ci item ;;
                 Return (acc ++ more)
               else
                 more <- stix2_get_entity_objects ci item ;;
                 Return (acc ++ more))
            items acc = Return l
      /\ Forall (fun v => In v objects) l.
Proof.
  induction 1 as [|x items Hx Hitems IH]; intros acc Hacc.
  - exists acc. now split.
  - destruct (entity_returns x Hx) as (more & Emore & Hmore).
    destruct (splittable_dict _ _ (splittable_in x Hx))
      as (o & id & type & Ex & _ & _ & Ety & Hty & _).
    assert (Et : getitem x "type" = Return type).
    { subst x. cbn [getitem]. now rewrite Ety. }
    cbn [foldM]. rewrite Et. cbn [bind]. rewrite Hty, Emore. cbn [bind].
    apply IH. apply Forall_app. now split.
Qed.

Lemma report_returns (x : json) :
  In x objects -> type_is report_type x = true ->
  exists l, stix2_get_report_objects ci x = Return l /\ Forall (fun v => In v objects) l.
Proof.
  intros Hx Hrep. pose proof (splittable_in x Hx) as Hs.
  unfold splittable in Hs. unfold type_is, report_type in Hrep.
  destruct x as [ | | | | | o]; try discriminate Hs.
  destruct (dict_get "id" o) as [id|]; [|discriminate Hs].
  cbn [getitem] in Hrep.
  destruct (dict_get "type" o) as [type|]; [|discriminate Hs].
  rewrite Hrep in Hs. apply andb_true_iff in Hs as [_ Hs].
  destruct (dict_get "object_refs" o) as [[ | | | | refs | ]|] eqn:Erefs;
    try discriminate Hs.
  unfold stix2_get_report_objects. cbn [getitem]. rewrite Erefs. cbn [bind py_iter].
  assert (Hfound : forallb (fun r => hashable r
                                     && match pydict_find r ci with
                                        | Some _ => true
                                        | None => false
                                        end) refs = true).
  { apply forallb_forall. intros r Hr. rewrite forallb_forall in Hs.
    specialize (Hs r Hr). apply andb_true_iff in Hs as [Hh Hin]. rewrite Hh.
    pose proof (Hkeys r Hh Hin) as Hk. now destruct (pydict_find r ci). }
  rewrite (refs_loop_resolved ci refs Hfound). cbn [bind].
  assert (Hitems : Forall (fun v => In v objects)
                     ([JObj o] ++ flat_map (resolve ci) refs)).
  { constructor; [exact Hx|]. apply Forall_forall. intros v Hv.
    apply in_flat_map in Hv as (r & _ & Hv). unfold resolve in Hv.
    destruct (pydict_find r ci) as [y|] eqn:Ey; [|now destruct Hv].
    destruct Hv as [<- | []]. exact (pydict_find_value _ r ci y Hvalues Ey). }
  now apply closure_loop_returns.
Qed.

Lemma dedup_loop_returns (items : list json) :
  Forall (fun v => In v objects) items ->
  forall ids final,
    Forall (fun v => In v objects) final ->
    exists ids' final',
      foldM dedup_step items (ids, final) = Return (ids', final')
      /\ Forall (fun v => In v objects) final'.
Proof.
  induction 1 as [|x items Hx Hitems IH]; intros ids final Hfinal.
  - now exists ids, final.
  - destruct (has_id_in x Hx) as (id & Eid).
    cbn [foldM]. unfold dedup_step at 1. rewrite Eid. cbn [bind].
    destruct (negb (py_in id ids)); cbn [bind]; apply IH; [|exact Hfinal].
    apply Forall_app. split; [exact Hfinal | now constructor].
Qed.

Lemma ids_loop_returns (items : list json) :
  Forall (fun v => In v objects) items ->
  forall added, exists added',
    foldM (fun added item_to_send =>
             id <- getitem item_to_send "id" ;;
             Return (added ++ [id]))
          items added = Return added'.
Proof.
  induction 1 as [|x items Hx Hitems IH]; intros added.
  - now exists added.
  - destruct (has_id_in x Hx) as (id & Eid).
    cbn [foldM]. rewrite Eid. cbn [bind]. apply IH.
Qed.

Lemma send_items_returns (uuid4 : nat -> string)
  (closure : json -> result (list json)) (item : json) (objs : list json)
  (st : list json * list string) :
  closure item = Return objs ->
  Forall (fun v => In v objects) objs ->
  exists st', send_items uuid4 closure item st = Return st'.
Proof.
  intros Hcl Hobjs. destruct st as [added bundles]. unfold send_items.
  rewrite Hcl. cbn [bind]. rewrite dedup_is_loop.
  destruct (dedup_loop_returns objs Hobjs [] [] ltac:(constructor))
    as (ids & final & E & Hfinal).
  rewrite E. cbn [bind].
  destruct (ids_loop_returns final Hfinal added) as (added' & Ea).
  rewrite Ea. cbn [bind]. now eexists.
Qed.

Lemma split_pass_returns (uuid4 : nat -> string)
  (select : json -> list json -> result bool)
  (closure : json -> result (list json)) (items : list json) :
  (forall item added, In item items ->
     exists b, select item added = Return b
               /\ (b = true ->
                   exists objs, closure item = Return objs
                                /\ Forall (fun v => In v objects) objs)) ->
  forall st, exists st', split_pass uuid4 select closure items st = Return st'.
Proof.
  unfold split_pass. induction items as [|item items IH]; intros Hsel st.
  - now exists st.
  - cbn [foldM].
    destruct (Hsel item (fst st) (or_introl eq_refl)) as (b & Eb & Hb).
    rewrite Eb. cbn [bind]. destruct b.
    + destruct (Hb eq_refl) as (objs & Hcl & Hobjs).
      destruct (send_items_returns uuid4 closure item objs st Hcl Hobjs) as (st1 & E1).
      rewrite E1. cbn [bind]. apply IH. intros i a Hi. apply Hsel. now right.
    + cbn [bind]. apply IH. intros i a Hi. apply Hsel. now right.
Qed.

End Returns.

(** X10. [split_stix2_bundle] returns on every bundle that holds no
    relationship and whose objects are well formed: each a dictionary with a
    hashable id and a type, with a hashable creator and a list of hashable
    markings when it has them, and, for a report, with a list of
    [object_refs] that are ids of objects of the bundle. *)
Theorem split_returns (uuid4 : nat -> string) (bundle : string) (d : dict)
  (objects : list json) :
  json_loads bundle = Return (JObj d) ->
  dict_get "objects" d = Some (JArr objects) ->
  forallb (splittable objects) objects = true ->
  exists bundles, split_stix2_bundle uuid4 bundle = Return bundles.
Proof.
  intros Hload Hobjs Hall.
  assert (Hsplit : Forall (fun x => splittable objects x = true) objects).
  { apply Forall_forall. now apply forallb_forall. }
  destruct (index_loop objects objects Hsplit []) as (ci & Eci & Hkeys0).
  assert (Hvalues : index_values (fun v => In v objects) ci).
  { apply (build_index_values _ objects ci); [|exact Eci].
    apply Forall_forall. now intros x Hx. }
  assert (Hkeys : forall r, hashable r = true ->
            py_in r (object_ids objects) = true -> pydict_find r ci <> None).
  { intros r Hh Hin. apply Hkeys0. right. now split. }
  assert (Htype : forall item, In item objects ->
            exists type, getitem item "type" = Return type
                         /\ py_eq type (JStr "relationship") = false).
  { intros item Hitem.
    destruct (splittable_dict _ _ (splittable_in objects Hsplit item Hitem))
      as (o & id & type & -> & _ & _ & Ety & Hty & _).
    exists type. cbn [getitem]. now rewrite Ety. }
  unfold split_stix2_bundle. rewrite Hload. cbn [bind getitem]. rewrite Hobjs.
  cbn [bind py_iter]. fold (build_index objects). unfold build_index. rewrite Eci.
  cbn [bind].
  destruct (split_pass_returns objects Hsplit uuid4 is_report
              (stix2_get_report_objects ci) objects) with (st := ([] : list json, [] : list string))
    as (st1 & E1).
  { intros item added Hitem. destruct (Htype item Hitem) as (type & Ety & _).
    unfold is_report. rewrite Ety. cbn [bind]. eexists. split; [reflexivity|].
    intros Hrep. apply (report_returns objects ci Hsplit Hvalues Hkeys item Hitem).
    unfold type_is, report_type. now rewrite Ety. }
  rewrite E1. cbn [bind].
  destruct (split_pass_returns objects Hsplit uuid4 is_new_relationship
              (stix2_get_relationship_objects ci) objects) with (st := st1)
    as (st2 & E2).
  { intros item added Hitem. destruct (Htype item Hitem) as (type & Ety & Hty).
    unfold is_new_relationship. rewrite Ety. cbn [bind]. rewrite Hty.
    exists false. split; [reflexivity | discriminate]. }
  rewrite E2. cbn [bind].
  destruct (split_pass_returns objects Hsplit uuid4 is_new_entity
              (stix2_get_entity_objects ci) objects) with (st := st2)
    as (st3 & E3).
  { intros item added Hitem. destruct (Htype item Hitem) as (type & Ety & Hty).
    destruct (has_id_in objects Hsplit item Hitem) as (id & Eid).
    unfold is_new_entity, py_ne. rewrite Ety. cbn [bind]. rewrite Hty. cbn [negb].
    rewrite Eid. cbn [bind]. eexists. split; [reflexivity|].
    intros _. exact (entity_returns objects ci Hsplit Hvalues item Hitem). }
  rewrite E3. cbn [bind]. now eexists.
Qed.

Lemma split_returns_witness :
  exists bundles,
    split_stix2_bundle (fun _ => "0") (bundle_text shared_creator) = Return bundles.
Proof.
  exact (split_returns (fun _ => "0") (bundle_text shared_creator)
           [("type", JStr "bundle"); ("objects", JArr shared_creator)] shared_creator
           ltac:(vm_compute; reflexivity) eq_refl eq_refl).
Defined.

(** *** The split: what a sub-bundle holds *)

(** **** The members of a closure *)

Lemma markings_loop_inv (ci : pydict) (refs : list json) :
  forall acc markings,
    foldM (fun acc object_marking_ref =>
             known <- pydict_mem object_marking_ref ci ;;
             if known : bool then
               x <- pydict_getitem object_marking_ref ci ;;
               Return (acc ++ [x])
             else Return acc)
          refs acc = Return markings ->
    markings = acc ++ flat_map (resolve ci) refs.
Proof.
  induction refs as [|r refs IH]; intros acc markings H; cbn [foldM flat_map] in *.
  - injection H as <-. now rewrite List.app_nil_r.
  - inv_bind H as acc1 E. unfold pydict_mem, pydict_getitem in E. unfold resolve at 1.
    destruct (hashable r); [|discriminate E]. cbn [bind] in E.
    destruct (pydict_find r ci) as [x|]; cbn [bind] in E; injection E as <-;
      rewrite (IH _ _ H); now rewrite <- ?app_assoc.
Qed.

Lemma refs_loop_inv (ci : pydict) (refs : list json) :
  forall items items',
    foldM (fun items object_ref =>
             x <- pydict_getitem object_ref ci ;; Return (items ++ [x]))
          refs items = Return items' ->
    items' = items ++ flat_map (resolve ci) refs.
Proof.
  induction refs as [|r refs IH]; intros items items' H; cbn [foldM flat_map] in *.
  - injection H as <-. now rewrite List.app_nil_r.
  - inv_bind H as items1 E. unfold pydict_getitem in E. unfold resolve at 1.
    destruct (hashable r); [|discriminate E].
    destruct (pydict_find r ci) as [x|]; [|discriminate E].
    cbn [bind] in E. injection E as <-.
    rewrite (IH _ _ H). now rewrite <- app_assoc.
Qed.

Lemma embedded_objects_members (ci : pydict) (d : dict) (e : json) :
  stix2_get_embedded_objects ci (JObj d) = Return e ->
  exists markings creator,
    e = JObj [("object_marking_refs", JArr markings); ("created_by_ref", creator)]
    /\ incl (flat_map (resolve ci) (marking_refs d)) markings
    /\ forall x, In x (flat_map (resolve ci) (creator_ref d)) -> creator = x.
Proof.
  unfold stix2_get_embedded_objects. intros H.
  inv_bind H as has_m Ehm. inv_bind H as markings Em.
  inv_bind H as has_c Ehc. inv_bind H as creator Ec. injection H as <-.
  cbn [contains] in Ehm, Ehc. injection Ehm as <-. injection Ehc as <-.
  exists markings, creator. split; [reflexivity|]. split.
  - unfold marking_refs, dict_has in *.
    destruct (dict_get "object_marking_refs" d) as [m|] eqn:Edm; [|intros x []].
    destruct m as [ | | | | refs | ]; try (intros x []).
    cbn [getitem] in Em. rewrite Edm in Em. cbn [bind py_iter] in Em.
    apply markings_loop_inv in Em. subst markings. cbn [List.app].
    intros x Hx. exact Hx.
  - unfold creator_ref, dict_has in *.
    destruct (dict_get "created_by_ref" d) as [ref|] eqn:Edc; [|intros x []].
    cbn [getitem] in Ec. rewrite Edc in Ec. cbn [bind] in Ec.
    unfold pydict_mem, pydict_getitem, resolve in *. cbn [flat_map].
    destruct (hashable ref); [|discriminate Ec]. cbn [bind] in Ec.
    destruct (pydict_find ref ci) as [y|]; cbn [bind] in Ec.
    + injection Ec as <-. intros x [<-|[]]. reflexivity.
    + intros x [].
Qed.

Lemma entity_objects_members (ci : pydict) (d : dict) (l : list json) :
  stix2_get_entity_objects ci (JObj d) = Return l ->
  incl (embedded_members ci (JObj d)) l.
Proof.
  unfold stix2_get_entity_objects. intros H.
  inv_bind H as e Ee.
  destruct (embedded_objects_members _ _ _ Ee) as (m & c & -> & Hm & Hc).
  inv_bind H as c1 Ec1. cbn in Ec1. injection Ec1 as <-.
  inv_bind H as items Ei.
  assert (Hitems : forall x, In x (filter not_None (flat_map (resolve ci) (creator_ref d))) ->
                             In x items).
  { intros x Hx. apply filter_In in Hx as [Hx Hn].
    apply Hc in Hx. subst x. unfold not_None in Hn. rewrite Hn in Ei.
    inv_bind Ei as c2 Ec2. cbn in Ec2. injection Ec2 as <-. injection Ei as <-.
    right. left. reflexivity. }
  inv_bind H as m1 Em1. cbn in Em1. injection Em1 as <-.
  inv_bind H as m2 Em2. cbn in Em2. injection Em2 as <-.
  intros x Hx. cbn [embedded_members] in Hx. apply in_app_or in Hx as [Hx|Hx].
  - apply Hitems in Hx.
    destruct (0 <? List.length m)%nat.
    + inv_bind H as m3 Em3. cbn in Em3. injection Em3 as <-.
      inv_bind H as m4 Em4. cbn in Em4. injection Em4 as <-. injection H as <-.
      apply in_or_app. now left.
    + now injection H as <-.
  - apply Hm in Hx. destruct m as [|y m]; [destruct Hx|].
    cbn [List.length Nat.ltb Nat.leb] in H.
    inv_bind H as m3 Em3. cbn in Em3. injection Em3 as <-.
    inv_bind H as m4 Em4. cbn in Em4. injection Em4 as <-. injection H as <-.
    apply in_or_app. now right.
Qed.

Lemma closure_loop_members (ci : pydict) (items : list json) :
  forall acc l,
    foldM (fun acc item =>
             type <- getitem item "type" ;;
             if py_eq type (JStr "relationship") then
               more <- stix2_get_relationship_objects ci item ;;
               Return (acc ++ more)
             else
               more <- stix2_get_entity_objects ci item ;;
               Return (acc ++ more))
          items acc = Return l ->
    incl acc l /\ forall y, In y items -> incl (embedded_members ci y) l.
Proof.
  induction items as [|item items IH]; intros acc l H; cbn [foldM] in H.
  - injection H as <-. split; [apply incl_refl | intros y []].
  - inv_bind H as acc1 E. inv_bind E as type Et.
    destruct (py_eq type (JStr "relationship")).
    + inv_bind E as more Em.
      now apply (relationship_objects_raise (fun _ => True) ci (fun _ _ _ => I)) in Em.
    + inv_bind E as more Em. injection E as <-.
      destruct (IH _ _ H) as [Hacc Hrest]. split.
      * intros x Hx. apply Hacc. apply in_or_app. now left.
      * intros y [<-|Hy]; [|now apply Hrest].
        destruct item as [ | | | | | d]; try (intros x []).
        intros x Hx. apply Hacc. apply in_or_app. right.
        exact (entity_objects_members ci d more Em x Hx).
Qed.

Lemma report_objects_members (ci : pydict) (d : dict) (l : list json) :
  stix2_get_report_objects ci (JObj d) = Return l ->
  incl (embedded_members ci (JObj d)) l
  /\ incl (flat_map (resolve ci) (object_refs d)) l
  /\ incl (flat_map (embedded_members ci) (flat_map (resolve ci) (object_refs d))) l.
Proof.
  unfold stix2_get_report_objects. intros H.
  inv_bind H as refs Er. inv_bind H as refs' Er'. inv_bind H as items Ei.
  apply refs_loop_inv in Ei. subst items.
  destruct (closure_loop_members ci _ _ _ H) as [Hacc Hemb].
  assert (Hrefs : incl (flat_map (resolve ci) (object_refs d))
                    (flat_map (resolve ci) refs')).
  { unfold object_refs. cbn [getitem] in Er.
    destruct (dict_get "object_refs" d) as [v|]; [|discriminate Er].
    injection Er as <-.
    destruct v as [ | | | | a | ]; try (intros x []).
    cbn [py_iter] in Er'. injection Er' as <-. apply incl_refl. }
  split; [|split].
  - apply Hemb. now left.
  - intros x Hx. apply Hacc. right. now apply Hrefs.
  - intros x Hx. apply in_flat_map in Hx as (y & Hy & Hx).
    apply (Hemb y); [|exact Hx]. right. now apply Hrefs.
Qed.

Lemma report_closure_members (ci : pydict) (seed : json) (l : list json) :
  stix2_get_report_objects ci seed = Return l -> incl (closure_members ci seed) l.
Proof.
  intros H. destruct seed as [ | | | | | d]; try discriminate H.
  destruct (report_objects_members ci d l H) as (He & Hr & Hre).
  unfold closure_members. intros x Hx. apply in_app_or in Hx as [Hx|Hx].
  - now apply He.
  - destruct (type_is report_type (JObj d)); [|destruct Hx].
    apply in_app_or in Hx as [Hx|Hx]; [now apply Hr | now apply Hre].
Qed.

Lemma entity_closure_members (ci : pydict) (seed : json) (l : list json) :
  type_is report_type seed = false ->
  stix2_get_entity_objects ci seed = Return l -> incl (closure_members ci seed) l.
Proof.
  intros Ht H. unfold closure_members.
  destruct seed as [ | | | | | d]; try (intros x []).
  rewrite Ht, List.app_nil_r. exact (entity_objects_members ci d l H).
Qed.

(** **** The closure in its sub-bundle *)

Section Closures.

Variable uuid4 : nat -> string.
Variable select : json -> list json -> result bool.
Variable closure : json -> result (list json).

Lemma send_items_closure (item : json) (added : list json) (bundles : list string)
  (st' : list json * list string) :
  (forall objs, closure item = Return objs ->
     exists tl, objs = item :: tl /\ Forall (fun x => wf_json x = true) (item :: tl)) ->
  send_items uuid4 closure item (added, bundles) = Return st' ->
  exists b objs,
    st' = (added ++ bundle_ids b, bundles ++ [b])
    /\ closure item = Return objs
    /\ hd_error (bundle_objects b) = Some item
    /\ forall x, In x objs ->
         exists id, getitem x "id" = Return id /\ py_in id (bundle_ids b) = true.
Proof.
  intros Hcl H. unfold send_items in H.
  inv_bind H as objs Eo. inv_bind H as items Ei. inv_bind H as added' Ea.
  injection H as <-.
  destruct (Hcl objs Eo) as (tl & -> & Hwf).
  destruct (deduplicate_shape _ _ _ Ei) as (tl' & Hitems & Hincl).
  rewrite dedup_is_loop in Ei. inv_bind Ei as stl El. destruct stl as [ids final].
  injection Ei as ->.
  pose proof (object_ids_has_id _ _ _ _ _ El) as Hhas.
  destruct (dedup_loop_spec _ Hwf _ _ _ _ El eq_refl)
    as (kept & Hkept & Hids & Hsub & _ & Hcov).
  cbn [List.app] in Hkept. subst kept.
  pose proof (subsequence_Forall _ _ _ Hsub Hwf) as Hwf'.
  pose proof (ids_loop _ _ _ Ea) as Hadded.
  exists (stix2_create_bundle (uuid4 (List.length bundles)) items), (item :: tl).
  unfold bundle_ids. rewrite bundle_objects_create by exact Hwf'.
  split; [now rewrite Hadded|]. split; [exact Eo|].
  split; [now rewrite Hitems|].
  intros x Hx. rewrite Forall_forall in Hhas.
  destruct (Hhas x Hx) as (id & Eid). exists id. split; [exact Eid|].
  rewrite <- Hids. apply Hcov.
  unfold object_ids. apply in_flat_map. exists x. split; [exact Hx|].
  rewrite Eid. now left.
Qed.

Lemma made_from_more (objects objects' before before' : list json) (b : string) :
  incl objects objects' ->
  (forall id, py_in id before' = true -> py_in id before = true) ->
  made_from select closure objects before b ->
  made_from select closure objects' before' b.
Proof.
  intros Ho Hb (item & added & objs & Hin & Hadded & Hrest).
  exists item, added, objs. split; [now apply Ho|].
  split; [|exact Hrest]. intros id Hid. apply Hadded. now apply Hb.
Qed.

Lemma split_pass_closures (objects : list json) :
  (forall item objs, In item objects -> closure item = Return objs ->
     exists tl, objs = item :: tl /\ Forall (fun x => wf_json x = true) (item :: tl)) ->
  forall st st',
    split_pass uuid4 select closure objects st = Return st' ->
    exists new,
      snd st' = snd st ++ new
      /\ Forall (made_from select closure objects (fst st)) new.
Proof.
  induction objects as [|item objects IH]; intros Hcl st st' H.
  - cbn in H. injection H as <-. exists []. now rewrite List.app_nil_r.
  - unfold split_pass in H. cbn [foldM] in H. inv_bind H as st1 E1.
    fold (split_pass uuid4 select closure objects st1) in H.
    inv_bind E1 as selected Es.
    assert (Hcl' : forall item0 objs, In item0 objects -> closure item0 = Return objs ->
              exists tl, objs = item0 :: tl
                         /\ Forall (fun x => wf_json x = true) (item0 :: tl)).
    { intros item0 objs H0. apply Hcl. now right. }
    destruct (IH Hcl' _ _ H) as (new & Hsnd & Hnew).
    destruct selected.
    + destruct st as [added bundles]. cbn [fst snd] in *.
      destruct (send_items_closure item added bundles st1
                  (fun objs => Hcl item objs (or_introl eq_refl)) E1)
        as (b & objs & -> & Eo & Hhd & Hids).
      cbn [fst snd] in *.
      exists (b :: new). split; [now rewrite Hsnd, <- app_assoc|].
      constructor.
      * exists item, added, objs. split; [now left|].
        split; [now intros id Hid|]. now repeat split.
      * revert Hnew. apply Forall_impl. intros b0.
        apply made_from_more; [now right|].
        intros id Hid. rewrite py_in_app, Hid. reflexivity.
    + injection E1 as <-. exists new. split; [exact Hsnd|].
      revert Hnew. apply Forall_impl. intros b0.
      apply made_from_more; [now right | now intros id Hid].
Qed.

End Closures.

(** **** The whole split *)

(** C1, as amended. When [split_stix2_bundle] returns, every object of the
    source bundle has its id in at least one sub-bundle; a sub-bundle that
    comes after those of the reports starts with an object whose id is in no
    sub-bundle before it; and every sub-bundle holds, with the object it
    starts with, what the closure of that object adds: the creator and the
    markings that the index of the source bundle holds for it, and for a
    report the objects it refers to with their creators and their markings.
    A member of a closure is held under its id: an object of the same id
    may stand for it. *)
Theorem split_emits_every_object (uuid4 : nat -> string) (bundle : string)
  (bundles : list string) :
  split_stix2_bundle uuid4 bundle = Return bundles ->
  (forall item, In item (bundle_objects bundle) ->
     exists id b, getitem item "id" = Return id
                  /\ In b bundles /\ py_in id (bundle_ids b) = true)
  /\ (forall earlier b later,
        bundles = earlier ++ b :: later ->
        (List.length (filter (type_is report_type) (bundle_objects bundle))
         <= List.length earlier)%nat ->
        exists seed id,
          hd_error (bundle_objects b) = Some seed
          /\ getitem seed "id" = Return id
          /\ forall b', In b' earlier -> py_in id (bundle_ids b') = false)
  /\ (exists ci,
        build_index (bundle_objects bundle) = Return ci
        /\ forall b seed x,
             In b bundles ->
             hd_error (bundle_objects b) = Some seed ->
             In x (closure_members ci seed) ->
             exists id, getitem x "id" = Return id
                        /\ py_in id (bundle_ids b) = true).
Proof.
  intros H.
  destruct (split_stix2_bundle_inv _ _ _ H)
    as (ci & st1 & st2 & st3 & Hwf & Eci & E1 & E2 & E3 & ->).
  remember (bundle_objects bundle) as objects eqn:Hobjs. clear Hobjs H.
  pose proof (build_index_values (fun x => wf_json x = true) objects ci Hwf Eci) as Hci.
  pose proof (build_index_hashable objects ci Eci) as Hhash.
  assert (Hitem : forall item, In item objects -> wf_json item = true).
  { now apply Forall_forall. }
  (* the loop of the reports *)
  destruct (split_pass_spec uuid4 is_report (stix2_get_report_objects ci)
              report_type False True) with (objects := objects) (st := ([] : list json, [] : list string)) (st' := st1)
    as (new1 & Hs1 & Hf1 & Hcov1 & _ & Hlen1); try assumption.
  { intros item added Hsel Ht. apply is_report_spec in Hsel. congruence. }
  { intros []. }
  { intros _ item added b. apply is_report_spec. }
  { intros item objs Hin Hcl.
    destruct (report_objects_shape _ ci Hci item objs (Hitem item Hin) Hcl)
      as (tl & -> & Htl).
    exists tl. split; [reflexivity|]. constructor; [now apply Hitem | exact Htl]. }
  { reflexivity. }
  cbn [fst snd List.app] in Hs1, Hf1.
  (* the loop of the relationships *)
  destruct (split_pass_spec uuid4 is_new_relationship (stix2_get_relationship_objects ci)
              relationship_type True False) with (objects := objects) (st := st1) (st' := st2)
    as (new2 & Hs2 & Hf2 & Hcov2 & Hfresh2 & _); try assumption.
  { intros item added Hsel. now apply (is_new_spec relationship_type) in Hsel as [_ Hsel]; apply Hsel. }
  { intros _ item added id Hsel. apply (is_new_spec relationship_type) in Hsel as [Hsel _].
    now apply Hsel. }
  { intros []. }
  { intros item objs _ Hcl.
    now apply (relationship_objects_raise _ ci Hci) in Hcl. }
  { rewrite Hs1, Hf1. reflexivity. }
  (* the loop of the other objects *)
  destruct (split_pass_spec uuid4 is_new_entity (stix2_get_entity_objects ci)
              other_type True False) with (objects := objects) (st := st2) (st' := st3)
    as (new3 & Hs3 & Hf3 & Hcov3 & Hfresh3 & _); try assumption.
  { intros item added Hsel. now apply (is_new_spec other_type) in Hsel as [_ Hsel]; apply Hsel. }
  { intros _ item added id Hsel. apply (is_new_spec other_type) in Hsel as [Hsel _].
    now apply Hsel. }
  { intros []. }
  { intros item objs Hin Hcl.
    destruct (entity_objects_shape _ ci Hci item objs Hcl) as (tl & -> & Htl).
    exists tl. split; [reflexivity|]. constructor; [now apply Hitem | exact Htl]. }
  { rewrite Hs2, Hf2, Hs1, Hf1. now rewrite flat_map_app. }
  assert (Hall : fst st3 = flat_map bundle_ids (snd st3)).
  { rewrite Hf3, Hs3, Hf2, Hs2, Hf1, Hs1. now rewrite !flat_map_app. }
  split; [|split].
  - intros item Hin.
    assert (Hid : exists id, getitem item "id" = Return id /\ py_in id (fst st3) = true).
    { destruct (foldM_each _ _ _ _ E3 item Hin) as (s1 & s2 & Hstep).
      inv_bind Hstep as selected Esel. unfold is_new_entity in Esel.
      inv_bind Esel as type Et.
      destruct (relationship_type type) eqn:Er.
      - destruct (Hcov2 item Hin) as (id & Eid & Hin2).
        { unfold type_is. now rewrite Et. }
        exists id. split; [exact Eid|]. rewrite Hf3, py_in_app, Hin2. reflexivity.
      - apply (Hcov3 item Hin). unfold type_is, other_type, py_ne. rewrite Et.
        unfold relationship_type in Er. now rewrite Er. }
    destruct Hid as (id & Eid & Hin3). exists id.
    rewrite Hall, py_in_flat_map in Hin3. apply existsb_exists in Hin3 as (b & Hb & Hb').
    exists b. repeat split; assumption.
  - intros earlier b later Hsplit Hcount.
    specialize (Hlen1 I). rewrite <- Hlen1 in Hcount.
    assert (Hfresh : seeds_fresh new1 (new2 ++ new3)).
    { apply seeds_fresh_app.
      - rewrite Hs1 in Hfresh2. exact (Hfresh2 I).
      - rewrite Hs2, Hs1 in Hfresh3. exact (Hfresh3 I). }
    rewrite Hs3, Hs2, Hs1, <- app_assoc in Hsplit.
    apply app_eq_app in Hsplit as (l & [[-> E] | [-> E]]).
    + destruct l as [|c l].
      * cbn in E. rewrite List.app_nil_r in Hfresh.
        destruct (Hfresh [] b later (eq_sym E)) as (seed & id & Hs & Hi & Hn).
        exists seed, id. split; [exact Hs|]. split; [exact Hi|].
        intros b' Hb'. rewrite List.app_nil_r, py_in_flat_map in Hn.
        destruct (py_in id (bundle_ids b')) eqn:Eb; [|reflexivity].
        rewrite <- Hn. symmetry. apply existsb_exists. now exists b'.
      * rewrite length_app in Hcount. cbn [List.length] in Hcount. lia.
    + destruct (Hfresh l b later E) as (seed & id & Hs & Hi & Hn).
      exists seed, id. split; [exact Hs|]. split; [exact Hi|].
      intros b' Hb'. rewrite py_in_flat_map in Hn.
      destruct (py_in id (bundle_ids b')) eqn:Eb; [|reflexivity].
      rewrite <- Hn. symmetry. apply existsb_exists. now exists b'.
  - exists ci. split; [exact Eci|].
    intros b seed x Hb Hseed Hx.
    destruct (split_pass_closures uuid4 is_report (stix2_get_report_objects ci)
                objects) with (st := ([] : list json, [] : list string)) (st' := st1)
      as (made1 & Hm1 & Hmade1); [|exact E1|].
    { intros item objs Hin Hcl.
      destruct (report_objects_shape _ ci Hci item objs (Hitem item Hin) Hcl)
        as (tl & -> & Htl).
      exists tl. split; [reflexivity|]. constructor; [now apply Hitem | exact Htl]. }
    destruct (split_pass_closures uuid4 is_new_relationship
                (stix2_get_relationship_objects ci) objects) with (st := st1) (st' := st2)
      as (made2 & Hm2 & Hmade2); [|exact E2|].
    { intros item objs _ Hcl.
      now apply (relationship_objects_raise _ ci Hci) in Hcl. }
    destruct (split_pass_closures uuid4 is_new_entity (stix2_get_entity_objects ci)
                objects) with (st := st2) (st' := st3)
      as (made3 & Hm3 & Hmade3); [|exact E3|].
    { intros item objs Hin Hcl.
      destruct (entity_objects_shape _ ci Hci item objs Hcl) as (tl & -> & Htl).
      exists tl. split; [reflexivity|]. constructor; [now apply Hitem | exact Htl]. }
    cbn [fst snd List.app] in Hm1.
    rewrite Hm3, Hm2, Hm1 in Hb. rewrite Forall_forall in Hmade1, Hmade2, Hmade3.
    apply in_app_or in Hb as [Hb|Hb]; [apply in_app_or in Hb as [Hb|Hb]|].
    + destruct (Hmade1 b Hb) as (item & added & objs & _ & _ & _ & Hcl & Hhd & Hids).
      rewrite Hhd in Hseed. injection Hseed as ->.
      apply Hids. exact (report_closure_members ci seed objs Hcl x Hx).
    + destruct (Hmade2 b Hb) as (item & added & objs & _ & _ & _ & Hcl & _).
      now apply (relationship_objects_raise _ ci Hci) in Hcl.
    + destruct (Hmade3 b Hb) as (item & added & objs & Hin & Hadded & Hsel & Hcl & Hhd & Hids).
      rewrite Hhd in Hseed. injection Hseed as ->.
      apply Hids. apply (entity_closure_members ci seed objs); [|exact Hcl|exact Hx].
      destruct (type_is report_type seed) eqn:Ht; [exfalso|reflexivity].
      destruct (Hcov1 seed Hin Ht) as (id & Eid & Hin1).
      apply (is_new_spec other_type) in Hsel as [Hsel _].
      specialize (Hsel eq_refl id Eid).
      rewrite Hadded in Hsel; [discriminate Hsel|].
      rewrite Hf2, py_in_app, Hin1. reflexivity.
Qed.

Lemma split_emits_every_object_witness :
  exists ci,
    build_index (bundle_objects (bundle_text shared_creator)) = Return ci
    /\ forall b seed x,
         In b shared_creator_split ->
         hd_error (bundle_objects b) = Some seed ->
         In x (closure_members ci seed) ->
         exists id, getitem x "id" = Return id /\ py_in id (bundle_ids b) = true.
Proof.
  exact (proj2 (proj2 (split_emits_every_object (fun _ => "0")
                         (bundle_text shared_creator) shared_creator_split
                         ltac:(vm_compute; reflexivity)))).
Defined.

(** *** The stream consumer, in general *)

Lemma get_state_readable (h : helper) (v : json) :
  get_state h = Some v -> wf_json v = true /\ nonempty_dict v = true.
Proof.
  unfold get_state. destruct (connector_state h) as [s|]; [|discriminate].
  destruct (negb _); [|discriminate].
  destruct (json_loads s) as [x|e] eqn:E; [|discriminate].
  destruct x as [ | | | | | [|m d]]; try discriminate.
  intros [= <-]. split; [exact (json_loads_wf _ _ E) | reflexivity].
Qed.

Lemma get_state_dict (h : helper) (v : json) :
  get_state h = Some v -> exists d, v = JObj d.
Proof.
  intros H. destruct (get_state_readable h v H) as [_ Hd].
  destruct v; try discriminate Hd. now eexists.
Qed.

Lemma dict_set_twice (k : string) (x y : json) (d : dict) :
  dict_set k y (dict_set k x d) = dict_set k y d.
Proof.
  induction d as [|[k' z] d IH]; cbn [dict_set].
  - now rewrite String.eqb_refl.
  - destruct (String.eqb k k') eqn:E; cbn [dict_set]; rewrite E; [reflexivity|].
    now rewrite IH.
Qed.

Lemma dict_set_nonempty (k : string) (x : json) (d : dict) :
  nonempty_dict (JObj (dict_set k x d)) = true.
Proof.
  destruct d as [|[k' z] d]; cbn; [reflexivity|]. now destruct (String.eqb k k').
Qed.

(** After [checkpoint], [get_state] returns the state with the new cursor. *)
Lemma checkpoint_read_back (id : string) (d : dict) (h : helper) (tr : list action) :
  get_state h = Some (JObj d) ->
  exists h',
    checkpoint id (mk_world h tr) = (mk_world h' tr, Return tt)
    /\ get_state h' = Some (JObj (dict_set "connectorLastEventId" (JStr id) d)).
Proof.
  intros H. rewrite (checkpoint_stored id d (mk_world h tr) H). cbn [w_helper w_trace].
  eexists. split; [reflexivity|].
  destruct (get_state_readable h _ H) as [Hwf _].
  rewrite get_state_set_state by (now apply dict_set_wf).
  now rewrite dict_set_nonempty.
Qed.

Lemma move_cursor_cons (msg : sse_event) (rest : list sse_event) (d : dict) :
  move_cursor (msg :: rest) d
  = move_cursor rest (match cursor_of msg with
                      | Some id => dict_set "connectorLastEventId" (JStr id) d
                      | None => d
                      end).
Proof.
  unfold move_cursor. cbn [last_cursor].
  destruct (last_cursor rest) as [id'|]; destruct (cursor_of msg) as [id|];
    try reflexivity.
  now rewrite dict_set_twice.
Qed.

Lemma checkpoint_if_id_read_back (msg : sse_event) (d : dict) (h : helper)
  (tr : list action) :
  is_keepalive msg = false ->
  get_state h = Some (JObj d) ->
  exists h',
    checkpoint_if_id msg (mk_world h tr) = (mk_world h' tr, Return tt)
    /\ get_state h'
       = Some (JObj (match cursor_of msg with
                     | Some id => dict_set "connectorLastEventId" (JStr id) d
                     | None => d
                     end)).
Proof.
  intros Hk H. unfold checkpoint_if_id, cursor_of. rewrite Hk.
  destruct (msg_id msg) as [id|].
  - now apply checkpoint_read_back.
  - now exists h.
Qed.

Lemma iter_messages_run callback (msgs : list sse_event) :
  (forall tr msg, In msg msgs -> callback tr msg = Return tt) ->
  forall h tr d,
    get_state h = Some (JObj d) ->
    exists h',
      iter_messages callback false msgs (mk_world h tr)
      = (mk_world h' (tr ++ map StreamCallback (filter is_data msgs)), Return tt)
      /\ get_state h' = Some (JObj (move_cursor msgs d)).
Proof.
  induction msgs as [|msg msgs IH]; intros Hcb h tr d Hst.
  - exists h. cbn. now rewrite List.app_nil_r.
  - assert (Hcb' : forall tr0 m, In m msgs -> callback tr0 m = Return tt).
    { intros tr0 m Hm. apply Hcb. now right. }
    rewrite move_cursor_cons. cbn [iter_messages filter].
    unfold is_data. fold (is_keepalive msg).
    destruct (is_keepalive msg) eqn:Hk; cbn [negb andb].
    + unfold cursor_of. rewrite Hk. now apply IH.
    + destruct (String.eqb (msg_event msg) "sync") eqn:Hs; cbn [negb].
      * destruct (checkpoint_if_id_read_back msg d h tr Hk Hst) as (h1 & E1 & Hst1).
        unfold pbind at 1. rewrite E1. now apply IH.
      * unfold pbind at 1. unfold call at 1. cbn [w_helper w_trace].
        rewrite (Hcb tr msg (or_introl eq_refl)).
        destruct (checkpoint_if_id_read_back msg d h (tr ++ [StreamCallback msg]) Hk Hst)
          as (h1 & E1 & Hst1).
        unfold pbind at 1. rewrite E1.
        destruct (IH Hcb' h1 (tr ++ [StreamCallback msg]) _ Hst1) as (h' & E & Hst').
        exists h'. rewrite E. cbn [map]. rewrite <- app_assoc. now split.
Qed.

Lemma init_state_read_back (start_timestamp : option string) (h : helper)
  (tr : list action) :
  exists h',
    init_state start_timestamp (mk_world h tr) = (mk_world h' tr, Return tt)
    /\ get_state h' = Some (JObj (stored_state start_timestamp h)).
Proof.
  unfold init_state, stored_state, start_cursor, pbind, read_helper.
  cbn [w_helper]. destruct (get_state h) as [v|] eqn:E.
  - exists h. destruct (get_state_dict h v E) as (d & ->). now split.
  - eexists. split; [reflexivity|]. now rewrite get_state_set_state.
Qed.

(** X11. With a callback that returns, [ListenStream.run] calls it with the
    messages that are neither keep-alives nor [sync], in their order and
    once each, and returns; the state then holds, as cursor, the id of the
    last message, keep-alives apart, that has one; the rest of the state is
    what was stored, or the start cursor alone when nothing readable was
    stored. *)
Theorem stream_run callback (start_timestamp : option string)
  (msgs : list sse_event) (h : helper) (tr : list action) :
  (forall tr' msg, In msg msgs -> callback tr' msg = Return tt) ->
  let out := ListenStream_run callback false start_timestamp msgs (mk_world h tr) in
  snd out = Return tt
  /\ w_trace (fst out) = tr ++ map StreamCallback (filter is_data msgs)
  /\ get_state (w_helper (fst out))
     = Some (JObj (move_cursor msgs (stored_state start_timestamp h))).
Proof.
  intros Hcb out.
  destruct (init_state_read_back start_timestamp h tr) as (h0 & E0 & H0).
  destruct (iter_messages_run callback msgs Hcb h0 tr _ H0) as (h' & E & H').
  assert (Hout : out = (mk_world h' (tr ++ map StreamCallback (filter is_data msgs)),
                        Return tt)).
  { subst out. unfold ListenStream_run, pbind. now rewrite E0. }
  rewrite Hout. cbn [fst snd w_trace w_helper]. now repeat split.
Qed.

Lemma stream_run_witness :
  let msgs := [mk_event (Some "10-0") "data" "created";
               mk_event None "heartbeat" EmptyString;
               mk_event (Some "12-0") "sync" EmptyString] in
  let out := ListenStream_run (fun _ _ => Return tt) false (Some "7") msgs
               (mk_world (mk_helper None JNull JNull) []) in
  w_trace (fst out) = [StreamCallback (mk_event (Some "10-0") "data" "created")]
  /\ get_state (w_helper (fst out)) = Some (cursor_state "12-0").
Proof.
  intros msgs out.
  destruct (stream_run (fun _ _ => Return tt) (Some "7") msgs
              (mk_helper None JNull JNull) [] (fun _ _ _ => eq_refl))
    as (_ & Htr & Hst).
  split; [exact Htr | exact Hst].
Defined.

Lemma iter_messages_app callback (exit : bool) (before after : list sse_event)
  (w : world) :
  iter_messages callback exit (before ++ after) w
  = pbind (iter_messages callback exit before)
      (fun _ => iter_messages callback exit after) w.
Proof.
  revert w. induction before as [|m before IH]; intros w; cbn [List.app iter_messages].
  - reflexivity.
  - destruct exit.
    + destruct after; reflexivity.
    + destruct (_ || _); [apply IH|].
      destruct (String.eqb _ _).
      * unfold pbind.
        destruct (checkpoint_if_id m w) as [w1 [[]|e]]; [|reflexivity].
        rewrite IH. reflexivity.
      * unfold pbind.
        destruct (call _ _ w) as [w1 [[]|e]]; [|reflexivity].
        destruct (checkpoint_if_id m w1) as [w2 [[]|e]]; [|reflexivity].
        rewrite IH. reflexivity.
Qed.

(** X12. When the callback raises on a message, the loop of
    [ListenStream.run] ends there with that exception: the messages after it
    are not read, and the state is the one left by the messages before it,
    so that the cursor has not moved to the message that failed. *)
Theorem stream_callback_failure callback (start_timestamp : option string)
  (before after : list sse_event) (msg : sse_event) (e : exn) (w w1 : world) :
  ListenStream_run callback false start_timestamp before w = (w1, Return tt) ->
  is_data msg = true ->
  callback (w_trace w1) msg = Raise e ->
  ListenStream_run callback false start_timestamp (before ++ msg :: after) w
  = (mk_world (w_helper w1) (w_trace w1 ++ [StreamCallback msg]), Raise e).
Proof.
  unfold ListenStream_run. intros Hrun Hdata Hcb.
  unfold pbind at 1 in Hrun. unfold pbind at 1.
  destruct (init_state start_timestamp w) as [w0 [[]|e0]]; [|discriminate Hrun].
  rewrite iter_messages_app. unfold pbind at 1. rewrite Hrun.
  cbn [iter_messages]. unfold is_data, is_keepalive in Hdata.
  apply andb_true_iff in Hdata as [Hk Hs].
  apply negb_true_iff in Hk. apply negb_true_iff in Hs. rewrite Hk, Hs.
  unfold pbind at 1. unfold call. now rewrite Hcb.
Qed.

Lemma stream_callback_failure_witness :
  let callback := fun (_ : list action) (m : sse_event) =>
                    if String.eqb (msg_data m) "bad"
                    then Raise (mk_exn ValueError "boom") else Return tt in
  let first := mk_event (Some "10-0") "data" "good" in
  let second := mk_event (Some "11-0") "data" "bad" in
  let third := mk_event (Some "12-0") "data" "good" in
  let out := ListenStream_run callback false None [first; second; third]
               (mk_world (mk_helper None JNull JNull) []) in
  snd out = Raise (mk_exn ValueError "boom")
  /\ w_trace (fst out) = [StreamCallback first; StreamCallback second]
  /\ get_state (w_helper (fst out)) = Some (cursor_state "10-0").
Proof.
  intros callback first second third out.
  pose proof (stream_callback_failure callback None [first] [third] second
                (mk_exn ValueError "boom")
                (mk_world (mk_helper None JNull JNull) [])
                (mk_world (set_state (cursor_state "10-0") (mk_helper None JNull JNull))
                   [StreamCallback first])
                ltac:(vm_compute; reflexivity) eq_refl eq_refl) as Hrun.
  change ([first] ++ second :: [third]) with [first; second; third] in Hrun.
  subst out. rewrite Hrun. vm_compute. repeat split.
Defined.

Lemma iter_messages_raise callback (exit : bool) (msgs : list sse_event) :
  forall h tr w' e d,
    get_state h = Some (JObj d) ->
    iter_messages callback exit msgs (mk_world h tr) = (w', Raise e) ->
    exists msg tr', In msg msgs /\ is_data msg = true /\ callback tr' msg = Raise e.
Proof.
  induction msgs as [|msg msgs IH]; intros h tr w' e d Hst H; cbn [iter_messages] in H.
  - discriminate H.
  - destruct exit; [discriminate H|].
    fold (is_keepalive msg) in H.
    destruct (is_keepalive msg) eqn:Hk.
    + destruct (IH _ _ _ _ _ Hst H) as (m & tr' & Hm & Hd & Hc).
      exists m, tr'. split; [now right | now split].
    + destruct (String.eqb (msg_event msg) "sync") eqn:Hs.
      * destruct (checkpoint_if_id_read_back msg d h tr Hk Hst) as (h1 & E1 & Hst1).
        unfold pbind at 1 in H. rewrite E1 in H.
        destruct (IH _ _ _ _ _ Hst1 H) as (m & tr' & Hm & Hd & Hc).
        exists m, tr'. split; [now right | now split].
      * unfold pbind at 1 in H. unfold call at 1 in H. cbn [w_helper w_trace] in H.
        destruct (callback tr msg) as [[]|e0] eqn:Ec.
        -- destruct (checkpoint_if_id_read_back msg d h (tr ++ [StreamCallback msg])
                       Hk Hst) as (h1 & E1 & Hst1).
           unfold pbind at 1 in H. rewrite E1 in H.
           destruct (IH _ _ _ _ _ Hst1 H) as (m & tr' & Hm & Hd & Hc).
           exists m, tr'. split; [now right | now split].
        -- injection H as _ <-. exists msg, tr. split; [now left|].
           split; [|exact Ec]. unfold is_data. now rewrite Hk, Hs.
Qed.

(** The first statements of [ListenStream.run] and its loop over the
    messages raise nothing of their own, as long as nothing else writes the
    state: an exception that leaves the loop is one that the callback has
    raised on a message it was handed. *)
Lemma stream_raises_from_callback callback (exit : bool)
  (start_timestamp : option string) (msgs : list sse_event) (w w' : world) (e : exn) :
  ListenStream_run callback exit start_timestamp msgs w = (w', Raise e) ->
  exists msg tr, In msg msgs /\ is_data msg = true /\ callback tr msg = Raise e.
Proof.
  unfold ListenStream_run. intros H. destruct w as [h tr].
  destruct (init_state_read_back start_timestamp h tr) as (h0 & E0 & H0).
  unfold pbind at 1 in H. rewrite E0 in H.
  exact (iter_messages_raise callback exit msgs _ _ _ _ _ H0 H).
Qed.

Lemma stream_raises_from_callback_witness :
  exists msg tr,
    In msg [mk_event (Some "11-0") "data" "bad"]
    /\ is_data msg = true
    /\ (fun (_ : list action) (_ : sse_event) => Raise (mk_exn ValueError "boom"))
         tr msg
       = @Raise unit (mk_exn ValueError "boom").
Proof.
  exact (stream_raises_from_callback
           (fun _ _ => Raise (mk_exn ValueError "boom")) false None
           [mk_event (Some "11-0") "data" "bad"]
           (mk_world (mk_helper None JNull JNull) [])
           (mk_world (set_state (cursor_state "-") (mk_helper None JNull JNull))
              [StreamCallback (mk_event (Some "11-0") "data" "bad")])
           (mk_exn ValueError "boom") ltac:(vm_compute; reflexivity)).
Defined.

(** *** The feed a stream is read from *)

Lemma extends_iter_messages callback (exit : bool) (msgs : list sse_event) :
  extends (iter_messages callback exit msgs).
Proof.
  induction msgs as [|msg msgs IH]; cbn [iter_messages].
  - apply extends_ret.
  - destruct exit; [apply extends_ret|].
    destruct (_ || _); [exact IH|].
    assert (Hc : extends (checkpoint_if_id msg)).
    { unfold checkpoint_if_id, checkpoint. destruct (msg_id msg); [|apply extends_ret].
      apply extends_pbind; [apply extends_read_helper|]. intros h.
      destruct (get_state h) as [[ | | | | | d]|];
        try apply extends_lift; apply extends_update_helper. }
    destruct (String.eqb _ _).
    + apply extends_pbind; [exact Hc | intros _; exact IH].
    + apply extends_pbind; [apply extends_call|]. intros _.
      apply extends_pbind; [exact Hc | intros _; exact IH].
Qed.

Ltac feed :=
  unfold pbind, lift, emit; cbn [w_helper w_trace];
  repeat match goal with
         | |- context [str_add ?a ?b] => destruct (str_add a b)
         | |- context [is_None ?v] => destruct (is_None v)
         end;
  try discriminate; cbn [String.append negb];
  repeat match goal with
         | |- context [match ?x with Return _ => _ | Raise _ => _ end] => destruct x
         end;
  reflexivity.

Section OpenStreamProperties.

Variables url token verify_ssl live_stream_id listen_delete no_dependencies : json.
Variables connect_live_stream_id opencti_url opencti_token opencti_ssl_verify
  connect_live_stream_listen_delete connect_live_stream_no_dependencies : json.
Variable start_timestamp : option string.
Variable py_str : json -> string.
Variable sse_client : string -> json -> json -> result (list sse_event).
Variable callback : list action -> sse_event -> result unit.
Variable exit : bool.

(** X13. Where the feed is taken up. When the state that [run] has read, or
    has just stored, holds a string cursor, [run] logs one line and goes on
    with a [SSEClient] on the address of that line, which is exactly the
    base, [/stream], the live stream if any, and the position: the events
    after the cursor, and at the cursor ["-"] of a first start no position
    for a live stream and position [0] for the global stream. The base, the
    token, the verification and the two flags are those of the
    [ListenStream] when it has an address and a token, those of the helper
    otherwise. *)
Theorem stream_resumes_at_cursor (h : helper) (tr : list action) (cursor : string) :
  (forall s, py_str (JStr s) = s) ->
  dict_get "connectorLastEventId" (stored_state start_timestamp h)
  = Some (JStr cursor) ->
  let remote := negb (is_None url) && negb (is_None token) in
  let stream_id :=
    if remote && negb (is_None live_stream_id) then live_stream_id
    else connect_live_stream_id in
  let address :=
    feed_address (py_str (if remote then url else opencti_url))
      (if is_None stream_id then None else Some (py_str stream_id)) cursor in
  let verify :=
    if remote then (if is_None verify_ssl then JBool true else verify_ssl)
    else opencti_ssl_verify in
  let on_delete :=
    if remote then listen_delete else connect_live_stream_listen_delete in
  let dependencies :=
    if remote then no_dependencies else connect_live_stream_no_dependencies in
  ListenStream_run_feed url token verify_ssl live_stream_id
    listen_delete no_dependencies connect_live_stream_id opencti_url
    opencti_token opencti_ssl_verify connect_live_stream_listen_delete
    connect_live_stream_no_dependencies start_timestamp py_str
    sse_client callback exit (mk_world h tr)
  = (authorization <~
       lift (str_add "Bearer " (if remote then token else opencti_token)) ;;
     messages <~
       lift (sse_client address
               (JObj [("authorization", JStr authorization);
                      ("listen-delete",
                       JStr (if is_False on_delete then "false" else "true"));
                      ("no-dependencies",
                       JStr (if is_True dependencies then "true" else "false"))])
               verify) ;;
     iter_messages callback exit messages)
      (mk_world
         match get_state h with
         | Some _ => h
         | None => set_state (JObj (stored_state start_timestamp h)) h
         end
         (tr ++ [LogInfo
                   ("Starting listening stream events (URL: " @@ address
                    @@ ", SSL verify: " @@ py_str verify
                    @@ ", Listen Delete: " @@ py_str on_delete
                    @@ (if remote then ")"
                        else ", No Dependencies: " @@ py_str dependencies @@ ")"))])).
Proof.
  intros Hstr Hcur remote stream_id address verify on_delete dependencies.
  set (cs := JObj (stored_state start_timestamp h)).
  assert (Hget : getitem cs "connectorLastEventId" = Return (JStr cursor)).
  { subst cs. cbn [getitem]. now rewrite Hcur. }
  assert (Hne : py_ne (JStr cursor) (JStr "-") = negb (String.eqb cursor "-")).
  { reflexivity. }
  assert (Hrun :
            ListenStream_run_feed url token verify_ssl live_stream_id
              listen_delete no_dependencies connect_live_stream_id opencti_url
              opencti_token opencti_ssl_verify connect_live_stream_listen_delete
              connect_live_stream_no_dependencies start_timestamp py_str
              sse_client callback exit (mk_world h tr)
            = (messages <~ open_stream url token verify_ssl live_stream_id
                             listen_delete no_dependencies connect_live_stream_id
                             opencti_url opencti_token opencti_ssl_verify
                             connect_live_stream_listen_delete
                             connect_live_stream_no_dependencies py_str sse_client cs ;;
               iter_messages callback exit messages)
                (mk_world
                   match get_state h with
                   | Some _ => h
                   | None => set_state (JObj (stored_state start_timestamp h)) h
                   end tr)).
  { subst cs. unfold ListenStream_run_feed, stored_state, start_cursor.
    unfold pbind, read_helper. cbn [w_helper].
    destruct (get_state h) as [v|] eqn:E.
    - destruct (get_state_dict h v E) as (d & ->). reflexivity.
    - reflexivity. }
  rewrite Hrun. clear Hrun.
  subst address verify on_delete dependencies stream_id.
  unfold open_stream, feed_address. fold remote.
  destruct remote; cbn [andb negb orb].
  - destruct (is_None live_stream_id) eqn:El; cbn [negb orb].
    + destruct (is_None connect_live_stream_id) eqn:Ec; cbn [negb].
      * unfold global_stream_from_of. rewrite Hget. cbn [bind]. rewrite Hne.
        destruct (String.eqb cursor "-"); cbn [negb bind]; rewrite ?Hget;
          cbn [bind str_add]; feed.
      * unfold live_stream_from_of. rewrite Hget. cbn [bind]. rewrite Hne.
        destruct (String.eqb cursor "-"); cbn [negb bind]; rewrite ?Hget;
          cbn [bind]; rewrite ?Hstr; feed.
    + unfold live_stream_from_of. rewrite Hget. cbn [bind]. rewrite Hne.
      destruct (String.eqb cursor "-"); cbn [negb bind]; rewrite ?Hget;
        cbn [bind]; rewrite ?Hstr; feed.
  - destruct (is_None connect_live_stream_id) eqn:Ec; cbn [negb].
    + unfold global_stream_from_of. rewrite Hget. cbn [bind]. rewrite Hne.
      destruct (String.eqb cursor "-"); cbn [negb bind]; rewrite ?Hget;
        cbn [bind str_add]; feed.
    + unfold live_stream_from_of. rewrite Hget. cbn [bind]. rewrite Hne.
      destruct (String.eqb cursor "-"); cbn [negb bind]; rewrite ?Hget;
        cbn [bind]; rewrite ?Hstr; feed.
Qed.


(** X14. A stored state that is readable but holds no
    [connectorLastEventId] makes [run] fail with the [KeyError] before the
    feed is opened: nothing is logged, and the callback is never called. *)
Theorem stream_state_without_cursor (h : helper) (tr : list action) (d : dict) :
  get_state h = Some (JObj d) ->
  dict_get "connectorLastEventId" d = None ->
  ListenStream_run_feed url token verify_ssl live_stream_id listen_delete
    no_dependencies connect_live_stream_id opencti_url opencti_token
    opencti_ssl_verify connect_live_stream_listen_delete
    connect_live_stream_no_dependencies start_timestamp py_str sse_client
    callback exit (mk_world h tr)
  = (mk_world h tr, Raise (key_error "connectorLastEventId")).
Proof.
  intros Hst Hd.
  unfold ListenStream_run_feed, pbind, read_helper. cbn [w_helper]. rewrite Hst.
  unfold ret, open_stream, live_stream_from_of, global_stream_from_of, pbind, lift.
  cbn [getitem]. rewrite Hd. cbn [bind].
  destruct (negb (is_None url) && negb (is_None token));
    destruct (negb (is_None live_stream_id) || negb (is_None connect_live_stream_id));
    destruct (negb (is_None connect_live_stream_id)); reflexivity.
Qed.

End OpenStreamProperties.

Lemma stream_resumes_at_cursor_witness :
  ListenStream_run_feed JNull JNull JNull JNull (JBool true) (JBool false)
    (JStr "live") (JStr "http://opencti:8080") (JStr "token") (JBool true)
    (JBool true) (JBool false) None
    (fun v => match v with
              | JStr s => s
              | JBool true => "True"
              | JBool false => "False"
              | _ => "None"
              end)
    (fun _ _ _ => Return []) (fun _ _ => Return tt) false
    (mk_world (mk_helper (Some (json_dumps (cursor_state "5-0"))) JNull JNull) [])
  = (mk_world (mk_helper (Some (json_dumps (cursor_state "5-0"))) JNull JNull)
       [LogInfo ("Starting listening stream events "
                 @@ "(URL: http://opencti:8080/stream/live?from=5-0, "
                 @@ "SSL verify: True, Listen Delete: True, No Dependencies: False)")],
     Return tt).
Proof.
  exact (stream_resumes_at_cursor JNull JNull JNull JNull (JBool true) (JBool false)
           (JStr "live") (JStr "http://opencti:8080") (JStr "token") (JBool true)
           (JBool true) (JBool false) None
           (fun v => match v with
                     | JStr s => s
                     | JBool true => "True"
                     | JBool false => "False"
                     | _ => "None"
                     end)
           (fun _ _ _ => Return []) (fun _ _ => Return tt) false
           (mk_helper (Some (json_dumps (cursor_state "5-0"))) JNull JNull) []
           "5-0" (fun _ => eq_refl) eq_refl).
Defined.

Lemma stream_state_without_cursor_witness :
  let w := mk_world (mk_helper (Some (json_dumps (JObj [("started", JBool true)]))) JNull JNull) [] in
  ListenStream_run_feed JNull JNull JNull JNull (JBool true) (JBool false)
    JNull (JStr "http://opencti:8080") (JStr "token") (JBool true)
    (JBool true) (JBool false) None (fun _ => "?")
    (fun _ _ _ => Return []) (fun _ _ => Return tt) false w
  = (w, Raise (key_error "connectorLastEventId")).
Proof.
  intros w.
  exact (stream_state_without_cursor JNull JNull JNull JNull (JBool true) (JBool false)
           JNull (JStr "http://opencti:8080") (JStr "token") (JBool true)
           (JBool true) (JBool false) None (fun _ => "?")
           (fun _ _ _ => Return []) (fun _ _ => Return tt) false
           (mk_helper (Some (json_dumps (JObj [("started", JBool true)]))) JNull JNull) []
           [("started", JBool true)] eq_refl eq_refl).
Defined.

(** *** The heartbeat, in general *)

Lemma remote_state_of_raises (cs : option string) (e : exn) :
  remote_state_of cs = Raise e -> is_Exception e = true.
Proof.
  unfold remote_state_of. destruct cs as [s|]; [|intros H; discriminate H].
  destruct (0 <? String.length s)%nat; [|intros H; discriminate H].
  unfold json_loads. destruct (scan_value _ _) as [[v rest]|]; [|now intros [= <-]].
  destruct (skip_ws rest); [discriminate | now intros [= <-]].
Qed.

(** X15. A turn of the heartbeat in which the ping fails with an
    [Exception], or in which the state sent back is not JSON, writes nothing
    to the local state, logs the failure once and raises the error flag. *)
Theorem ping_iteration_failure api_ping (in_error : bool) (w : world) (e : exn) :
  let initial_state := py_of_option (get_state (w_helper w)) in
  (api_ping (w_trace w) initial_state = Raise e /\ is_Exception e = true)
  \/ (exists cs, api_ping (w_trace w) initial_state = Return cs
                 /\ remote_state_of cs = Raise e) ->
  ping_iteration api_ping in_error w
  = (mk_world (w_helper w)
       (w_trace w ++ [ConnectorPing initial_state; LogError "Error pinging the API"]),
     Return true).
Proof.
  intros initial_state H. subst initial_state.
  unfold ping_iteration, try_except, pbind, read_helper, call, lift, emit, ret.
  cbn [w_helper w_trace fst snd].
  destruct H as [[Hp He] | (cs & Hp & Hr)]; rewrite Hp.
  - rewrite He. cbn [w_helper w_trace]. now rewrite <- app_assoc.
  - cbn [w_helper w_trace]. rewrite Hr, (remote_state_of_raises cs e Hr).
    cbn [w_helper w_trace]. now rewrite <- app_assoc.
Qed.

Lemma ping_iteration_failure_witness :
  ping_iteration (fun _ _ => Return (Some "{bad")) false
    (mk_world (mk_helper None JNull JNull) [])
  = (mk_world (mk_helper None JNull JNull)
       [ConnectorPing JNull; LogError "Error pinging the API"],
     Return true).
Proof.
  apply (ping_iteration_failure (fun _ _ => Return (Some "{bad")) false
           (mk_world (mk_helper None JNull JNull) []) json_decode_error).
  right. exists (Some "{bad"). split; reflexivity.
Defined.

(** X16. A turn of the heartbeat in which the ping is answered clears the
    error flag, with one log line when it was raised; the local state is
    written only when it differs from the one sent back, and what is then
    written is the JSON text of the text received, from which [get_state]
    reads no state: the line logged is [reset to: "None"]. *)
Theorem ping_iteration_answered api_ping (in_error : bool) (w : world)
  (cs : option string) (remote : json) :
  let initial_state := py_of_option (get_state (w_helper w)) in
  api_ping (w_trace w) initial_state = Return cs ->
  remote_state_of cs = Return remote ->
  ping_iteration api_ping in_error w
  = (mk_world
       (if py_ne initial_state remote
        then set_state (py_of_option_str cs) (w_helper w)
        else w_helper w)
       (w_trace w
        ++ [ConnectorPing initial_state]
        ++ (if py_ne initial_state remote then [LogStateReset None] else [])
        ++ (if in_error then [LogError "API Ping back to normal"] else [])),
     Return false).
Proof.
  intros initial_state Hp Hr. subst initial_state.
  unfold ping_iteration, try_except, pbind, read_helper, call, lift,
    update_helper, emit, ret.
  cbn [w_helper w_trace fst snd]. rewrite Hp, Hr.
  destruct (py_ne _ remote); cbn [w_helper w_trace fst snd];
    rewrite ?get_state_after_overwrite;
    destruct in_error; cbn [w_helper w_trace fst snd List.app];
    rewrite <- ?app_assoc, ?List.app_nil_r; reflexivity.
Qed.

Lemma ping_iteration_answered_witness :
  ping_iteration (fun _ _ => Return (Some (json_dumps (cursor_state "5-0")))) true
    (mk_world (mk_helper (Some (json_dumps (cursor_state "5-0"))) JNull JNull) [])
  = (mk_world (mk_helper (Some (json_dumps (cursor_state "5-0"))) JNull JNull)
       [ConnectorPing (cursor_state "5-0"); LogError "API Ping back to normal"],
     Return false).
Proof.
  exact (ping_iteration_answered
           (fun _ _ => Return (Some (json_dumps (cursor_state "5-0")))) true
           (mk_world (mk_helper (Some (json_dumps (cursor_state "5-0"))) JNull JNull) [])
           (Some (json_dumps (cursor_state "5-0"))) (cursor_state "5-0")
           eq_refl eq_refl).
Defined.

Lemma heartbeats_app (t1 t2 : list action) :
  heartbeats (t1 ++ t2) = heartbeats t1 ++ heartbeats t2.
Proof. apply flat_map_app. Qed.

Lemma ping_iteration_returns api_ping (in_error : bool) (w : world) :
  fails_with_exceptions api_ping ->
  exists w' b,
    ping_iteration api_ping in_error w = (w', Return b)
    /\ heartbeats (w_trace w')
       = heartbeats (w_trace w) ++ [py_of_option (get_state (w_helper w))].
Proof.
  intros Hapi.
  unfold ping_iteration, try_except, pbind, read_helper, call, lift,
    update_helper, emit, ret.
  cbn [w_helper w_trace fst snd].
  destruct (api_ping (w_trace w) (py_of_option (get_state (w_helper w))))
    as [cs|e] eqn:Hp.
  - destruct (remote_state_of cs) as [remote|e] eqn:Hr.
    + destruct (py_ne _ remote); destruct in_error;
        cbn [w_helper w_trace fst snd]; do 2 eexists;
        (split; [reflexivity|]); cbn [w_trace];
        rewrite !heartbeats_app; cbn; now rewrite ?List.app_nil_r.
    + rewrite (remote_state_of_raises cs e Hr). cbn [w_helper w_trace].
      do 2 eexists. split; [reflexivity|]. cbn [w_trace].
      rewrite !heartbeats_app. cbn. now rewrite List.app_nil_r.
  - rewrite (Hapi _ _ _ Hp). cbn [w_helper w_trace].
    do 2 eexists. split; [reflexivity|]. cbn [w_trace].
    rewrite !heartbeats_app. cbn. now rewrite List.app_nil_r.
Qed.

(** X17. As long as the control plane fails with instances of [Exception]
    only, the heartbeat loop never ends by an exception: every turn pings
    once, whatever the turns before it met. *)
Theorem ping_survives api_ping (turns : nat) (in_error : bool) (w : world) :
  fails_with_exceptions api_ping ->
  exists w' b,
    ping api_ping turns in_error w = (w', Return b)
    /\ List.length (heartbeats (w_trace w'))
       = List.length (heartbeats (w_trace w)) + turns.
Proof.
  intros Hapi. revert in_error w.
  induction turns as [|n IH]; intros in_error w; cbn [ping].
  - exists w, in_error. split; [reflexivity | lia].
  - destruct (ping_iteration_returns api_ping in_error w Hapi) as (w1 & b1 & E1 & H1).
    unfold pbind. rewrite E1.
    destruct (IH b1 w1) as (w' & b & E & H).
    exists w', b. split; [exact E|]. rewrite H, H1, length_app. cbn. lia.
Qed.

Lemma ping_survives_witness :
  exists w' b,
    ping (fun _ _ => Raise (mk_exn ValueError "unreachable")) 3 false
      (mk_world (mk_helper None JNull JNull) []) = (w', Return b)
    /\ List.length (heartbeats (w_trace w')) = 0 + 3.
Proof.
  apply (ping_survives (fun _ _ => Raise (mk_exn ValueError "unreachable")) 3 false
           (mk_world (mk_helper None JNull JNull) [])).
  intros tr st e [= <-]. reflexivity.
Defined.

Ltac beats :=
  repeat match goal with H : py_ne _ _ = _ |- _ => rewrite H; clear H end;
  rewrite !heartbeats_app; cbn; rewrite <- ?app_assoc; cbn; reflexivity.

(** X18. [force_ping] never writes the local state, whatever the control
    plane answers; it pings once, and a second time with the same state when
    the state sent back differs from the local one; an [Exception] is logged
    and not raised. *)
Theorem force_ping_keeps_state api_ping (w : world) :
  let initial_state := py_of_option (get_state (w_helper w)) in
  let out := force_ping api_ping w in
  w_helper (fst out) = w_helper w
  /\ (exists later,
        w_trace (fst out) = w_trace w ++ ConnectorPing initial_state :: later
        /\ (later = [] \/ later = [ConnectorPing initial_state]
            \/ later = [LogError "Error pinging the API"]
            \/ later = [ConnectorPing initial_state;
                        LogError "Error pinging the API"]))
  /\ (fails_with_exceptions api_ping -> snd out = Return tt)
  /\ (forall cs remote,
        api_ping (w_trace w) initial_state = Return cs ->
        remote_state_of cs = Return remote ->
        heartbeats (w_trace (fst out))
        = heartbeats (w_trace w) ++ initial_state
            :: (if py_ne initial_state remote then [initial_state] else [])).
Proof.
  intros initial_state out. subst initial_state out.
  unfold force_ping, try_except, pbind, read_helper, call, lift, emit, ret.
  cbn [w_helper w_trace fst snd].
  destruct (api_ping (w_trace w) (py_of_option (get_state (w_helper w))))
    as [cs|e] eqn:Hp.
  - destruct (remote_state_of cs) as [remote|e] eqn:Hr; cbn [w_helper w_trace fst snd].
    + destruct (py_ne _ remote) eqn:Hne; cbn [w_helper w_trace fst snd].
      * destruct (api_ping (w_trace w ++ _) _) as [cs2|e2] eqn:Hp2;
          cbn [w_helper w_trace fst snd].
        -- split; [reflexivity|]. split.
           { eexists. rewrite <- app_assoc. split; [reflexivity|]. right. now left. }
           split; [reflexivity|].
           intros cs0 remote0 [= <-] Hr0. rewrite Hr in Hr0. injection Hr0 as <-.
           beats.
        -- destruct (is_Exception e2) eqn:He2; cbn [w_helper w_trace fst snd].
           ++ split; [reflexivity|]. split.
              { eexists. rewrite <- !app_assoc. split; [reflexivity|].
                right. right. now right. }
              split; [reflexivity|].
              intros cs0 remote0 [= <-] Hr0. rewrite Hr in Hr0. injection Hr0 as <-.
              beats.
           ++ split; [reflexivity|]. split.
              { eexists. rewrite <- app_assoc. split; [reflexivity|]. right. now left. }
              split.
              { intros Hapi. rewrite (Hapi _ _ _ Hp2) in He2. discriminate He2. }
              intros cs0 remote0 [= <-] Hr0. rewrite Hr in Hr0. injection Hr0 as <-.
              beats.
      * split; [reflexivity|]. split.
        { eexists. split; [reflexivity|]. now left. }
        split; [reflexivity|].
        intros cs0 remote0 [= <-] Hr0. rewrite Hr in Hr0. injection Hr0 as <-.
        beats.
    + rewrite (remote_state_of_raises cs e Hr). cbn [w_helper w_trace fst snd].
      split; [reflexivity|]. split.
      { eexists. rewrite <- app_assoc. split; [reflexivity|]. right. right. now left. }
      split; [reflexivity|].
      intros cs0 remote0 [= <-] Hr0. rewrite Hr in Hr0. discriminate Hr0.
  - destruct (is_Exception e) eqn:He; cbn [w_helper w_trace fst snd].
    + split; [reflexivity|]. split.
      { eexists. rewrite <- app_assoc. split; [reflexivity|]. right. right. now left. }
      split; [reflexivity|]. intros cs0 remote0 Hp0. discriminate Hp0.
    + split; [reflexivity|]. split.
      { eexists. split; [reflexivity|]. now left. }
      split.
      { intros Hapi. rewrite (Hapi _ _ _ Hp) in He. discriminate He. }
      intros cs0 remote0 Hp0. discriminate Hp0.
Qed.

Lemma force_ping_keeps_state_witness :
  let api_ping := fun (_ : list action) (_ : json) =>
                    Return (Some (json_dumps (cursor_state "5-0"))) in
  let w := mk_world (mk_helper None JNull JNull) [] in
  heartbeats (w_trace (fst (force_ping api_ping w))) = [JNull; JNull]
  /\ snd (force_ping api_ping w) = Return tt.
Proof.
  intros api_ping w.
  destruct (force_ping_keeps_state api_ping w) as (_ & _ & Hret & Hbeats).
  split.
  - exact (Hbeats (Some (json_dumps (cursor_state "5-0"))) (cursor_state "5-0")
             eq_refl eq_refl).
  - apply Hret. intros tr st e H. discriminate H.
Defined.

(** *** The queue consumer, in general *)

Lemma data_handler_header api callback (json_data wid aid : json) (w : world) :
  message_header json_data = Return (wid, aid) ->
  (is_None aid = true \/ api (w_trace w) (SetApplicantIdHeader aid) = Return tt) ->
  _data_handler api callback json_data w
  = try_except
      (api_call api (ToReceived wid ready) ;;;
       event <~ lift (getitem json_data "event") ;;
       message <~ call (fun tr => callback tr event) (Callback event) ;;
       api_call api (ToProcessed wid message false))
      is_Exception
      (fun e =>
         emit (LogException "Error in message processing, reporting error to API") ;;;
         try_except
           (api_call api (ToProcessed wid (JStr (exn_msg e)) true))
           (fun _ => true)
           (fun _ => emit (LogError "Failing reporting the processing")))
      (mk_world (take_header wid aid (w_helper w)) (w_trace w ++ header_calls aid)).
Proof.
  unfold message_header. intros Hh Hapi.
  destruct (getitem json_data "internal") as [internal|] eqn:Ei; [|discriminate Hh].
  cbn [bind] in Hh.
  destruct (getitem internal "work_id") as [wid'|] eqn:Ew; [|discriminate Hh].
  cbn [bind] in Hh.
  destruct (getitem internal "applicant_id") as [aid'|] eqn:Ea; [|discriminate Hh].
  cbn [bind] in Hh. injection Hh as -> ->.
  unfold _data_handler, take_header, header_calls, try_except, pbind, lift,
    update_helper, ret, api_call, call, emit.
  rewrite Ei, Ew, Ea. cbn [w_helper w_trace connector_state work_id applicant_id].
  destruct (is_None aid) eqn:En; cbn [negb w_helper w_trace].
  - now rewrite List.app_nil_r.
  - destruct Hapi as [Hn | Hapi]; [discriminate Hn|].
    rewrite Hapi. reflexivity.
Qed.

(** X19. A message whose handling meets no failure: the helper takes the
    work and the applicant of the message, the applicant is sent as a header
    when there is one, and the control plane is told that the work is
    received, then, after the callback has returned, that it is processed
    with the message the callback returned. *)
Theorem data_handler_success api callback
  (json_data wid aid event message : json) (w : world) :
  message_header json_data = Return (wid, aid) ->
  getitem json_data "event" = Return event ->
  (forall tr a, api tr a = Return tt) ->
  (forall tr, callback tr event = Return message) ->
  _data_handler api callback json_data w
  = (mk_world (take_header wid aid (w_helper w))
       (w_trace w ++ header_calls aid
        ++ [ToReceived wid ready; Callback event; ToProcessed wid message false]),
     Return tt).
Proof.
  intros Hh Hev Hapi Hcb.
  rewrite (data_handler_header api callback json_data wid aid w Hh)
    by (right; apply Hapi).
  unfold try_except, pbind, api_call, call, lift.
  cbn [w_helper w_trace]. rewrite !Hapi, Hev, Hcb, Hapi. cbn [w_helper w_trace].
  now rewrite <- !app_assoc.
Qed.

Lemma data_handler_success_witness :
  let json_data :=
    JObj [("internal", JObj [("work_id", JStr "work--1");
                             ("applicant_id", JStr "user--1")]);
          ("event", JObj [("entity_id", JStr "report--R")])] in
  _data_handler (fun _ _ => Return tt) (fun _ _ => Return (JStr "done")) json_data
    (mk_world (mk_helper None JNull JNull) [])
  = (mk_world (mk_helper None (JStr "work--1") (JStr "user--1"))
       [SetApplicantIdHeader (JStr "user--1");
        ToReceived (JStr "work--1") ready;
        Callback (JObj [("entity_id", JStr "report--R")]);
        ToProcessed (JStr "work--1") (JStr "done") false],
     Return tt).
Proof.
  intros json_data.
  exact (data_handler_success (fun _ _ => Return tt) (fun _ _ => Return (JStr "done"))
           json_data (JStr "work--1") (JStr "user--1")
           (JObj [("entity_id", JStr "report--R")]) (JStr "done")
           (mk_world (mk_helper None JNull JNull) [])
           eq_refl eq_refl (fun _ _ => eq_refl) (fun _ => eq_refl)).
Defined.

(** X20. When the control plane refuses the work ([to_received] raises an
    [Exception]) the callback is not called: the failure is reported with
    [to_processed(work_id, str(e), True)], and the handler returns. The same
    holds of a message that has no ["event"]. *)
Theorem data_handler_not_received api callback
  (json_data wid aid : json) (e : exn) (w : world) :
  message_header json_data = Return (wid, aid) ->
  (is_None aid = true \/ api (w_trace w) (SetApplicantIdHeader aid) = Return tt) ->
  let received := w_trace w ++ header_calls aid ++ [ToReceived wid ready] in
  (api (w_trace w ++ header_calls aid) (ToReceived wid ready) = Raise e
   \/ (api (w_trace w ++ header_calls aid) (ToReceived wid ready) = Return tt
       /\ getitem json_data "event" = Raise e)) ->
  is_Exception e = true ->
  let out := _data_handler api callback json_data w in
  let logged :=
    received ++ [LogException "Error in message processing, reporting error to API"] in
  let report := ToProcessed wid (JStr (exn_msg e)) true in
  snd out = Return tt
  /\ w_trace (fst out)
     = logged ++ report ::
         match api logged report with
         | Return _ => []
         | Raise _ => [LogError "Failing reporting the processing"]
         end.
Proof.
  intros Hh Hhdr received Hfail Hexc out logged report.
  subst out logged report received.
  rewrite (data_handler_header api callback json_data wid aid w Hh Hhdr).
  unfold try_except, pbind, api_call, call, lift, emit.
  cbn [w_helper w_trace].
  clear Hhdr.
  destruct Hfail as [Hr | [Hr Hev]]; rewrite Hr; [|rewrite Hev];
    rewrite Hexc; cbn [w_helper w_trace fst snd];
    rewrite <- !app_assoc; cbn [List.app];
    match goal with
    | |- context [match ?x with Return _ => _ | Raise _ => _ end] =>
        destruct x as [[]|e2]
    end;
    cbn [fst snd w_trace];
    (split; [reflexivity|]); rewrite <- ?app_assoc; reflexivity.
Qed.

Lemma data_handler_not_received_witness :
  let api := fun (_ : list action) (a : action) =>
               match a with
               | ToReceived _ _ => Raise (mk_exn ValueError "no such work")
               | _ => Return tt
               end in
  let json_data :=
    JObj [("internal", JObj [("work_id", JStr "work--1"); ("applicant_id", JNull)]);
          ("event", JNull)] in
  let out := _data_handler api (fun _ _ => Return JNull) json_data
               (mk_world (mk_helper None JNull JNull) []) in
  snd out = Return tt
  /\ w_trace (fst out)
     = [ToReceived (JStr "work--1") ready;
        LogException "Error in message processing, reporting error to API";
        ToProcessed (JStr "work--1") (JStr "no such work") true].
Proof.
  intros api json_data.
  apply (data_handler_not_received api (fun _ _ => Return JNull) json_data
           (JStr "work--1") JNull (mk_exn ValueError "no such work")
           (mk_world (mk_helper None JNull JNull) []));
    try reflexivity.
  - left. reflexivity.
  - left. reflexivity.
Defined.

Lemma wait_thread_idle api (alive time_wait : nat) (w : world) :
  is_None (work_id (w_helper w)) = true \/ alive + time_wait <= 301 ->
  wait_thread api alive time_wait w = (w, Return tt).
Proof.
  revert time_wait. induction alive as [|n IH]; intros time_wait H;
    cbn [wait_thread]; [reflexivity|].
  unfold pbind, read_helper.
  assert (Hc : negb (is_None (work_id (w_helper w))) && (300 <? time_wait)%nat = false).
  { destruct H as [-> | H]; [reflexivity|].
    apply andb_false_iff. right. apply Nat.ltb_ge. lia. }
  rewrite Hc. apply IH. destruct H as [H | H]; [now left | right; lia].
Qed.

Lemma wait_thread_count api (alive : nat) :
  forall time_wait h tr,
    is_None (work_id h) = false ->
    (forall tr', api tr' (WorkPing (work_id h)) = Return tt) ->
    time_wait <= 301 ->
    wait_thread api alive time_wait (mk_world h tr)
    = (mk_world h (tr ++ repeat (WorkPing (work_id h)) ((alive + time_wait) / 302)),
       Return tt).
Proof.
  induction alive as [|n IH]; intros time_wait h tr Hw Hapi Htw; cbn [wait_thread].
  - rewrite Nat.div_small by lia. cbn. now rewrite List.app_nil_r.
  - unfold pbind at 1. unfold read_helper at 1. cbn [w_helper]. rewrite Hw. cbn [negb andb].
    destruct (300 <? time_wait)%nat eqn:Hlt.
    + apply Nat.ltb_lt in Hlt. assert (time_wait = 301) by lia. subst time_wait.
      unfold pbind at 1. unfold api_call at 1, call at 1. cbn [w_helper w_trace].
      rewrite Hapi. rewrite IH by (try assumption; lia).
      replace (S n + 301) with (n + 0 + 1 * 302) by lia.
      rewrite Nat.div_add by lia. rewrite !Nat.add_0_r.
      replace (n / 302 + 1) with (S (n / 302)) by lia. cbn [repeat].
      now rewrite <- app_assoc.
    + apply Nat.ltb_ge in Hlt. rewrite IH by (try assumption; lia).
      now replace (n + S time_wait) with (S n + time_wait) by lia.
Qed.

(** X21. While the worker runs, the main thread pings the work once in 302
    polls: 301 polls are counted before the first ping, and the count starts
    again after each ping. Without a work id nothing is pinged. *)
Theorem wait_thread_pings api (alive : nat) (h : helper) (tr : list action) :
  (forall tr', api tr' (WorkPing (work_id h)) = Return tt) ->
  wait_thread api alive 0 (mk_world h tr)
  = (mk_world h
       (tr ++ if is_None (work_id h) then []
              else repeat (WorkPing (work_id h)) (alive / 302)),
     Return tt).
Proof.
  intros Hapi. destruct (is_None (work_id h)) eqn:Hw.
  - rewrite wait_thread_idle by (now left). now rewrite List.app_nil_r.
  - rewrite wait_thread_count by (try assumption; lia). now rewrite Nat.add_0_r.
Qed.

Lemma wait_thread_pings_witness :
  wait_thread (fun _ _ => Return tt) 700 0
    (mk_world (mk_helper None (JStr "work--1") JNull) [])
  = (mk_world (mk_helper None (JStr "work--1") JNull)
       [WorkPing (JStr "work--1"); WorkPing (JStr "work--1")],
     Return tt).
Proof.
  exact (wait_thread_pings (fun _ _ => Return tt) 700
           (mk_helper None (JStr "work--1") JNull) [] (fun _ => eq_refl)).
Defined.

(** X22. A message that decodes but has no header ([internal], and in it
    [work_id] and [applicant_id]) is acknowledged and then lost: the worker
    ends on the [KeyError] before it has touched the helper or called the
    control plane, nothing is reported, and the main thread logs the message,
    named by its delivery tag, as processed. *)
Theorem headerless_message_dropped api callback (alive : nat) (delivery_tag : Z)
  (body : string) (json_data : json) (e : exn) (w : world) :
  json_loads body = Return json_data ->
  message_header json_data = Raise e ->
  api (w_trace w) (BasicAck delivery_tag) = Return tt ->
  is_None (work_id (w_helper w)) = true \/ alive <= 301 ->
  _process_message api callback alive delivery_tag body w
  = (mk_world (w_helper w)
       (w_trace w ++ [BasicAck delivery_tag;
                      LogInfo ("Message (delivery_tag=" @@ json_dumps (JInt delivery_tag)
                               @@ ") processed, thread terminated")]),
     Return tt).
Proof.
  intros Hd Hh Hack Hidle.
  assert (Hworker : forall w0, _data_handler api callback json_data w0 = (w0, Raise e)).
  { intros w0. unfold message_header in Hh. unfold _data_handler.
    unfold pbind at 1. unfold lift at 1.
    destruct (getitem json_data "internal") as [internal|e1]; [|now injection Hh as ->].
    cbn [bind] in Hh. unfold pbind at 1. unfold lift at 1.
    destruct (getitem internal "work_id") as [wid|e1]; [|now injection Hh as ->].
    cbn [bind] in Hh. unfold pbind at 1. unfold lift at 1.
    unfold pbind at 1. unfold lift at 1.
    destruct (getitem internal "applicant_id") as [aid|e1]; [discriminate Hh|].
    now injection Hh as ->. }
  unfold _process_message.
  unfold pbind at 1. unfold lift at 1. rewrite Hd.
  unfold pbind at 1. unfold api_call at 1, call at 1. rewrite Hack.
  unfold pbind at 1. unfold thread_start. rewrite Hworker. cbn [fst].
  unfold pbind at 1. rewrite wait_thread_idle.
  - unfold emit. cbn [w_helper w_trace]. now rewrite <- app_assoc.
  - cbn [w_helper]. destruct Hidle as [H | H]; [now left | right; lia].
Qed.

Lemma headerless_message_dropped_witness :
  _process_message (fun _ _ => Return tt) (fun _ _ => Return JNull) 5 7
    "{}" (mk_world (mk_helper None JNull JNull) [])
  = (mk_world (mk_helper None JNull JNull)
       [BasicAck 7; LogInfo "Message (delivery_tag=7) processed, thread terminated"],
     Return tt).
Proof.
  apply (headerless_message_dropped (fun _ _ => Return tt) (fun _ _ => Return JNull)
           5 7%Z "{}" (JObj []) (key_error "internal")
           (mk_world (mk_helper None JNull JNull) []));
    try reflexivity.
  left. reflexivity.
Defined.

(** *** Sending a bundle *)

Section PushProperties.

Variable h : helper.
Variable connector_id : string.
Variable config : json.
Variable py_str : json -> string.
Variable b64encode : string -> string.
Variable split_bundle : string -> json -> result (list string).
Variable api : list push_action -> push_action -> result unit.
Variable publish : list push_action -> push_action -> delivery.

(** X23. With [connect_validate_before_import] set and validation not
    bypassed, a bundle that has a file name, given or made from the work id,
    is uploaded as a pending file and nothing else happens: nothing is
    split or published, and the list returned is empty. A bundle that has
    neither a file name nor a work id is not validated: it is sent as it is
    when validation is off. *)
Theorem send_pending_file (validate : json) (depth : nat) (bundle : string)
  (kwargs : dict) (tr : list push_action) :
  py_truthy validate = true ->
  py_truthy (kwargs_get kwargs "bypass_validation" (JBool false)) = false ->
  let work_id := kwargs_get kwargs "work_id" (work_id h) in
  let file_name := kwargs_get kwargs "file_name" JNull in
  (py_truthy file_name || py_truthy work_id = true ->
   let upload :=
     UploadPendingFile
       (if py_truthy file_name then file_name else JStr (py_str work_id @@ ".json"))
       bundle (kwargs_get kwargs "entity_id" JNull) in
   send_stix2_bundle h connector_id config validate py_str b64encode split_bundle
       api publish depth bundle kwargs tr
   = (tr ++ [upload],
      Some (match api tr upload with
            | Return _ => Return []
            | Raise e => Raise e
            end)))
  /\ (py_truthy file_name || py_truthy work_id = false ->
      send_stix2_bundle h connector_id config validate py_str b64encode split_bundle
       api publish depth bundle kwargs tr
      = send_stix2_bundle h connector_id config (JBool false) py_str b64encode split_bundle
       api publish depth bundle kwargs tr).
Proof.
  intros Hv Hb work_id file_name. subst work_id file_name.
  unfold send_stix2_bundle, pending_file_name. rewrite Hv, Hb.
  cbn [negb andb py_truthy]. split.
  - intros H. destruct (py_truthy (kwargs_get kwargs "file_name" JNull)) eqn:Ef;
      cbn [negb andb orb] in *.
    + rewrite Ef. unfold push_bind, push_call, push_ret.
      now destruct (api tr _) as [[]|e].
    + rewrite H.
      assert (Hn : py_truthy (JStr (py_str (kwargs_get kwargs "work_id" (work_id h))
                                    @@ ".json")) = true).
      { cbn [py_truthy]. destruct (py_str _); reflexivity. }
      rewrite Hn. unfold push_bind, push_call, push_ret.
      now destruct (api tr _) as [[]|e].
  - intros H. apply orb_false_iff in H as [Hf Hw]. rewrite Hf, Hw.
    cbn [negb andb]. rewrite Hf. reflexivity.
Qed.

Lemma send_bundle_delivered (depth : nat) (bundle : string) (kwargs : dict)
  (exchange : json) (tr : list push_action) :
  getitem config "push_exchange" = Return exchange ->
  (forall tr' a, publish tr' a = Delivered) ->
  _send_bundle h connector_id config b64encode publish (S depth) bundle kwargs tr
  = (tr ++ [BasicPublish exchange ("push_routing_" @@ connector_id)
              (json_dumps (JObj (push_message h b64encode kwargs bundle)));
            LogBundleSent],
     Some (Return tt)).
Proof.
  intros He Hp. cbn [_send_bundle]. unfold push_bind, push_lift. rewrite He, Hp.
  unfold push_log. now rewrite <- app_assoc.
Qed.

Lemma push_for_delivered (depth : nat) (kwargs : dict) (exchange : json)
  (numbered : list (Z * string)) :
  getitem config "push_exchange" = Return exchange ->
  (forall tr' a, publish tr' a = Delivered) ->
  forall tr,
    push_for (fun '(sequence, bundle) =>
                _send_bundle h connector_id config b64encode publish (S depth) bundle
                  (sequence_kwargs h kwargs sequence))
             numbered tr
    = (tr ++ flat_map (fun nb => [publication h connector_id b64encode exchange kwargs nb; LogBundleSent])
                      numbered,
       Some (Return tt)).
Proof.
  intros He Hp. induction numbered as [|[i b] numbered IH]; intros tr;
    cbn [push_for flat_map].
  - unfold push_ret. now rewrite List.app_nil_r.
  - unfold push_bind at 1. rewrite (send_bundle_delivered _ _ _ exchange) by assumption.
    rewrite IH. now rewrite <- app_assoc.
Qed.

(** X24. When nothing is to be validated and nothing fails, a bundle that
    is split into [n] sub-bundles is sent as follows: the work, if there is
    one, is told to expect [n]; the connection and the channel are opened;
    the sub-bundles are published in their order, each once, with
    [action_sequence] 1, 2, ... [n]; the channel is closed; and the
    sub-bundles are returned. *)
Theorem send_publishes_in_sequence (validate : json) (depth : nat)
  (bundle : string) (kwargs : dict) (tr : list push_action)
  (bundles : list string) (conn exchange user pass host port use_ssl : json) :
  py_truthy validate
  && negb (py_truthy (kwargs_get kwargs "bypass_validation" (JBool false)))
  && py_truthy (pending_file_name h py_str kwargs) = false ->
  (if py_truthy (kwargs_get kwargs "bypass_split" (JBool false))
   then Return [bundle]
   else split_bundle bundle (kwargs_get kwargs "event_version" JNull))
  = Return bundles ->
  bundles <> [] ->
  getitem config "connection" = Return conn ->
  getitem conn "user" = Return user ->
  getitem conn "pass" = Return pass ->
  getitem conn "host" = Return host ->
  getitem conn "port" = Return port ->
  getitem conn "use_ssl" = Return use_ssl ->
  getitem config "push_exchange" = Return exchange ->
  (forall tr' a, api tr' a = Return tt) ->
  (forall tr' a, publish tr' a = Delivered) ->
  let work_id := kwargs_get kwargs "work_id" (work_id h) in
  send_stix2_bundle h connector_id config validate py_str b64encode split_bundle
       api publish (S depth) bundle kwargs tr
  = (tr
     ++ (if py_truthy work_id then [AddExpectations work_id (List.length bundles)]
         else [])
     ++ [OpenConnection host port user pass (py_truthy use_ssl); OpenChannel]
     ++ flat_map (fun nb => [publication h connector_id b64encode exchange kwargs nb; LogBundleSent])
                 (enumerate 1 bundles)
     ++ [CloseChannel],
     Some (Return bundles)).
Proof.
  intros Hpend Hsplit Hne Hconn Huser Hpass Hhost Hport Hssl Hex Hapi Hpub work_id.
  subst work_id. unfold send_stix2_bundle. rewrite Hpend.
  assert (Hb : (if py_truthy (kwargs_get kwargs "bypass_split" (JBool false))
                then push_ret [bundle]
                else push_lift (split_bundle bundle
                                  (kwargs_get kwargs "event_version" JNull)))
               = push_lift (Return bundles)).
  { destruct (py_truthy (kwargs_get kwargs "bypass_split" (JBool false)));
      [injection Hsplit as <- | rewrite Hsplit]; reflexivity. }
  rewrite Hb. unfold push_bind at 1. unfold push_lift at 1.
  destruct bundles as [|b0 bundles]; [now contradiction Hne|].
  cbn [List.length Nat.eqb].
  unfold connection. rewrite Hconn. cbn [bind]. rewrite Huser, Hpass, Hhost, Hport, Hssl.
  set (expect := if py_truthy (kwargs_get kwargs "work_id" (work_id h))
                 then [AddExpectations (kwargs_get kwargs "work_id" (work_id h))
                         (S (List.length bundles))]
                 else []).
  unfold push_bind at 1.
  assert (He : (if py_truthy (kwargs_get kwargs "work_id" (work_id h))
                then push_call api
                       (AddExpectations (kwargs_get kwargs "work_id" (work_id h))
                          (S (List.length bundles)))
                else push_ret tt) tr
               = (tr ++ expect, Some (Return tt))).
  { subst expect. destruct (py_truthy (kwargs_get kwargs "work_id" (work_id h))).
    - unfold push_call. now rewrite Hapi.
    - unfold push_ret. now rewrite List.app_nil_r. }
  rewrite He.
  unfold push_bind at 1. unfold push_lift at 1.
  unfold push_bind at 1. unfold push_lift at 1.
  unfold push_bind at 1. unfold push_lift at 1.
  unfold push_bind at 1. unfold push_lift at 1.
  unfold push_bind at 1. unfold push_lift at 1.
  unfold push_bind at 1.
  assert (Hs : (if py_truthy use_ssl
                then push_lift (Return host) ;;;; push_ret tt
                else push_ret tt) (tr ++ expect)
               = (tr ++ expect, Some (Return tt))).
  { now destruct (py_truthy use_ssl). }
  rewrite Hs.
  unfold push_bind at 1. unfold push_call at 1. rewrite Hapi.
  unfold push_bind at 1. unfold push_call at 1. rewrite Hapi.
  unfold push_bind at 1.
  fold (sequence_kwargs h kwargs).
  rewrite (push_for_delivered depth kwargs exchange (enumerate 1 (b0 :: bundles)) Hex Hpub).
  unfold push_bind at 1. unfold push_call at 1. rewrite Hapi.
  unfold push_ret. rewrite <- !app_assoc. reflexivity.
Qed.


(** Before anything is sent: when the splitter raises, or returns no
    sub-bundle, [send_stix2_bundle] raises, the splitter's exception or
    [ValueError('Nothing to import')], and nothing has been sent, neither to
    the control plane nor to the broker. *)
Lemma send_fails_before_sending (validate : json) (depth : nat)
  (bundle : string) (kwargs : dict) (tr : list push_action) :
  py_truthy validate
  && negb (py_truthy (kwargs_get kwargs "bypass_validation" (JBool false)))
  && py_truthy (pending_file_name h py_str kwargs) = false ->
  py_truthy (kwargs_get kwargs "bypass_split" (JBool false)) = false ->
  let split := split_bundle bundle (kwargs_get kwargs "event_version" JNull) in
  (split = Return [] ->
   send_stix2_bundle h connector_id config validate py_str b64encode split_bundle
     api publish depth bundle kwargs tr
   = (tr, Some (Raise (mk_exn ValueError "Nothing to import"))))
  /\ (forall e, split = Raise e ->
        send_stix2_bundle h connector_id config validate py_str b64encode split_bundle
          api publish depth bundle kwargs tr
        = (tr, Some (Raise e))).
Proof.
  intros Hpend Hbypass split. subst split.
  unfold send_stix2_bundle. rewrite Hpend, Hbypass. unfold push_bind, push_lift.
  split; [intros -> | intros e ->]; reflexivity.
Qed.

Lemma send_bundle_refused (bundle : string) (kwargs : dict) (exchange : json)
  (k : nat) :
  getitem config "push_exchange" = Return exchange ->
  let a := BasicPublish exchange ("push_routing_" @@ connector_id)
             (json_dumps (JObj (push_message h b64encode kwargs bundle))) in
  forall depth tr,
    (forall i, i < k -> publish (tr ++ refused a i) a = Refused) ->
    _send_bundle h connector_id config b64encode publish (k + depth) bundle kwargs tr
    = _send_bundle h connector_id config b64encode publish depth bundle kwargs
        (tr ++ refused a k).
Proof.
  intros He a. induction k as [|k IH]; intros depth tr Href.
  - cbn [refused Nat.add]. now rewrite List.app_nil_r.
  - cbn [Nat.add _send_bundle]. unfold push_bind at 1. unfold push_lift at 1.
    rewrite He. fold a.
    pose proof (Href 0 ltac:(lia)) as H0. cbn [refused] in H0.
    rewrite List.app_nil_r in H0. rewrite H0.
    unfold push_bind at 1. unfold push_log at 1.
    rewrite IH.
    + rewrite <- !app_assoc. reflexivity.
    + intros i Hi. rewrite <- !app_assoc. cbn [List.app].
      apply (Href (S i)). lia.
Qed.

(** X25. [_send_bundle] publishes the same message again each time the
    broker refuses it ([UnroutableError] or [NackError]), at once and
    without a bound of its own: after [k] refusals and one acceptance the
    message has been published [k + 1] times and the call returns; as long
    as the broker refuses, the call does not return. *)
Theorem send_bundle_retries (depth : nat) (bundle : string) (kwargs : dict)
  (exchange : json) (k : nat) (tr : list push_action) :
  getitem config "push_exchange" = Return exchange ->
  let a := BasicPublish exchange ("push_routing_" @@ connector_id)
             (json_dumps (JObj (push_message h b64encode kwargs bundle))) in
  (forall i, i < k -> publish (tr ++ refused a i) a = Refused) ->
  (publish (tr ++ refused a k) a = Delivered ->
   k < depth ->
   _send_bundle h connector_id config b64encode publish depth bundle kwargs tr
   = (tr ++ refused a k ++ [a; LogBundleSent], Some (Return tt)))
  /\ (depth <= k ->
      _send_bundle h connector_id config b64encode publish depth bundle kwargs tr
      = (tr ++ refused a depth, None)).
Proof.
  intros He a Href. split.
  - intros Hd Hk.
    replace depth with (k + S (depth - S k)) by lia.
    rewrite (send_bundle_refused bundle kwargs exchange k He) by exact Href.
    cbn [_send_bundle]. unfold push_bind, push_lift. rewrite He. fold a.
    rewrite Hd. unfold push_log. now rewrite <- !app_assoc.
  - intros Hk.
    replace depth with (depth + 0) at 1 by lia.
    rewrite (send_bundle_refused bundle kwargs exchange depth He).
    + reflexivity.
    + intros i Hi. apply Href. lia.
Qed.

End PushProperties.

Lemma send_pending_file_witness :
  send_stix2_bundle (mk_helper None (JStr "work--1") JNull) "connector--1" JNull
    (JBool true) (fun _ => "work--1") (fun s => s) (fun _ _ => Return [])
    (fun _ _ => Return tt) (fun _ _ => Delivered) 1 "{}" [] []
  = ([UploadPendingFile (JStr "work--1.json") "{}" JNull], Some (Return [])).
Proof.
  exact (proj1 (send_pending_file (mk_helper None (JStr "work--1") JNull)
                  "connector--1" JNull (fun _ => "work--1") (fun s => s)
                  (fun _ _ => Return []) (fun _ _ => Return tt) (fun _ _ => Delivered)
                  (JBool true) 1 "{}" [] [] eq_refl eq_refl) eq_refl).
Defined.


Lemma send_publishes_in_sequence_witness :
  let h := mk_helper None (JStr "work--1") JNull in
  let config :=
    JObj [("connection",
           JObj [("host", JStr "broker"); ("port", JInt 5672); ("use_ssl", JBool false);
                 ("user", JStr "guest"); ("pass", JStr "guest")]);
          ("push_exchange", JStr "amqp.worker.exchange")] in
  let out :=
    send_stix2_bundle h "connector--1" config (JBool false) (fun _ => "work--1")
      (fun s => s) (fun _ _ => Return ["first"; "second"])
      (fun _ _ => Return tt) (fun _ _ => Delivered) 1 "{}" [] [] in
  snd out = Some (Return ["first"; "second"])
  /\ map (fun a => match a with
                   | BasicPublish _ _ body =>
                       match json_loads body with
                       | Return message => getitem message "action_sequence"
                       | Raise e => Raise e
                       end
                   | _ => Return JNull
                   end)
         (filter is_publish (fst out))
     = [Return (JInt 1); Return (JInt 2)].
Proof.
  intros h config out. subst out.
  rewrite (send_publishes_in_sequence h "connector--1" config (fun _ => "work--1")
             (fun s => s) (fun _ _ => Return ["first"; "second"])
             (fun _ _ => Return tt) (fun _ _ => Delivered)
             (JBool false) 0 "{}" [] [] ["first"; "second"]
             (JObj [("host", JStr "broker"); ("port", JInt 5672);
                    ("use_ssl", JBool false);
                    ("user", JStr "guest"); ("pass", JStr "guest")])
             (JStr "amqp.worker.exchange") (JStr "guest") (JStr "guest")
             (JStr "broker") (JInt 5672) (JBool false)
             eq_refl eq_refl ltac:(discriminate) eq_refl eq_refl eq_refl eq_refl
             eq_refl eq_refl eq_refl (fun _ _ => eq_refl) (fun _ _ => eq_refl)).
  vm_compute. split; reflexivity.
Defined.

Lemma send_fails_before_sending_witness :
  send_stix2_bundle (mk_helper None JNull JNull) "connector--1" JNull (JBool true)
    (fun _ => EmptyString) (fun s => s) (fun _ _ => Return [])
    (fun _ _ => Return tt) (fun _ _ => Delivered) 1 "{}" [] []
  = ([], Some (Raise (mk_exn ValueError "Nothing to import"))).
Proof.
  exact (proj1 (send_fails_before_sending (mk_helper None JNull JNull)
                  "connector--1" JNull (fun _ => EmptyString) (fun s => s)
                  (fun _ _ => Return []) (fun _ _ => Return tt) (fun _ _ => Delivered)
                  (JBool true) 1 "{}" [] [] eq_refl eq_refl) eq_refl).
Defined.

Lemma send_bundle_retries_witness :
  let config := JObj [("push_exchange", JStr "amqp.worker.exchange")] in
  let publish := fun (tr : list push_action) (_ : push_action) =>
                   if (List.length tr <? 4)%nat then Refused else Delivered in
  let out := _send_bundle (mk_helper None JNull JNull) "connector--1" config
               (fun s => s) publish 5 "{}" [] [] in
  snd out = Some (Return tt)
  /\ List.length (filter is_publish (fst out)) = 3.
Proof.
  intros config publish out. subst out.
  rewrite (proj1 (send_bundle_retries (mk_helper None JNull JNull) "connector--1"
                    config (fun s => s) publish 5 "{}" [] (JStr "amqp.worker.exchange")
                    2 [] eq_refl
                    ltac:(intros [|[|i]] Hi; [reflexivity | reflexivity | lia]))
             eq_refl ltac:(lia)).
  vm_compute. split; reflexivity.
Defined.

(** *** The configuration and the observable types *)

(** X26. [get_config_variable] reads the environment first, and then does
    not touch the configuration; a value found, in the environment or in the
    configuration, that is one of [yes], [true], [True], [no], [false],
    [False] comes back as a boolean, even when a number is asked for; so
    that one of these six words is returned only as the default, which is
    returned as it is when nothing is found. *)
Theorem get_config_variable_flags getenv py_int (env_var : string)
  (yaml_path : option (string * string)) (config isNumber default : json) :
  (forall value, getenv env_var = Some value ->
     get_config_variable getenv py_int env_var yaml_path config isNumber default
     = get_config_variable getenv py_int env_var None JNull isNumber JNull)
  /\ (forall value, getenv env_var = Some value ->
        py_in (JStr value) TRUTHY = true ->
        get_config_variable getenv py_int env_var yaml_path config isNumber default
        = Return (JBool true))
  /\ (forall r,
        get_config_variable getenv py_int env_var yaml_path config isNumber default
        = Return r ->
        flag_word r = true ->
        getenv env_var = None /\ r = default).
Proof.
  unfold get_config_variable. repeat split.
  - intros value ->. reflexivity.
  - intros value -> Ht. cbn [bind]. now rewrite Ht.
  - destruct (getenv env_var) as [value|]; [|reflexivity].
    exfalso. cbn [bind] in H.
    unfold flag_word in H0. rewrite py_in_app in H0.
    destruct (py_in (JStr value) TRUTHY) eqn:Et; [now injection H as <-|].
    destruct (py_in (JStr value) FALSY) eqn:Ef; [now injection H as <-|].
    destruct (py_truthy isNumber).
    + destruct (py_int (JStr value)); [|discriminate H]. now injection H as <-.
    + injection H as <-. now rewrite Et, Ef in H0.
  - destruct (getenv env_var) as [value|] eqn:Eg.
    + exfalso. cbn [bind] in H.
      unfold flag_word in H0. rewrite py_in_app in H0.
      destruct (py_in (JStr value) TRUTHY) eqn:Et; [now injection H as <-|].
      destruct (py_in (JStr value) FALSY) eqn:Ef; [now injection H as <-|].
      destruct (py_truthy isNumber).
      * destruct (py_int (JStr value)); [|discriminate H]. now injection H as <-.
      * injection H as <-. now rewrite Et, Ef in H0.
    + apply bind_Return in H as (found & Efound & H).
      destruct found as [result|]; [|now injection H as <-].
      exfalso. unfold flag_word in H0. rewrite py_in_app in H0.
      destruct (py_in result TRUTHY) eqn:Et; [now injection H as <-|].
      destruct (py_in result FALSY) eqn:Ef; [now injection H as <-|].
      destruct (py_truthy isNumber).
      * destruct (py_int result); [|discriminate H]. now injection H as <-.
      * injection H as <-. now rewrite Et, Ef in H0.
Qed.

Lemma get_config_variable_flags_witness :
  get_config_variable (fun _ => Some "yes") (fun _ => Raise (mk_exn ValueError "int"))
    "CONNECTOR_CONFIDENCE_LEVEL" (Some ("connector", "confidence_level")) JNull
    (JBool true) (JInt 15)
  = Return (JBool true).
Proof.
  exact (proj1 (proj2 (get_config_variable_flags (fun _ => Some "yes")
                         (fun _ => Raise (mk_exn ValueError "int"))
                         "CONNECTOR_CONFIDENCE_LEVEL"
                         (Some ("connector", "confidence_level")) JNull
                         (JBool true) (JInt 15)))
           "yes" eq_refl eq_refl).
Defined.

Lemma lookup_str_Forall {A : Type} (P : string -> A -> Prop) (d : list (string * A))
  (k : string) (v : A) :
  Forall (fun kv => P (fst kv) (snd kv)) d -> lookup_str k d = Some v -> P k v.
Proof.
  induction 1 as [|[k' v'] d Hkv Hd IH]; cbn [lookup_str]; [discriminate|].
  destruct (String.eqb k k') eqn:E; [|exact IH].
  apply String.eqb_eq in E. subst k'. now intros [= <-].
Qed.

(** X27. [stix_observable_opencti_type] answers ["Unknown"] for the types
    that are not in its table and for them only; and the OpenCTI type of a
    STIX type of the table is that type again once put in lower case, but
    for [file], whose OpenCTI type is [StixFile]: no two STIX types have the
    same OpenCTI type. *)
Theorem observable_type_round_trip (observable_type : string) :
  (stix_observable_opencti_type observable_type = "Unknown"
   <-> lookup_str observable_type STIX_CYBER_OBSERVABLE_MAPPING = None)
  /\ (stix_observable_opencti_type observable_type <> "Unknown" ->
      observable_type <> "file" ->
      py_lower (stix_observable_opencti_type observable_type) = observable_type)
  /\ (forall other,
        stix_observable_opencti_type observable_type <> "Unknown" ->
        stix_observable_opencti_type other
        = stix_observable_opencti_type observable_type ->
        other = observable_type).
Proof.
  assert (Hlow : forall t ty,
            lookup_str t STIX_CYBER_OBSERVABLE_MAPPING = Some ty ->
            String.eqb ty "Unknown" = false
            /\ (if String.eqb t "file" then String.eqb ty "StixFile"
                else String.eqb (py_lower ty) t) = true).
  { intros t ty. apply (lookup_str_Forall
      (fun t ty => String.eqb ty "Unknown" = false
                   /\ (if String.eqb t "file" then String.eqb ty "StixFile"
                       else String.eqb (py_lower ty) t) = true)).
    repeat constructor. }
  unfold stix_observable_opencti_type. split; [|split].
  - destruct (lookup_str observable_type _) as [ty|] eqn:E; [|now split].
    destruct (Hlow _ _ E) as [Hu _]. split; [|discriminate].
    intros ->. discriminate Hu.
  - destruct (lookup_str observable_type _) as [ty|] eqn:E; [|now intros []].
    intros _ Hf. destruct (Hlow _ _ E) as [_ Hl].
    apply String.eqb_neq in Hf. rewrite Hf in Hl. now apply String.eqb_eq.
  - intros other.
    destruct (lookup_str observable_type _) as [ty|] eqn:E; [|now intros []].
    intros _. destruct (lookup_str other _) as [ty'|] eqn:E'.
    + intros ->. destruct (Hlow _ _ E) as [_ Hl]. destruct (Hlow _ _ E') as [_ Hl'].
      destruct (String.eqb observable_type "file") eqn:Ef;
        destruct (String.eqb other "file") eqn:Ef'.
      * apply String.eqb_eq in Ef, Ef'. congruence.
      * apply String.eqb_eq in Hl, Hl'. subst ty. cbn in Hl'. subst other.
        discriminate E'.
      * apply String.eqb_eq in Hl, Hl'. subst ty. cbn in Hl. subst observable_type.
        discriminate E.
      * apply String.eqb_eq in Hl, Hl'. congruence.
    + intros <-. destruct (Hlow _ _ E) as [Hu _]. discriminate Hu.
Qed.

Lemma observable_type_round_trip_witness :
  py_lower (stix_observable_opencti_type "ipv4-addr") = "ipv4-addr".
Proof.
  exact (proj1 (proj2 (observable_type_round_trip "ipv4-addr"))
           ltac:(discriminate) ltac:(discriminate)).
Defined.

(** X28. A pattern made for the OpenCTI type of a STIX type of the table
    is on an object of that STIX type, with the property path of
    [PATTERN_MAPPING]; but no pattern is made ([None]) for the OpenCTI types
    of [file] and of [email-message], which [PATTERN_MAPPING] has under
    other names. *)
Theorem pattern_of_observable_type pattern_text (observable_type opencti_type : string)
  (observable_value : json) :
  lookup_str observable_type STIX_CYBER_OBSERVABLE_MAPPING = Some opencti_type ->
  if String.eqb observable_type "file" || String.eqb observable_type "email-message"
  then create_stix_pattern pattern_text opencti_type observable_value = Return None
  else exists property_path,
         lookup_str opencti_type PATTERN_MAPPING = Some property_path
         /\ create_stix_pattern pattern_text opencti_type observable_value
            = (text <- pattern_text observable_type property_path observable_value ;;
               Return (Some text)).
Proof.
  apply (lookup_str_Forall
           (fun t ty =>
              if String.eqb t "file" || String.eqb t "email-message"
              then create_stix_pattern pattern_text ty observable_value = Return None
              else exists property_path,
                     lookup_str ty PATTERN_MAPPING = Some property_path
                     /\ create_stix_pattern pattern_text ty observable_value
                        = (text <- pattern_text t property_path observable_value ;;
                           Return (Some text)))).
  repeat constructor; cbn [fst snd String.eqb Ascii.eqb Bool.eqb orb];
    try reflexivity; eexists; split; reflexivity.
Qed.

Lemma pattern_of_observable_type_witness :
  create_stix_pattern (fun t path _ => Return (t @@ ":" @@ String.concat "." path))
    "StixFile" (JStr "d41d8cd98f00b204e9800998ecf8427e")
  = Return None.
Proof.
  exact (pattern_of_observable_type
           (fun t path _ => Return (t @@ ":" @@ String.concat "." path))
           "file" "StixFile" (JStr "d41d8cd98f00b204e9800998ecf8427e") eq_refl).
Defined.

(** *** The relationships of observables *)

Import StixCyberObservableRelationship.

Lemma queries_app (t1 t2 : list api_action) :
  queries (t1 ++ t2) = queries t1 ++ queries t2.
Proof. apply flat_map_app. Qed.

(** X29. [update_field] sends its mutation only when it is given both an
    [id] and an [input]: when one of them is missing it logs an error,
    returns [None] and sends nothing; and what it sends is one mutation,
    whose variables are the [id], which is then a string, and the
    [input]. *)
Theorem update_field_guard query process_multiple_fields (kwargs : dict)
  (tr : list api_action) :
  let id := kwargs_get kwargs "id" JNull in
  let input := kwargs_get kwargs "input" JNull in
  let out := update_field query process_multiple_fields kwargs tr in
  (is_None id || is_None input = true ->
   out = (tr ++ [Log "error" "Missing parameters: id and key and value"],
          Return JNull))
  /\ (queries (fst out) = queries tr
      \/ queries (fst out)
         = queries tr
           ++ [(update_query_head @@ properties @@ update_query_tail,
                JObj [("id", id); ("input", input)])]
         /\ (exists s, id = JStr s) /\ is_None input = false).
Proof.
  intros id input out. subst out. unfold update_field. fold id input. split.
  - intros H. apply orb_true_iff in H.
    destruct (is_None id), (is_None input); cbn [negb andb];
      try reflexivity; destruct H; discriminate.
  - destruct (is_None id) eqn:Ei; cbn [negb andb].
    + left. unfold gql_bind, log, gql_lift. cbn [fst]. rewrite queries_app. cbn.
      now rewrite List.app_nil_r.
    + destruct (is_None input) eqn:En; cbn [negb].
      * left. unfold gql_bind, log, gql_lift. cbn [fst]. rewrite queries_app. cbn.
        now rewrite List.app_nil_r.
      * destruct id as [ | | | s | | ]; cbn [str_add];
          try (left; reflexivity).
        right. split; [|split; [now exists s | reflexivity]].
        unfold gql_bind, gql_lift, log, opencti_query. cbn [bind].
        destruct (query _ _ _) as [result|e]; cbn [fst];
          rewrite !queries_app; cbn; now rewrite List.app_nil_r.
Qed.

Lemma update_field_guard_witness :
  update_field (fun _ _ _ => Return JNull) (fun v => Return v)
    [("id", JStr "relationship--1")] []
  = ([Log "error" "Missing parameters: id and key and value"], Return JNull).
Proof.
  exact (proj1 (update_field_guard (fun _ _ _ => Return JNull) (fun v => Return v)
                  [("id", JStr "relationship--1")] []) eq_refl).
Defined.

(** [create] raises a [TypeError] when [fromId] or [toId] is not a
    string, as when it is left out: the log line is put together first, and
    nothing has been logged or sent when it fails. *)
Lemma create_needs_both_ends query process_multiple_fields (kwargs : dict)
  (tr : list api_action) :
  (forall s, kwargs_get kwargs "fromId" JNull <> JStr s)
  \/ (forall s, kwargs_get kwargs "toId" JNull <> JStr s) ->
  exists e,
    create query process_multiple_fields kwargs tr = (tr, Raise e)
    /\ exn_cls e = TypeError.
Proof.
  intros H. unfold create, gql_bind, gql_lift.
  destruct (kwargs_get kwargs "fromId" JNull) as [ | | | s | | ] eqn:Ef;
    cbn [str_add bind]; try (eexists; split; reflexivity).
  destruct H as [H | H]; [now contradiction (H s)|].
  destruct (kwargs_get kwargs "toId" JNull) as [ | | | t | | ] eqn:Et;
    cbn [str_add bind]; try (eexists; split; reflexivity).
  now contradiction (H t).
Qed.

Lemma create_needs_both_ends_witness :
  exists e,
    create (fun _ _ _ => Return JNull) (fun v => Return v)
      [("fromId", JStr "observable--1")] []
    = ([], Raise e)
    /\ exn_cls e = TypeError.
Proof.
  apply (create_needs_both_ends (fun _ _ _ => Return JNull) (fun v => Return v)
           [("fromId", JStr "observable--1")] []).
  right. intros s H. discriminate H.
Defined.

(** X30. Without an [id], [read] lists by the filters it was given and
    returns the first relationship found, or [None]: one query is sent, for
    at most 500 relationships, with the default attributes, whatever
    [customAttributes] says, and with no order. *)
Theorem read_without_id query process_multiple process_multiple_fields py_str
  (kwargs : dict) (tr : list api_action) :
  is_None (kwargs_get kwargs "id" JNull) = true ->
  let get := fun k => kwargs_get kwargs k JNull in
  let line :=
    Log "info"
      ("Listing stix_observable_relationships with {type: "
       @@ py_str (get "relationship_type")
       @@ ", from_id: " @@ py_str (get "fromId")
       @@ ", to_id: " @@ py_str (get "toId") @@ "}") in
  let q := list_query_head @@ properties @@ list_query_tail in
  let variables :=
    JObj [("elementId", get "elementId");
          ("fromId", get "fromId");
          ("fromTypes", JNull);
          ("toId", get "toId");
          ("toTypes", JNull);
          ("relationship_type", get "relationship_type");
          ("startTimeStart", get "startTimeStart");
          ("startTimeStop", get "startTimeStop");
          ("stopTimeStart", get "stopTimeStart");
          ("stopTimeStop", get "stopTimeStop");
          ("filters", JArr []);
          ("first", JInt 500);
          ("after", JNull);
          ("orderBy", JNull);
          ("orderMode", JNull)] in
  read query process_multiple process_multiple_fields py_str kwargs tr
  = (tr ++ [line; Query q variables],
     result <- query (tr ++ [line]) q variables ;;
     data <- getitem result "data" ;;
     found <- getitem data "stixCyberObservableRelationships" ;;
     found <- process_multiple found (JBool false) ;;
     first_or_none found).
Proof.
  intros Hid get line q variables. subst get line q variables.
  unfold read. rewrite Hid. cbn [negb].
  unfold list_, gql_bind, gql_lift, log, opencti_query, kwargs_get.
  cbn [dict_get String.eqb Ascii.eqb Bool.eqb py_truthy is_None negb str_add bind].
  rewrite <- app_assoc. cbn [List.app].
  destruct (query _ _ _) as [result|e]; cbn [bind]; [|reflexivity].
  destruct (getitem result "data") as [data|e]; cbn [bind]; [|reflexivity].
  destruct (getitem data "stixCyberObservableRelationships") as [found|e];
    cbn [bind]; [|reflexivity].
  destruct (process_multiple found (JBool false)) as [l|e]; cbn [bind]; reflexivity.
Qed.

Lemma read_without_id_witness :
  snd (read (fun _ _ _ =>
               Return (JObj [("data",
                              JObj [("stixCyberObservableRelationships", JArr [])])]))
         (fun v _ => Return v) (fun v => Return v) (fun _ => "None")
         [("customAttributes", JStr "id")] [])
  = Return JNull.
Proof.
  rewrite (read_without_id
             (fun _ _ _ =>
                Return (JObj [("data",
                               JObj [("stixCyberObservableRelationships", JArr [])])]))
             (fun v _ => Return v) (fun v => Return v) (fun _ => "None")
             [("customAttributes", JStr "id")] [] eq_refl).
  reflexivity.
Defined.
